(** * SeisComP inventory analyzer and editor: a shallow embedding

    The development follows the two programs of the repository:
    - [seiscomp-inventory-analyzer.py] (class [UnifiedSeisCompAnalyzer]):
      identifier index, hierarchy walk, stream resolution, projection;
    - [seiscomp-inventory-editor-gui.py] (class [SeisCompInventoryEditor]):
      field-level mutation of document nodes, derived sample rate, save.

    Python [str] values are modelled by [string], one character per code
    point below 256.  An [xml.etree.ElementTree] element is an inductive
    value; a method that mutates a node in place becomes a function that
    returns the new node. *)

From Stdlib Require Import ZArith List Ascii String Bool Lia.
From Stdlib Require Import SpecFloat DecimalString.
From stdpp Require Import base option list gmap strings.

Local Open Scope string_scope.
Local Open Scope Z_scope.

#[local] Set Warnings "-register-all".

(** ** Part I. Definitions *)

(** *** Python values *)

(** Truth value of a [str]: only the empty string is false. *)
Definition str_truthy (s : string) : bool :=
  match s with
  | EmptyString => false
  | String _ _ => true
  end.

(** *** xml.etree.ElementTree *)

Module ET.

(** An element: qualified tag, attribute dictionary, text, tail and the
    ordered children. *)
Inductive Element : Type :=
  mkElement {
    tag : string;
    attrib : gmap string string;
    text : option string;
    tail : option string;
    children : list Element
  }.

(** The namespace map [self.ns] of both classes. *)
Definition ns_sc3 : string :=
  "http://geofon.gfz-potsdam.de/ns/seiscomp3-schema/0.12".

(** ['sc3:name'] resolved against [self.ns]: ['{uri}name']. *)
Definition sc3 (name : string) : string :=
  "{" ++ ns_sc3 ++ "}" ++ name.

Definition has_tag (q : string) (e : Element) : bool :=
  String.eqb (tag e) q.

(** [Element.iter()]: the element, then its descendants, in document
    order. *)
Fixpoint iter (e : Element) : list Element :=
  match e with
  | mkElement _ _ _ _ cs => e :: flat_map iter cs
  end.

(** The proper descendants, in document order. *)
Definition descendants (e : Element) : list Element :=
  flat_map iter (children e).

(** [element.find('sc3:name', ns)]: the first direct child with the
    tag. *)
Definition find (name : string) (e : Element) : option Element :=
  List.find (has_tag (sc3 name)) (children e).

(** [element.findall('sc3:name', ns)]: the direct children with the
    tag. *)
Definition findall (name : string) (e : Element) : list Element :=
  List.filter (has_tag (sc3 name)) (children e).

(** [element.findall('.//sc3:name', ns)]: every proper descendant with
    the tag, in document order. *)
Definition findall_desc (name : string) (e : Element) : list Element :=
  List.filter (has_tag (sc3 name)) (descendants e).

(** [element.get(key)] and [element.get(key, default)]. *)
Definition get (key : string) (e : Element) : option string :=
  attrib e !! key.

Definition get_default (key dflt : string) (e : Element) : string :=
  default dflt (attrib e !! key).

(** [element.set(key, value)] and [del element.attrib[key]]. *)
Definition set (key value : string) (e : Element) : Element :=
  mkElement (tag e) (<[key := value]> (attrib e)) (text e) (tail e)
            (children e).

Definition del_attrib (key : string) (e : Element) : Element :=
  mkElement (tag e) (delete key (attrib e)) (text e) (tail e) (children e).

(** [ET.SubElement(parent, q)]: a new empty element appended to the
    children of [parent]. *)
Definition SubElement (parent : Element) (q : string) : Element :=
  mkElement (tag parent) (attrib parent) (text parent) (tail parent)
            (children parent ++ [mkElement q ∅ None None []]).

(** [elem.text = value] on the first child with tag [q], the node that
    [find] returns. *)
Fixpoint set_first_text (q value : string) (cs : list Element)
  : list Element :=
  match cs with
  | [] => []
  | c :: cs' =>
      if has_tag q c
      then mkElement (tag c) (attrib c) (Some value) (tail c) (children c)
             :: cs'
      else c :: set_first_text q value cs'
  end.

(** [element.remove(elem)] for the first child with tag [q]. *)
Fixpoint remove_first (q : string) (cs : list Element) : list Element :=
  match cs with
  | [] => []
  | c :: cs' => if has_tag q c then cs' else c :: remove_first q cs'
  end.

Definition with_children (e : Element) (cs : list Element) : Element :=
  mkElement (tag e) (attrib e) (text e) (tail e) cs.

End ET.

(** *** Python built-ins used by the two programs *)

Module Py.

(** The exceptions that occur in the modelled code.  [ValueError] carries
    its message where the source supplies one. *)
Inductive exn : Type :=
| ValueError (msg : string)
| TypeError
| ZeroDivisionError
| OverflowError
| KeyError (key : string)
| OSError
| UnboundLocalError.

(** Sequencing of statements that may raise. *)
Definition bind {A B : Type} (m : exn + A) (k : A -> exn + B) : exn + B :=
  match m with
  | inl e => inl e
  | inr a => k a
  end.

(** A [float] is an IEEE 754 binary64 value. *)
Definition prec : Z := 53.
Definition emax : Z := 1024.

Definition is_digit (c : ascii) : bool :=
  let n := N_of_ascii c in ((48 <=? n) && (n <=? 57))%N.

Definition digit_val (c : ascii) : Z := Z.of_N (N_of_ascii c) - 48.

(** White space stripped by [float()]: the C locale's space characters
    and, among the code points below 256, the two that the conversion to
    ASCII turns into a space (NEL and NBSP). *)
Definition is_space (c : ascii) : bool :=
  let n := N_of_ascii c in
  (((9 <=? n) && (n <=? 13)) || (n =? 32) || (n =? 133) || (n =? 160))%N.

Definition lower (c : ascii) : ascii :=
  let n := N_of_ascii c in
  if ((65 <=? n) && (n <=? 90))%N then ascii_of_N (n + 32) else c.

(** Underscores are accepted between digits only and are dropped. *)
Fixpoint drop_underscores (prev : ascii) (s : string) : option string :=
  match s with
  | EmptyString => if Ascii.eqb prev "_" then None else Some EmptyString
  | String c r =>
      if Ascii.eqb c "_" then
        if is_digit prev then drop_underscores c r else None
      else if Ascii.eqb prev "_" && negb (is_digit c) then None
      else option_map (String c) (drop_underscores c r)
  end.

Fixpoint lstrip (s : string) : string :=
  match s with
  | String c r => if is_space c then lstrip r else s
  | EmptyString => EmptyString
  end.

Fixpoint rstrip (s : string) : string :=
  match s with
  | EmptyString => EmptyString
  | String c r =>
      match rstrip r with
      | EmptyString => if is_space c then EmptyString else String c EmptyString
      | r' => String c r'
      end
  end.

(** Case-insensitive prefix match against a lower-case word; returns the
    rest of the input. *)
Fixpoint match_word (w s : string) : option string :=
  match w with
  | EmptyString => Some s
  | String a w' =>
      match s with
      | String c r => if Ascii.eqb (lower c) a then match_word w' r else None
      | EmptyString => None
      end
  end.

(** A run of decimal digits: accumulated value, number of digits read,
    rest of the input. *)
Fixpoint take_digits (acc cnt : Z) (s : string) : Z * Z * string :=
  match s with
  | String c r =>
      if is_digit c then take_digits (10 * acc + digit_val c) (cnt + 1) r
      else (acc, cnt, s)
  | EmptyString => (acc, cnt, s)
  end.

Definition take_sign (s : string) : bool * string :=
  match s with
  | String "-" r => (true, r)
  | String "+" r => (false, r)
  | _ => (false, s)
  end.

(** [neg], [n] and [k] stand for the decimal number [(-1)^neg * n * 10^k];
    the result is the nearest binary64 value, ties to even, infinite on
    overflow. *)
Definition decimal_to_float (neg : bool) (n k : Z) : spec_float :=
  match n with
  | Zpos _ =>
      let num := if 0 <=? k then n * 10 ^ k else n in
      let den := if 0 <=? k then 1 else 10 ^ (- k) in
      let '(q, e, l) := SFdiv_core_binary prec emax num 0 den 0 in
      binary_round_aux prec emax neg q e l
  | _ => S754_zero neg
  end.

(** The optional exponent part: consumed only when at least one digit
    follows the [e] and its sign. *)
Definition take_exponent (s : string) : Z * string :=
  match s with
  | String c r =>
      if Ascii.eqb (lower c) "e" then
        let '(neg, r1) := take_sign r in
        let '(x, cnt, r2) := take_digits 0 0 r1 in
        if cnt =? 0 then (0, s) else ((if neg then - x else x), r2)
      else (0, s)
  | EmptyString => (0, s)
  end.

(** A decimal literal after its sign: digits, optional fraction,
    optional exponent, and nothing else. *)
Definition parse_decimal (neg : bool) (s : string) : option spec_float :=
  let '(n1, c1, r1) := take_digits 0 0 s in
  let '(n2, c2, r2) :=
    match r1 with
    | String "." r => take_digits n1 0 r
    | _ => (n1, 0, r1)
    end in
  if c1 + c2 =? 0 then None
  else
    let '(x, r3) := take_exponent r2 in
    match r3 with
    | EmptyString => Some (decimal_to_float neg n2 (x - c2))
    | String _ _ => None
    end.

(** [inf], [infinity] and [nan] in any letter case. *)
Definition parse_inf_or_nan (neg : bool) (s : string) : option spec_float :=
  match match_word "inf" s with
  | Some EmptyString => Some (S754_infinity neg)
  | Some r =>
      match match_word "inity" r with
      | Some EmptyString => Some (S754_infinity neg)
      | _ => None
      end
  | None =>
      match match_word "nan" s with
      | Some EmptyString => Some S754_nan
      | _ => None
      end
  end.

(** [float(s)] for a [str]; [None] stands for [ValueError]. *)
Definition float_of_str (s : string) : option spec_float :=
  match drop_underscores "000" s with
  | None => None
  | Some s1 =>
      let '(neg, body) := take_sign (rstrip (lstrip s1)) in
      match parse_decimal neg body with
      | Some x => Some x
      | None => parse_inf_or_nan neg body
      end
  end.

(** [float(v)] where [v] may be [None]: a [TypeError] for [None], a
    [ValueError] for text that is not a number. *)
Definition float (v : option string) : exn + spec_float :=
  match v with
  | None => inl TypeError
  | Some s =>
      match float_of_str s with
      | Some x => inr x
      | None => inl (ValueError "could not convert string to float")
      end
  end.

(** [int(x)] for a float: truncation toward zero. *)
Definition int (x : spec_float) : exn + Z :=
  match x with
  | S754_zero _ => inr 0
  | S754_infinity _ => inl OverflowError
  | S754_nan => inl (ValueError "cannot convert float NaN to integer")
  | S754_finite s m e =>
      let a := Z.shiftl (Zpos m) e in
      inr (if s then - a else a)
  end.

(** [str(n)] for an integer. *)
Definition str_int (n : Z) : string :=
  NilZero.string_of_int (Z.to_int n).

(** [a / b] on floats. *)
Definition truediv (a b : spec_float) : exn + spec_float :=
  match b with
  | S754_zero _ => inl ZeroDivisionError
  | _ => inr (SFdiv prec emax a b)
  end.

(** [str(x)] for a float: the shortest decimal digit string that converts
    back to [x], laid out as [repr] does. *)

(** Whether [num/den >= 10^k]. *)
Definition ge_pow10 (num den k : Z) : bool :=
  if 0 <=? k then 10 ^ k * den <=? num else den <=? num * 10 ^ (- k).

(** The decimal point position of [num/den]: the [d] with
    [10^(d-1) <= num/den < 10^d], searched around a binary estimate. *)
Definition decimal_point (num den : Z) : Z :=
  let k0 := ((Z.log2 num - Z.log2 den) * 30103) / 100000 in
  match List.find (ge_pow10 num den) [k0 + 2; k0 + 1; k0; k0 - 1] with
  | Some k => k + 1
  | None => k0 - 1
  end.

(** The digits [c] (with exponent [p]) of an [n]-digit decimal that
    converts back to [m * 2^e], the nearer one when both neighbours do. *)
Definition digits_at (m : positive) (e : Z) (num den d : Z) (n : Z)
  : option (Z * Z) :=
  let p := d - n in
  let a := if 0 <=? p then num else num * 10 ^ (- p) in
  let b := if 0 <=? p then den * 10 ^ p else den in
  let lo := a / b in
  let r := a mod b in
  let back c := SFeqb (decimal_to_float false c p) (S754_finite false m e) in
  if r =? 0 then Some (lo, p)
  else
    match back lo, back (lo + 1) with
    | true, true =>
        match 2 * r ?= b with
        | Lt => Some (lo, p)
        | Gt => Some (lo + 1, p)
        | Eq => Some ((if Z.even lo then lo else lo + 1), p)
        end
    | true, false => Some (lo, p)
    | false, true => Some (lo + 1, p)
    | false, false => None
    end.

Fixpoint strip_zeros (fuel : nat) (c p : Z) : Z * Z :=
  match fuel with
  | O => (c, p)
  | S fuel' =>
      if (c mod 10 =? 0) && (0 <? c) then strip_zeros fuel' (c / 10) (p + 1)
      else (c, p)
  end.

(** Digit string and decimal point position of a positive finite float. *)
Definition shortest_digits (m : positive) (e : Z) : string * Z :=
  let num := if 0 <=? e then Zpos m * 2 ^ e else Zpos m in
  let den := if 0 <=? e then 1 else 2 ^ (- e) in
  let d := decimal_point num den in
  let fix search (ns : list Z) : Z * Z :=
    match ns with
    | [] => (num * 10 ^ 17 / (den * 10 ^ d), d - 17)
    | n :: ns' =>
        match digits_at m e num den d n with
        | Some cp => cp
        | None => search ns'
        end
    end in
  let '(c, p) := search [1; 2; 3; 4; 5; 6; 7; 8; 9; 10; 11; 12; 13; 14; 15; 16; 17] in
  let '(c, p) := strip_zeros 20 c p in
  let ds := NilZero.string_of_int (Z.to_int c) in
  (ds, p + Z.of_nat (String.length ds)).

Fixpoint zeros (n : nat) : string :=
  match n with
  | O => EmptyString
  | S n' => String "0" (zeros n')
  end.

(** The layout of [repr]: exponent form when the decimal point lies
    outside [-3 .. 16], positional form with a fractional part
    otherwise. *)
Definition layout (ds : string) (d : Z) : string :=
  let nd := Z.of_nat (String.length ds) in
  if (d <=? -4) || (16 <? d) then
    let x := d - 1 in
    let xs := NilZero.string_of_int (Z.to_int (Z.abs x)) in
    let mant :=
      match ds with
      | String c EmptyString => ds
      | String c r => String c (String "." r)
      | EmptyString => ds
      end in
    mant ++ "e" ++ (if x <? 0 then "-" else "+")
         ++ (if Z.abs x <? 10 then "0" else "") ++ xs
  else if d <=? 0 then "0." ++ zeros (Z.to_nat (- d)) ++ ds
  else if nd <=? d then ds ++ zeros (Z.to_nat (d - nd)) ++ ".0"
  else substring 0 (Z.to_nat d) ds ++ "."
       ++ substring (Z.to_nat d) (Z.to_nat (nd - d)) ds.

Definition str_float (x : spec_float) : string :=
  match x with
  | S754_zero s => if s then "-0.0" else "0.0"
  | S754_infinity s => if s then "-inf" else "inf"
  | S754_nan => "nan"
  | S754_finite s m e =>
      let '(ds, d) := shortest_digits m e in
      (if s then "-" else "") ++ layout ds d
  end.

End Py.

Notation "'do' x <- m ; k" := (Py.bind m (fun x => k))
  (at level 10, x name, m at level 100, k at level 200,
   format "'[v' 'do'  x  <-  m ; '/' k ']'").

(** *** The editor: [SeisCompInventoryEditor] *)

Module Editor.
Import ET.

(** [_get_element_text(element, tag, default='')]: the text of the first
    child with the tag, which is [None] for a child without text, and
    the default when there is no such child. *)
Definition _get_element_text (element : Element) (tag dflt : string)
  : option string :=
  match find tag element with
  | Some elem => text elem
  | None => Some dflt
  end.

(** [_update_element_text(element, tag, value)]. *)
Definition _update_element_text (element : Element) (tag value : string)
  : Element :=
  let elem := find tag element in
  let element1 :=
    match elem with
    | None =>
        if str_truthy value then SubElement element (sc3 tag) else element
    | Some _ => element
    end in
  if str_truthy value then
    with_children element1
      (set_first_text (sc3 tag) value (children element1))
  else
    match elem with
    | Some _ =>
        with_children element1 (remove_first (sc3 tag) (children element1))
    | None => element1
    end.

(** What the input widgets of a tab hold when its update button is
    pressed: [QLineEdit.text()] is always a [str]. *)
Record station_form : Type := {
  station_code : string;
  station_name : string;
  station_description : string;
  station_lat : string;
  station_lon : string;
  station_elevation : string
}.

Record equipment_form : Type := {
  equipment_name : string;
  equipment_type : string;
  equipment_model : string;
  equipment_manufacturer : string;
  equipment_serial : string
}.

Record stream_form : Type := {
  stream_code : string;
  stream_start : string;
  stream_end : string;
  stream_depth : string;
  stream_azimuth : string;
  stream_dip : string;
  stream_gain : string;
  stream_sampleRate : string;
  stream_gainFrequency : string;
  stream_gainUnit : string;
  stream_datalogger_serialnumber : string;
  stream_sensor_serialnumber : string;
  stream_flags : string
}.

(** Outcome of an update method on [self.current_element].  [Committed]:
    the [try] block ran to its end, [unsaved_changes] is set and the
    tree view rebuilt.  [Failed]: an exception reached the method's
    handler, which shows it in a message box; the node is as the
    statements before the exception left it and [unsaved_changes] is
    not touched. *)
Inductive commit : Type :=
| Committed (node : Element)
| Failed (node : Element) (e : Py.exn).

Definition node_of (c : commit) : Element :=
  match c with
  | Committed n => n
  | Failed n _ => n
  end.

Definition update_station (f : station_form) (current_element : Element)
  : commit :=
  let e := current_element in
  let e := if str_truthy (station_code f)
           then set "code" (station_code f) e else e in
  let e := if str_truthy (station_name f)
           then set "name" (station_name f) e
           else if bool_decide (is_Some (attrib e !! "name"))
                then del_attrib "name" e else e in
  let e := _update_element_text e "description" (station_description f) in
  let e := _update_element_text e "latitude" (station_lat f) in
  let e := _update_element_text e "longitude" (station_lon f) in
  let e := _update_element_text e "elevation" (station_elevation f) in
  Committed e.

(** [update_sensor] and [update_datalogger] have the same body, on their
    own widgets. *)
Definition update_equipment (f : equipment_form) (current_element : Element)
  : commit :=
  let e := set "name" (equipment_name f) current_element in
  let e := _update_element_text e "type" (equipment_type f) in
  let e := _update_element_text e "model" (equipment_model f) in
  let e := _update_element_text e "manufacturer" (equipment_manufacturer f) in
  let e := _update_element_text e "serialNumber" (equipment_serial f) in
  Committed e.

Definition update_sensor := update_equipment.
Definition update_datalogger := update_equipment.

(** The inner [try] of [update_stream]: the sample rate is written as an
    integer numerator over the denominator 1.  [ValueError] and
    [TypeError] are passed over in silence; any other exception leaves
    the block. *)
Definition store_sample_rate (rate_text : string) (e : Element)
  : Py.exn + Element :=
  match Py.float (Some rate_text) with
  | inl (Py.ValueError _) | inl Py.TypeError => inr e
  | inl x => inl x
  | inr sample_rate =>
      match Py.int sample_rate with
      | inl (Py.ValueError _) | inl Py.TypeError => inr e
      | inl x => inl x
      | inr n =>
          let e := _update_element_text e "sampleRateNumerator"
                     (Py.str_int n) in
          inr (_update_element_text e "sampleRateDenominator" "1")
      end
  end.

Definition update_stream (f : stream_form) (current_element : Element)
  : commit :=
  let e := set "code" (stream_code f) current_element in
  let e := _update_element_text e "start" (stream_start f) in
  let e := _update_element_text e "end" (stream_end f) in
  let e := _update_element_text e "depth" (stream_depth f) in
  let e := _update_element_text e "azimuth" (stream_azimuth f) in
  let e := _update_element_text e "dip" (stream_dip f) in
  let e := _update_element_text e "gain" (stream_gain f) in
  match store_sample_rate (stream_sampleRate f) e with
  | inl x => Failed e x
  | inr e =>
      let e := _update_element_text e "gainFrequency"
                 (stream_gainFrequency f) in
      let e := _update_element_text e "gainUnit" (stream_gainUnit f) in
      let e := _update_element_text e "dataloggerSerialNumber"
                 (stream_datalogger_serialnumber f) in
      let e := _update_element_text e "sensorSerialNumber"
                 (stream_sensor_serialnumber f) in
      let e := _update_element_text e "flags" (stream_flags f) in
      Committed e
  end.

(** [QLineEdit.setText(v)] for a [str] or [None]: the text that the
    widget holds afterwards.  PyQt5 takes [None] for the null string, so
    the widget is then empty; no exception is raised.  The widget cuts
    a text beyond the 32767 characters that it holds by default: the
    forms stand for texts that widgets hold, and a statement about the
    text of an arbitrary node names the bound. *)
Definition setText (v : option string) : Py.exn + string :=
  match v with
  | Some s => inr s
  | None => inr EmptyString
  end.

(** The sample-rate block of [populate_stream_fields]: the quotient of
    numerator and denominator as text, and the empty text when the
    [try] ends in [ValueError] or [ZeroDivisionError]. *)
Definition displayed_sample_rate (stream : Element) : Py.exn + string :=
  let numerator := _get_element_text stream "sampleRateNumerator" "0" in
  let denominator := _get_element_text stream "sampleRateDenominator" "1" in
  let body :=
    do a <- Py.float numerator;
    do b <- Py.float denominator;
    do sample_rate <- Py.truediv a b;
    inr (Py.str_float sample_rate) in
  match body with
  | inl (Py.ValueError _) | inl Py.ZeroDivisionError => inr EmptyString
  | other => other
  end.

(** [populate_stream_fields(stream)]: the texts put into the widgets of
    the stream tab, or the exception that leaves the method. *)
Definition populate_stream_fields (stream : Element)
  : Py.exn + stream_form :=
  let field tag := setText (_get_element_text stream tag "") in
  let code := get_default "code" "" stream in
  do start <- field "start";
  do end_ <- field "end";
  do depth <- field "depth";
  do azimuth <- field "azimuth";
  do dip <- field "dip";
  do gain <- field "gain";
  do rate <- displayed_sample_rate stream;
  do gainFrequency <- field "gainFrequency";
  do gainUnit <- field "gainUnit";
  do dl_serial <- field "dataloggerSerialNumber";
  do sensor_serial <- field "sensorSerialNumber";
  do flags <- field "flags";
  inr {| stream_code := code; stream_start := start; stream_end := end_;
         stream_depth := depth; stream_azimuth := azimuth;
         stream_dip := dip; stream_gain := gain;
         stream_sampleRate := rate;
         stream_gainFrequency := gainFrequency;
         stream_gainUnit := gainUnit;
         stream_datalogger_serialnumber := dl_serial;
         stream_sensor_serialnumber := sensor_serial;
         stream_flags := flags |}.

(** [populate_station_fields(station)]: the texts put into the widgets of
    the station tab.  No statement of the method raises; the result has
    the type of [populate_stream_fields], which [item_selected] treats
    alike. *)
Definition populate_station_fields (station : Element)
  : Py.exn + station_form :=
  let field tag := setText (_get_element_text station tag "") in
  let code := get_default "code" "" station in
  let name := get_default "name" "" station in
  do description <- field "description";
  do lat <- field "latitude";
  do lon <- field "longitude";
  do elevation <- field "elevation";
  inr {| station_code := code; station_name := name;
         station_description := description; station_lat := lat;
         station_lon := lon; station_elevation := elevation |}.

(** [populate_sensor_fields] and [populate_datalogger_fields] have the
    same body, on their own widgets. *)
Definition populate_equipment_fields (equipment : Element)
  : Py.exn + equipment_form :=
  let field tag := setText (_get_element_text equipment tag "") in
  let name := get_default "name" "" equipment in
  do type <- field "type";
  do model <- field "model";
  do manufacturer <- field "manufacturer";
  do serial <- field "serialNumber";
  inr {| equipment_name := name; equipment_type := type;
         equipment_model := model;
         equipment_manufacturer := manufacturer;
         equipment_serial := serial |}.

Definition populate_sensor_fields := populate_equipment_fields.
Definition populate_datalogger_fields := populate_equipment_fields.

(** **** Saving *)

(** The part of the session that [save_xml] reads and writes. *)
Record Session : Type := {
  current_file : option string;
  tree : option Element;
  unsaved_changes : bool
}.

(** The states of a document session: nothing loaded, loaded and saved,
    loaded with unsaved changes. *)
Inductive session_state : Type := Unloaded | Loaded | Dirty.

Definition state_of (self : Session) : session_state :=
  match tree self with
  | None => Unloaded
  | Some _ => if unsaved_changes self then Dirty else Loaded
  end.

(** What a file holds: the complete output of [tree.write] for a tree,
    the beginning of such an output, or bytes of another origin. *)
Inductive file_data : Type :=
| Serialized (root : Element)
| Truncated (root : Element)
| Bytes (data : string).

(** The files by path.  Paths are taken as the file dialog returns them:
    absolute and normalised, with [/] as separator. *)
Abbreviation filesystem := (gmap string file_data).

(** How the call of [tree.write] ends: the file is written; the file
    cannot be opened; the file is created and the write breaks off. *)
Inductive write_outcome : Type :=
| WriteOk
| WriteFailsAtOpen
| WriteFailsMidway.

(** [s.rpartition(sep)] when [sep] occurs: the parts before and after
    its last occurrence. *)
Fixpoint rpartition (sep : ascii) (s : string) : option (string * string) :=
  match s with
  | EmptyString => None
  | String c r =>
      match rpartition sep r with
      | Some (b, a) => Some (String c b, a)
      | None => if Ascii.eqb c sep then Some (EmptyString, r) else None
      end
  end.

(** [Path(path).with_suffix(suffix)] as text; [None] stands for the
    [ValueError] of a path with an empty name. *)
Definition with_suffix (path suffix : string) : option string :=
  let '(dir, name) :=
    match rpartition "/" path with
    | Some (d, n) => (d ++ "/", n)
    | None => (EmptyString, path)
    end in
  match name with
  | EmptyString => None
  | String _ _ =>
      match rpartition "." name with
      | Some (String c stem, String c' ext) =>
          Some (dir ++ String c stem ++ suffix)
      | _ => Some (dir ++ name ++ suffix)
      end
  end.

(** [Path(src).rename(dst)] on a POSIX system: a missing source is an
    error, an existing target is replaced. *)
Definition rename (src dst : string) (fs : filesystem)
  : Py.exn + filesystem :=
  match fs !! src with
  | None => inl Py.OSError
  | Some d => inr (<[dst := d]> (delete src fs))
  end.

(** [tree.write(path, ...)]. *)
Definition write (w : write_outcome) (root : Element) (path : string)
  (fs : filesystem) : filesystem * option Py.exn :=
  match w with
  | WriteOk => (<[path := Serialized root]> fs, None)
  | WriteFailsAtOpen => (fs, Some Py.OSError)
  | WriteFailsMidway => (<[path := Truncated root]> fs, Some Py.OSError)
  end.

(** Result of [save_xml]: the session, the files and the exceptions shown
    in message boxes; or the exception that leaves the method. *)
Definition save_result : Type :=
  Py.exn + (Session * filesystem * list Py.exn).

(** The [except] block of [save_xml]: the message box, then the backup is
    renamed back if it exists. *)
Definition save_handler (self : Session) (file : string)
  (backup_path : option string) (e : Py.exn) (fs : filesystem)
  : save_result :=
  match backup_path with
  | None => inl Py.UnboundLocalError
  | Some b =>
      if bool_decide (is_Some (fs !! b)) then
        do fs' <- rename b file fs;
        inr (self, fs', [e])
      else inr (self, fs, [e])
  end.

Definition save_xml (w : write_outcome) (self : Session) (fs : filesystem)
  : save_result :=
  match current_file self, tree self with
  | Some file, Some root =>
      if str_truthy file then
        match with_suffix file ".xml.bak" with
        | None =>
            save_handler self file None
              (Py.ValueError "has an empty name") fs
        | Some backup_path =>
            match rename file backup_path fs with
            | inl e => save_handler self file (Some backup_path) e fs
            | inr fs1 =>
                match write w root file fs1 with
                | (fs2, Some e) =>
                    save_handler self file (Some backup_path) e fs2
                | (fs2, None) =>
                    inr ({| current_file := current_file self;
                            tree := tree self;
                            unsaved_changes := false |}, fs2, [])
                end
            end
        end
      else inr (self, fs, [])
  | _, _ => inr (self, fs, [])
  end.

(** **** The tree view and the selection *)

(** An item of the tree widget: the text of its first column, the data
    stored under [Qt.UserRole], which is a pair of a type name and an
    element and which the two group items lack, and the child items. *)
Inductive TreeItem : Type :=
  mkTreeItem {
    item_text : string;
    item_data : option (string * Element);
    item_children : list TreeItem
  }.

(** [populate_tree()]: the top-level items of the tree widget after the
    call, which begins by clearing the widget. *)
Definition populate_tree (root : Element) : list TreeItem :=
  match find "Inventory" root with
  | None => []
  | Some inventory =>
      let networks :=
        List.map
          (fun network =>
             mkTreeItem ("Network: " ++ get_default "code" "" network)
               (Some ("network", network))
               (List.map
                  (fun station =>
                     mkTreeItem
                       ("Station: " ++ get_default "code" "" station)
                       (Some ("station", station))
                       (List.map
                          (fun location =>
                             mkTreeItem
                               ("Location: "
                                  ++ get_default "code" "" location)
                               (Some ("location", location))
                               (List.map
                                  (fun stream =>
                                     mkTreeItem
                                       ("Stream: "
                                          ++ get_default "code" "" stream)
                                       (Some ("stream", stream)) [])
                                  (findall "stream" location)))
                          (findall_desc "sensorLocation" station)))
                  (findall_desc "station" network)))
          (findall_desc "network" inventory) in
      let sensors := findall_desc "sensor" inventory in
      let sensors_item :=
        match sensors with
        | [] => []
        | _ :: _ =>
            [mkTreeItem "Sensors" None
               (List.map
                  (fun sensor =>
                     mkTreeItem ("Sensor: " ++ get_default "name" "" sensor)
                       (Some ("sensor", sensor)) [])
                  sensors)]
        end in
      let dataloggers := findall_desc "datalogger" inventory in
      let dataloggers_item :=
        match dataloggers with
        | [] => []
        | _ :: _ =>
            [mkTreeItem "Dataloggers" None
               (List.map
                  (fun datalogger =>
                     mkTreeItem
                       ("Datalogger: "
                          ++ get_default "name" "" datalogger)
                       (Some ("datalogger", datalogger)) [])
                  dataloggers)]
        end in
      (networks ++ sensors_item ++ dataloggers_item)%list
  end.

(** The tab that [item_selected] brings to the front, with the texts put
    into its widgets. *)
Inductive tab : Type :=
| StationTab (f : station_form)
| SensorTab (f : equipment_form)
| DataloggerTab (f : equipment_form)
| StreamTab (f : stream_form).

(** [item_selected(item)] for an item of the tree: the value of
    [self.current_element] after the call, [None] standing for an
    attribute that does not exist yet, and the tab filled, if any, or the
    exception that leaves the method.  The data of an item that has none
    is [None], which the tuple assignment cannot unpack. *)
Definition item_selected (current_element : option Element)
  (item : TreeItem) : option Element * (Py.exn + option tab) :=
  match item_data item with
  | None => (current_element, inl Py.TypeError)
  | Some (item_type, element) =>
      (Some element,
       if String.eqb item_type "station" then
         do f <- populate_station_fields element;
         inr (Some (StationTab f))
       else if String.eqb item_type "sensor" then
         do f <- populate_sensor_fields element;
         inr (Some (SensorTab f))
       else if String.eqb item_type "datalogger" then
         do f <- populate_datalogger_fields element;
         inr (Some (DataloggerTab f))
       else if String.eqb item_type "stream" then
         do f <- populate_stream_fields element;
         inr (Some (StreamTab f))
       else inr None)
  end.

(** **** Loading and closing *)

(** [_validate_xml_structure(root)]. *)
Definition _validate_xml_structure (root : Element) : bool :=
  if negb (String.eqb (tag root) (sc3 "seiscomp")) then false
  else
    match find "Inventory" root with
    | Some _ => true
    | None => false
    end.

(** What [ET.parse(filename)] does: it raises [ET.ParseError], it raises
    another exception, or it yields the root of the document. *)
Inductive parse_result : Type :=
| ParseError (msg : string)
| ParseRaises (e : Py.exn)
| Parsed (root : Element).

(** The message boxes of [load_xml], by their titles. *)
Inductive load_message : Type :=
| Invalid_File
| XML_Parse_Error (msg : string)
| Error (e : Py.exn).

(** [load_xml()]: [filename] is what the file dialog returns, empty when
    it is cancelled.  The result is the session, the items of the tree
    widget and the message boxes shown. *)
Definition load_xml (filename : string) (parse : parse_result)
  (self : Session) (tree_widget : list TreeItem)
  : Session * list TreeItem * list load_message :=
  if str_truthy filename then
    match parse with
    | ParseError msg => (self, tree_widget, [XML_Parse_Error msg])
    | ParseRaises e => (self, tree_widget, [Error e])
    | Parsed root =>
        if negb (_validate_xml_structure root) then
          (self, tree_widget, [Invalid_File])
        else
          ({| current_file := Some filename;
              tree := Some root;
              unsaved_changes := unsaved_changes self |},
           populate_tree root, [])
    end
  else (self, tree_widget, []).

(** The button of the question that [closeEvent] asks. *)
Inductive reply : Type := Save | Discard | Cancel.

(** [closeEvent(event)]: whether the event is accepted, so that the
    window closes, with the session, the files and the message boxes of
    the save; or the exception that leaves the method.  The writes to
    the application settings are left out. *)
Definition closeEvent (answer : reply) (w : write_outcome)
  (self : Session) (fs : filesystem)
  : Py.exn + (bool * Session * filesystem * list Py.exn) :=
  if unsaved_changes self then
    match answer with
    | Save =>
        do saved <- save_xml w self fs;
        let '(self', fs', shown) := saved in
        inr (true, self', fs', shown)
    | Cancel => inr (false, self, fs, [])
    | Discard => inr (true, self, fs, [])
    end
  else inr (true, self, fs, []).

End Editor.

(** *** The analyzer: [UnifiedSeisCompAnalyzer] *)

Module Analyzer.
Import ET.

(** A dictionary whose values are [None] or a [str]: the equipment
    records and the resolved stream records. *)
Abbreviation dict := (gmap string (option string)).

(** One entry of a datalogger's decimation list. *)
Record decimation_info : Type := {
  sampleRateNumerator : option string;
  sampleRateDenominator : option string;
  analogueFilterChain : option string;
  digitalFilterChain : option string
}.

(** A datalogger record: the text fields, and the value of its
    ['decimations'] key. *)
Record datalogger_info : Type := {
  fields : dict;
  decimations : list decimation_info
}.

Record Analyzer : Type := {
  sensor_lookup : gmap (option string) dict;
  datalogger_lookup : gmap (option string) datalogger_info;
  response_lookup : gmap (option string) dict;
  paz_lookup : gmap (option string) dict;
  unified_data : list dict
}.

(** The state after [__init__]. *)
Definition init : Analyzer :=
  {| sensor_lookup := ∅; datalogger_lookup := ∅; response_lookup := ∅;
     paz_lookup := ∅; unified_data := [] |}.

(** [_get_element_text(element, tag)]. *)
Definition _get_element_text (element : Element) (tag : string)
  : option string :=
  match find tag element with
  | Some elem => text elem
  | None => None
  end.

(** **** [json.dumps] of a decimation list *)

Definition hex_digit (n : N) : ascii :=
  ascii_of_N (if (n <? 10)%N then 48 + n else 87 + n).

(** One character inside a JSON string, with [ensure_ascii]. *)
Definition json_char (c : ascii) : string :=
  let n := N_of_ascii c in
  let bs := "\" in
  if (n =? 34)%N then bs ++ String c EmptyString
  else if (n =? 92)%N then bs ++ bs
  else if (n =? 8)%N then bs ++ "b"
  else if (n =? 12)%N then bs ++ "f"
  else if (n =? 10)%N then bs ++ "n"
  else if (n =? 13)%N then bs ++ "r"
  else if (n =? 9)%N then bs ++ "t"
  else if ((32 <=? n) && (n <=? 126))%N then String c EmptyString
  else bs ++ "u00" ++ String (hex_digit (n / 16))
                        (String (hex_digit (n mod 16)) EmptyString).

Fixpoint json_chars (s : string) : string :=
  match s with
  | EmptyString => EmptyString
  | String c r => json_char c ++ json_chars r
  end.

Definition json_str (s : string) : string :=
  let dq := String (ascii_of_N 34) EmptyString in
  dq ++ json_chars s ++ dq.

Definition json_value (v : option string) : string :=
  match v with
  | None => "null"
  | Some s => json_str s
  end.

Definition json_decimation (d : decimation_info) : string :=
  "{" ++ json_str "sampleRateNumerator" ++ ": "
      ++ json_value (sampleRateNumerator d) ++ ", "
      ++ json_str "sampleRateDenominator" ++ ": "
      ++ json_value (sampleRateDenominator d) ++ ", "
      ++ json_str "analogueFilterChain" ++ ": "
      ++ json_value (analogueFilterChain d) ++ ", "
      ++ json_str "digitalFilterChain" ++ ": "
      ++ json_value (digitalFilterChain d) ++ "}".

(** [sep.join(l)]. *)
Fixpoint join (sep : string) (l : list string) : string :=
  match l with
  | [] => EmptyString
  | [x] => x
  | x :: l' => x ++ sep ++ join sep l'
  end.

Definition json_dumps (value : list decimation_info) : string :=
  "[" ++ join ", " (List.map json_decimation value) ++ "]".

(** **** The identifier index *)

Definition sensor_info (sensor : Element) : dict :=
  list_to_map [
    ("sensor_name", Some (get_default "name" "" sensor));
    ("sensor_description", _get_element_text sensor "description");
    ("sensor_manufacturer", _get_element_text sensor "manufacturer");
    ("sensor_model", _get_element_text sensor "model");
    ("sensor_type", _get_element_text sensor "type");
    ("sensor_unit", _get_element_text sensor "unit");
    ("sensor_response", Some (get_default "response" "" sensor));
    ("sensor_remark", _get_element_text sensor "remark");
    ("sensor_serial_number_equipment",
       _get_element_text sensor "serialNumber")
  ].

Definition decimation_of (decimation : Element) : decimation_info :=
  {| sampleRateNumerator :=
       _get_element_text decimation "sampleRateNumerator";
     sampleRateDenominator :=
       _get_element_text decimation "sampleRateDenominator";
     analogueFilterChain :=
       _get_element_text decimation "analogueFilterChain";
     digitalFilterChain :=
       _get_element_text decimation "digitalFilterChain" |}.

Definition datalogger_info_of (datalogger : Element) : datalogger_info :=
  {| fields := list_to_map [
       ("datalogger_name", Some (get_default "name" "" datalogger));
       ("datalogger_description",
          _get_element_text datalogger "description");
       ("datalogger_manufacturer",
          _get_element_text datalogger "manufacturer");
       ("datalogger_model", _get_element_text datalogger "model");
       ("datalogger_type", _get_element_text datalogger "type");
       ("datalogger_remark", _get_element_text datalogger "remark");
       ("datalogger_serial_number_equipment",
          _get_element_text datalogger "serialNumber")
     ];
     decimations :=
       List.map decimation_of (findall_desc "decimation" datalogger) |}.

Definition response_info (response : Element) : dict :=
  list_to_map [
    ("response_name", Some (get_default "name" "" response));
    ("response_gain", _get_element_text response "gain");
    ("response_frequency", _get_element_text response "frequency");
    ("response_gainFrequency", _get_element_text response "gainFrequency")
  ].

Definition paz_info (paz : Element) : dict :=
  list_to_map [
    ("paz_type", _get_element_text paz "type");
    ("paz_gain", _get_element_text paz "gain");
    ("paz_gainFrequency", _get_element_text paz "gainFrequency");
    ("paz_normalizationFactor",
       _get_element_text paz "normalizationFactor");
    ("paz_normalizationFrequency",
       _get_element_text paz "normalizationFrequency");
    ("paz_numberOfPoles", _get_element_text paz "numberOfPoles");
    ("paz_numberOfZeros", _get_element_text paz "numberOfZeros")
  ].

(** [lookup[elem.get('publicID')] = info(elem)] for each element in turn:
    a later element with the same identifier replaces the earlier. *)
Definition index {V : Type} (info : Element -> V) (elems : list Element)
  (lookup : gmap (option string) V) : gmap (option string) V :=
  fold_left (fun m elem => <[get "publicID" elem := info elem]> m)
            elems lookup.

Definition _build_lookup_tables (self : Analyzer) (inventory : Element)
  : Analyzer :=
  {| sensor_lookup :=
       index sensor_info (findall_desc "sensor" inventory)
             (sensor_lookup self);
     datalogger_lookup :=
       index datalogger_info_of (findall_desc "datalogger" inventory)
             (datalogger_lookup self);
     response_lookup :=
       index response_info (findall_desc "response" inventory)
             (response_lookup self);
     paz_lookup :=
       index paz_info (findall_desc "responsePAZ" inventory)
             (paz_lookup self);
     unified_data := unified_data self |}.

(** **** The hierarchy walk and the stream resolver *)

(** The non-empty texts of the comments below a stream. *)
Definition comment_texts (stream : Element) : list string :=
  flat_map
    (fun comment =>
       match _get_element_text comment "text" with
       | Some comment_text =>
           if str_truthy comment_text then [comment_text] else []
       | None => []
       end)
    (findall_desc "comment" stream).

(** The body of the [try] block of [_process_stream]: the record that is
    appended to [unified_data].  None of its statements raises on an
    element of a parsed document. *)
Definition stream_record (self : Analyzer)
  (network_code : string) (network_start network_end : option string)
  (station_code : string) (station_start station_end : option string)
  (location_code : string) (latitude longitude elevation : option string)
  (stream : Element) : dict :=
  let stream_data : dict := list_to_map [
    ("network", Some network_code);
    ("network_start", network_start);
    ("network_end", network_end);
    ("station", Some station_code);
    ("station_start", station_start);
    ("station_end", station_end);
    ("location", Some location_code);
    ("latitude", latitude);
    ("longitude", longitude);
    ("elevation", elevation);
    ("channel", Some (get_default "code" "" stream));
    ("stream_start", _get_element_text stream "start");
    ("stream_end", _get_element_text stream "end");
    ("depth", _get_element_text stream "depth");
    ("azimuth", _get_element_text stream "azimuth");
    ("dip", _get_element_text stream "dip");
    ("gain", _get_element_text stream "gain");
    ("gainFrequency", _get_element_text stream "gainFrequency");
    ("gainUnit", _get_element_text stream "gainUnit");
    ("format", _get_element_text stream "format");
    ("flags", _get_element_text stream "flags");
    ("restricted", _get_element_text stream "restricted");
    ("shared", _get_element_text stream "shared");
    ("sensor_serial_number_stream",
       _get_element_text stream "sensorSerialNumber");
    ("datalogger_serial_number_stream",
       _get_element_text stream "dataloggerSerialNumber");
    ("sensorChannel", _get_element_text stream "sensorChannel");
    ("dataloggerChannel", _get_element_text stream "dataloggerChannel");
    ("clockSerialNumber", _get_element_text stream "clockSerialNumber");
    ("sampleRateNumerator",
       _get_element_text stream "sampleRateNumerator");
    ("sampleRateDenominator",
       _get_element_text stream "sampleRateDenominator");
    ("clockDrift", _get_element_text stream "clockDrift");
    ("clockModel", _get_element_text stream "clockModel")
  ] in
  let sensor_ref := get "sensor" stream in
  let stream_data :=
    match sensor_lookup self !! sensor_ref with
    | Some info => info ∪ stream_data
    | None => stream_data
    end in
  let datalogger_ref := get "datalogger" stream in
  let stream_data :=
    match datalogger_lookup self !! datalogger_ref with
    | Some info =>
        let stream_data := fields info ∪ stream_data in
        match decimations info with
        | [] => stream_data
        | value =>
            <["decimation_info" := Some (json_dumps value)]> stream_data
        end
    | None => stream_data
    end in
  match comment_texts stream with
  | [] => stream_data
  | comments =>
      <["stream_comments" := Some (join "; " comments)]> stream_data
  end.

Definition _process_stream (self : Analyzer)
  (network_code : string) (network_start network_end : option string)
  (station_code : string) (station_start station_end : option string)
  (location_code : string) (latitude longitude elevation : option string)
  (stream : Element) : Analyzer :=
  {| sensor_lookup := sensor_lookup self;
     datalogger_lookup := datalogger_lookup self;
     response_lookup := response_lookup self;
     paz_lookup := paz_lookup self;
     unified_data :=
       unified_data self ++
       [stream_record self network_code network_start network_end
          station_code station_start station_end
          location_code latitude longitude elevation stream] |}.

Definition _process_location (self : Analyzer)
  (network_code : string) (network_start network_end : option string)
  (station_code : string) (station_start station_end : option string)
  (location : Element) : Analyzer :=
  let location_code := get_default "code" "" location in
  let latitude := _get_element_text location "latitude" in
  let longitude := _get_element_text location "longitude" in
  let elevation := _get_element_text location "elevation" in
  fold_left
    (fun self stream =>
       _process_stream self network_code network_start network_end
         station_code station_start station_end
         location_code latitude longitude elevation stream)
    (findall "stream" location) self.

Definition _process_station (self : Analyzer)
  (network_code : string) (network_start network_end : option string)
  (station : Element) : Analyzer :=
  let station_code := get_default "code" "" station in
  let station_start := _get_element_text station "start" in
  let station_end := _get_element_text station "end" in
  fold_left
    (fun self location =>
       _process_location self network_code network_start network_end
         station_code station_start station_end location)
    (findall_desc "sensorLocation" station) self.

Definition _process_networks (self : Analyzer) (inventory : Element)
  : Analyzer :=
  fold_left
    (fun self network =>
       let network_code := get_default "code" "" network in
       let network_start := _get_element_text network "start" in
       let network_end := _get_element_text network "end" in
       fold_left
         (fun self station =>
            _process_station self network_code network_start network_end
              station)
         (findall_desc "station" network) self)
    (findall_desc "network" inventory) self.

(** A line printed on [sys.stderr]: the fixed text and the exception
    formatted into it. *)
Inductive printed : Type :=
| Error_parsing_inventory (e : Py.exn)
| Error_exporting_CSV_file (e : Py.exn).

(** How a method call ends: it returns, with the analyzer as the call
    left it and the lines printed on [sys.stderr]; or an exception
    leaves it. *)
Inductive outcome : Type :=
| Returns (self : Analyzer) (stderr : list printed)
| Raises (e : Py.exn).

(** [parse_inventory(xml_file)].  The argument stands for the result of
    [ET.parse(xml_file).getroot()]: the exception it raises, or the root
    element.  The lines that debug mode prints on standard output are
    left out. *)
Definition parse_inventory (self : Analyzer) (xml_file : Py.exn + Element)
  : outcome :=
  let body : Py.exn + Analyzer :=
    do root <- xml_file;
    match find "Inventory" root with
    | None => inl (Py.ValueError "No Inventory element found in XML")
    | Some inventory =>
        let self := _build_lookup_tables self inventory in
        inr (_process_networks self inventory)
    end in
  match body with
  | inr self' => Returns self' []
  | inl e => Returns self [Error_parsing_inventory e]
  end.

(** **** The projection: [export_to_csv] *)

(** A cell of a data frame: [None] is the missing-value marker NaN,
    [Some None] is Python's [None], [Some (Some s)] a [str]. *)
Abbreviation cell := (option (option string)).

(** A data frame of objects: the column labels and the rows.  A column
    that a row's dictionary lacks holds NaN in that row. *)
Record DataFrame : Type := {
  columns : gset string;
  rows : list dict
}.

(** [pd.DataFrame(records)]. *)
Definition DataFrame_of (records : list dict) : DataFrame :=
  {| columns := ⋃ (dom <$> records); rows := records |}.

(** [df.replace({None: '', '': ''})].  [None] becomes the empty string;
    whether NaN counts as [None] for this purpose differs between pandas
    releases and is the parameter [nan_is_none]. *)
Definition replace_none (nan_is_none : bool) (df : DataFrame) : DataFrame :=
  {| columns := columns df;
     rows :=
       (fun r : dict =>
          let r1 : dict :=
            (fun v => match v with
                      | None => Some EmptyString
                      | Some s => Some s
                      end) <$> r in
          if nan_is_none
          then r1 ∪ gset_to_gmap (Some EmptyString) (columns df)
          else r1) <$> rows df |}.

(** [x[col]] for a row [x]. *)
Definition getitem (df : DataFrame) (x : dict) (col : string)
  : Py.exn + cell :=
  if bool_decide (col ∈ columns df) then inr (x !! col)
  else inl (Py.KeyError col).

(** Truth value of a cell: NaN is a non-zero float. *)
Definition cell_truthy (c : cell) : bool :=
  match c with
  | None => true
  | Some None => false
  | Some (Some s) => str_truthy s
  end.

(** [df.apply(lambda x: x[a] or x[b], axis=1)]. *)
Fixpoint apply_or (df : DataFrame) (a b : string) (xs : list dict)
  : Py.exn + list cell :=
  match xs with
  | [] => inr []
  | x :: xs' =>
      do va <- getitem df x a;
      do v <- (if cell_truthy va then inr va else getitem df x b);
      do vs <- apply_or df a b xs';
      inr (v :: vs)
  end.

(** [df[col] = values]. *)
Definition setitem (df : DataFrame) (col : string) (values : list cell)
  : DataFrame :=
  {| columns := columns df ∪ {[col]};
     rows :=
       zip_with
         (fun (r : dict) (v : cell) =>
            match v with
            | Some o => <[col := o]> r
            | None => delete col r
            end)
         (rows df) values |}.

(** [repr] of a list of column labels, as the message of [df.drop]
    shows it; the labels of this program have no quote and no character
    that [repr] escapes. *)
Definition labels_repr (labels : list string) : string :=
  "[" ++ join ", " (List.map (fun l => "'" ++ l ++ "'") labels) ++ "]".

(** [df.drop(columns=cols)]: a [KeyError] that names every label of
    [cols] that is not a column. *)
Definition drop (df : DataFrame) (cols : list string)
  : Py.exn + DataFrame :=
  match List.filter (fun c => negb (bool_decide (c ∈ columns df))) cols with
  | [] =>
      inr {| columns := columns df ∖ list_to_set cols;
             rows := (fun r : dict => foldr delete r cols) <$> rows df |}
  | missing =>
      inl (Py.KeyError (labels_repr missing ++ " not found in axis"))
  end.

(** The table written by [df.to_csv(output_file, index=False)]: the text
    of every field by column label, before quoting.  NaN and [None] are
    written as the empty field. *)
Record csv_table : Type := {
  header : gset string;
  body : list (gmap string string)
}.

Definition csv_field (c : cell) : string :=
  match c with
  | Some (Some s) => s
  | _ => EmptyString
  end.

Definition to_csv (df : DataFrame) : csv_table :=
  {| header := columns df;
     body :=
       (fun r : dict =>
          set_to_map (fun c => (c, csv_field (r !! c))) (columns df))
       <$> rows df |}.

(** [export_to_csv]: the table written, if any, and the lines printed on
    [sys.stderr].  The creation of the output directory, which precedes
    the [try] block, is left out. *)
Definition export_to_csv (nan_is_none : bool) (self : Analyzer)
  : option csv_table * list printed :=
  match unified_data self with
  | [] => (None, [])
  | _ =>
      let df := DataFrame_of (unified_data self) in
      let df := replace_none nan_is_none df in
      let body :=
        do sensor <- apply_or df "sensor_serial_number_stream"
                        "sensor_serial_number_equipment" (rows df);
        let df := setitem df "sensor_serial_number" sensor in
        do datalogger <- apply_or df "datalogger_serial_number_stream"
                            "datalogger_serial_number_equipment" (rows df);
        let df := setitem df "datalogger_serial_number" datalogger in
        do df <- drop df ["sensor_serial_number_stream";
                          "sensor_serial_number_equipment";
                          "datalogger_serial_number_stream";
                          "datalogger_serial_number_equipment"];
        inr (to_csv df) in
      match body with
      | inr table => (Some table, [])
      | inl e => (None, [Error_exporting_CSV_file e])
      end
  end.

End Analyzer.

(** *** Notions used in the statements and proofs *)

(** **** Commits of the editor *)

(** How many children of [e] carry the tag ['sc3:name']. *)
Definition count_children (name : string) (e : ET.Element) : nat :=
  length (ET.findall name e).

(** The child-element fields that the update methods commit, as pairs of
    tag and value in the order of the source.  The sample rate of a
    stream lies between the two stream lists. *)
Definition station_fields (f : Editor.station_form) : list (string * string) :=
  [("description", Editor.station_description f);
   ("latitude", Editor.station_lat f);
   ("longitude", Editor.station_lon f);
   ("elevation", Editor.station_elevation f)].

Definition equipment_fields (f : Editor.equipment_form)
  : list (string * string) :=
  [("type", Editor.equipment_type f);
   ("model", Editor.equipment_model f);
   ("manufacturer", Editor.equipment_manufacturer f);
   ("serialNumber", Editor.equipment_serial f)].

Definition stream_fields_before (f : Editor.stream_form)
  : list (string * string) :=
  [("start", Editor.stream_start f);
   ("end", Editor.stream_end f);
   ("depth", Editor.stream_depth f);
   ("azimuth", Editor.stream_azimuth f);
   ("dip", Editor.stream_dip f);
   ("gain", Editor.stream_gain f)].

Definition stream_fields_after (f : Editor.stream_form)
  : list (string * string) :=
  [("gainFrequency", Editor.stream_gainFrequency f);
   ("gainUnit", Editor.stream_gainUnit f);
   ("dataloggerSerialNumber", Editor.stream_datalogger_serialnumber f);
   ("sensorSerialNumber", Editor.stream_sensor_serialnumber f);
   ("flags", Editor.stream_flags f)].

Definition stream_fields (f : Editor.stream_form) : list (string * string) :=
  stream_fields_before f ++ stream_fields_after f.

(** [_update_element_text] for each pair in turn. *)
Definition apply_fields (fields : list (string * string)) (e : ET.Element)
  : ET.Element :=
  fold_left (fun e tv => Editor._update_element_text e (fst tv) (snd tv))
            fields e.

(** Every field that is committed with an empty value has at most one
    child element in the node. *)
Definition single_where_emptied (fields : list (string * string))
  (e : ET.Element) : Prop :=
  Forall (fun tv => str_truthy (snd tv) = true \/
                    (count_children (fst tv) e <= 1)%nat) fields.

(** The field [(tag, value)] is in its committed state in [e]: with a
    non-empty value the first child with the tag carries it as text,
    with an empty value there is no such child. *)
Definition committed (e : ET.Element) (tv : string * string) : Prop :=
  match ET.findall (fst tv) e with
  | [] => str_truthy (snd tv) = false
  | c :: _ => str_truthy (snd tv) = true /\ ET.text c = Some (snd tv)
  end.

(** The writes of the sample-rate block of [update_stream] for a given
    text of the rate widget. *)
Definition rate_updates (rate_text : string)
  : Py.exn + list (string * string) :=
  match Py.float (Some rate_text) with
  | inl (Py.ValueError _) | inl Py.TypeError => inr []
  | inl x => inl x
  | inr sample_rate =>
      match Py.int sample_rate with
      | inl (Py.ValueError _) | inl Py.TypeError => inr []
      | inl x => inl x
      | inr n =>
          inr [("sampleRateNumerator", Py.str_int n);
               ("sampleRateDenominator", "1")]
      end
  end.

(** Zeros and finite non-zero values, as opposed to infinities and
    NaN. *)
Definition is_finite (x : spec_float) : bool :=
  match x with
  | S754_zero _ | S754_finite _ _ _ => true
  | S754_infinity _ | S754_nan => false
  end.

(** The attribute part of [update_station]: the code is written when
    non-empty; the name is written when non-empty and removed
    otherwise. *)
Definition station_attributes (f : Editor.station_form) (e : ET.Element)
  : ET.Element :=
  let e1 := if str_truthy (Editor.station_code f)
            then ET.set "code" (Editor.station_code f) e else e in
  if str_truthy (Editor.station_name f)
  then ET.set "name" (Editor.station_name f) e1
  else if bool_decide (is_Some (ET.attrib e1 !! "name"))
       then ET.del_attrib "name" e1 else e1.

(** **** Documents, the walk and the records *)

(** The [stream] elements whose parent is a [sensorLocation], in
    document order.  [under_location] tells whether the parent of [e] is
    a [sensorLocation]. *)
Fixpoint location_streams (under_location : bool) (e : ET.Element)
  : list ET.Element :=
  match e with
  | ET.mkElement _ _ _ _ cs =>
      (if under_location && ET.has_tag (ET.sc3 "stream") e then [e] else [])
      ++ flat_map
           (location_streams (ET.has_tag (ET.sc3 "sensorLocation") e)) cs
  end.

(** The hierarchy elements: networks, stations and sensor locations. *)
Definition is_hierarchy (e : ET.Element) : bool :=
  ET.has_tag (ET.sc3 "network") e || ET.has_tag (ET.sc3 "station") e
  || ET.has_tag (ET.sc3 "sensorLocation") e.

(** No hierarchy element in [e] or below it. *)
Definition hierarchy_free (e : ET.Element) : bool :=
  forallb (fun d => negb (is_hierarchy d)) (ET.iter e).

(** The nesting that the schema prescribes: sensor locations are children
    of stations, stations children of networks, networks children of the
    inventory, the inventory the one such child of the [seiscomp] root;
    no hierarchy element occurs anywhere else. *)
Definition valid_location (location : ET.Element) : bool :=
  forallb hierarchy_free (ET.children location).

Definition valid_station (station : ET.Element) : bool :=
  forallb (fun c => if ET.has_tag (ET.sc3 "sensorLocation") c
                    then valid_location c else hierarchy_free c)
          (ET.children station).

Definition valid_network (network : ET.Element) : bool :=
  forallb (fun c => if ET.has_tag (ET.sc3 "station") c
                    then valid_station c else hierarchy_free c)
          (ET.children network).

Definition valid_inventory (inventory : ET.Element) : bool :=
  forallb (fun c => if ET.has_tag (ET.sc3 "network") c
                    then valid_network c else hierarchy_free c)
          (ET.children inventory).

Definition valid_document (root : ET.Element) : bool :=
  ET.has_tag (ET.sc3 "seiscomp") root
  && (length (ET.findall "Inventory" root) =? 1)%nat
  && forallb (fun c => if ET.has_tag (ET.sc3 "Inventory") c
                       then valid_inventory c else hierarchy_free c)
             (ET.children root).

(** The streams in the order in which [_process_networks] reaches
    them. *)
Definition walked_streams (inventory : ET.Element) : list ET.Element :=
  flat_map
    (fun network =>
       flat_map
         (fun station =>
            flat_map (ET.findall "stream")
                     (ET.findall_desc "sensorLocation" station))
         (ET.findall_desc "station" network))
    (ET.findall_desc "network" inventory).

(** [record] is the record that the resolver makes of [stream], for some
    context handed down by the walk. *)
Definition resolves (self : Analyzer.Analyzer)
  (record : gmap string (option string)) (stream : ET.Element) : Prop :=
  exists (network_code : string) (network_start network_end : option string)
         (station_code : string) (station_start station_end : option string)
         (location_code : string)
         (latitude longitude elevation : option string),
    record =
      Analyzer.stream_record self network_code network_start network_end
        station_code station_start station_end
        location_code latitude longitude elevation stream.

(** The records depend on the analyzer through its index only. *)
Definition same_index (a b : Analyzer.Analyzer) : Prop :=
  Analyzer.sensor_lookup b = Analyzer.sensor_lookup a /\
  Analyzer.datalogger_lookup b = Analyzer.datalogger_lookup a.

(** [b] is [a] with one record appended for each of [streams], in
    order. *)
Definition extends (streams : list ET.Element) (a b : Analyzer.Analyzer) : Prop :=
  same_index a b /\
  exists records,
    Analyzer.unified_data b = (Analyzer.unified_data a ++ records)%list /\
    Forall2 (resolves a) records streams.

(** The equipment records of the index have no [depth] key. *)
Definition index_without_depth (self : Analyzer.Analyzer) : Prop :=
  map_Forall (fun _ (info : gmap string (option string)) => info !! "depth" = None)
             (Analyzer.sensor_lookup self) /\
  map_Forall (fun _ info => Analyzer.fields info !! "depth" = None)
             (Analyzer.datalogger_lookup self).

(** **** The projected table *)

(** The first non-empty value of the stream-level and the equipment-level
    cell, as written to the table; empty when neither has one. *)
Definition coalesce (stream_level equipment_level : option (option string))
  : string :=
  match stream_level with
  | Some (Some s) =>
      if str_truthy s then s else Analyzer.csv_field equipment_level
  | _ => Analyzer.csv_field equipment_level
  end.

(** The two stream-level serial-number keys, which the resolver puts into
    every record. *)
Definition has_stream_serials (record : gmap string (option string)) : Prop :=
  is_Some (record !! "sensor_serial_number_stream") /\
  is_Some (record !! "datalogger_serial_number_stream").

(** [x[a] or x[b]] on a row, and the assignment of a cell to a column of
    a row, as [apply_or] and [setitem] perform them. *)
Definition or_cell (a b : string) (x : gmap string (option string))
  : option (option string) :=
  if Analyzer.cell_truthy (x !! a) then x !! a else x !! b.

Definition put (col : string) (r : gmap string (option string))
  (v : option (option string)) : gmap string (option string) :=
  match v with
  | Some o => <[col := o]> r
  | None => delete col r
  end.

(** The row of the cleaned frame for a record, and the row after the two
    coalesced columns are set and the four per-level columns dropped. *)
Definition clean_row (nan_is_none : bool) (cols : gset string)
  (r : gmap string (option string)) : gmap string (option string) :=
  let r1 : gmap string (option string) :=
    (fun v => match v with
              | None => Some EmptyString
              | Some s => Some s
              end) <$> r in
  if nan_is_none then r1 ∪ gset_to_gmap (Some EmptyString) cols else r1.

Definition per_level_columns : list string :=
  ["sensor_serial_number_stream"; "sensor_serial_number_equipment";
   "datalogger_serial_number_stream"; "datalogger_serial_number_equipment"]%string.

Definition final_row (nan_is_none : bool) (cols : gset string)
  (r : gmap string (option string)) : gmap string (option string) :=
  let x := clean_row nan_is_none cols r in
  let x1 := put "sensor_serial_number" x
              (or_cell "sensor_serial_number_stream"
                       "sensor_serial_number_equipment" x) in
  let x2 := put "datalogger_serial_number" x1
              (or_cell "datalogger_serial_number_stream"
                       "datalogger_serial_number_equipment" x1) in
  foldr delete x2 per_level_columns.

(** *** Sample nodes, documents and records *)

(** A station node with a description, and one without. *)
Definition described_station : ET.Element :=
  ET.mkElement (ET.sc3 "station") {[ "code" := "ABC"%string ]} None None
    [ET.mkElement (ET.sc3 "description") ∅ (Some "Alpha"%string) None []].

Definition bare_station : ET.Element :=
  ET.mkElement (ET.sc3 "station") {[ "code" := "ABC"%string ]} None None [].

(** A stream node with two [flags] children, and a form that leaves
    every field empty. *)
Definition two_flags_stream : ET.Element :=
  ET.mkElement (ET.sc3 "stream") {[ "code" := "BHZ"%string ]} None None
    [ET.mkElement (ET.sc3 "flags") ∅ (Some "G"%string) None [];
     ET.mkElement (ET.sc3 "flags") ∅ (Some "T"%string) None []].

Definition empty_stream_form : Editor.stream_form :=
  {| Editor.stream_code := ""; Editor.stream_start := "";
     Editor.stream_end := ""; Editor.stream_depth := "";
     Editor.stream_azimuth := ""; Editor.stream_dip := "";
     Editor.stream_gain := ""; Editor.stream_sampleRate := "";
     Editor.stream_gainFrequency := ""; Editor.stream_gainUnit := "";
     Editor.stream_datalogger_serialnumber := "";
     Editor.stream_sensor_serialnumber := "";
     Editor.stream_flags := "" |}.

(** A stream node as the schema has it, and a form for it. *)
Definition bhz_stream : ET.Element :=
  ET.mkElement (ET.sc3 "stream")
    {[ "code" := "BHZ"%string ]} None None
    [ET.mkElement (ET.sc3 "start") ∅ (Some "2020-01-01T00:00:00Z"%string)
       None [];
     ET.mkElement (ET.sc3 "sampleRateNumerator") ∅ (Some "100"%string)
       None [];
     ET.mkElement (ET.sc3 "sampleRateDenominator") ∅ (Some "1"%string)
       None [];
     ET.mkElement (ET.sc3 "depth") ∅ (Some "12.5"%string) None [];
     ET.mkElement (ET.sc3 "flags") ∅ (Some "G"%string) None []].

Definition bhz_form (code rate : string) : Editor.stream_form :=
  {| Editor.stream_code := code;
     Editor.stream_start := "2020-01-01T00:00:00Z";
     Editor.stream_end := ""; Editor.stream_depth := "";
     Editor.stream_azimuth := "90"; Editor.stream_dip := "";
     Editor.stream_gain := ""; Editor.stream_sampleRate := rate;
     Editor.stream_gainFrequency := ""; Editor.stream_gainUnit := "";
     Editor.stream_datalogger_serialnumber := "";
     Editor.stream_sensor_serialnumber := "";
     Editor.stream_flags := "" |}.

(** Forms for a station and for a sensor, and a sensor node. *)
Definition abc_station_form (code desc : string) : Editor.station_form :=
  {| Editor.station_code := code; Editor.station_name := "";
     Editor.station_description := desc; Editor.station_lat := "-35.3";
     Editor.station_lon := "149.1"; Editor.station_elevation := "" |}.

Definition sts2_sensor : ET.Element :=
  ET.mkElement (ET.sc3 "sensor")
    {[ "publicID" := "Sensor/1"%string; "name" := "STS-2"%string ]}
    None None
    [ET.mkElement (ET.sc3 "model") ∅ (Some "STS-2"%string) None [];
     ET.mkElement (ET.sc3 "serialNumber") ∅ (Some "E-77"%string) None []].

Definition sts2_form : Editor.equipment_form :=
  {| Editor.equipment_name := "STS-2"; Editor.equipment_type := "";
     Editor.equipment_model := "STS-2.5";
     Editor.equipment_manufacturer := "Streckeisen";
     Editor.equipment_serial := "" |}.

(** A stream node with the given texts of its numerator and denominator
    elements; [None] is an element without text. *)
Definition rate_stream (numerator denominator : option string) : ET.Element :=
  ET.mkElement (ET.sc3 "stream") {[ "code" := "BHZ"%string ]} None None
    [ET.mkElement (ET.sc3 "sampleRateNumerator") ∅ numerator None [];
     ET.mkElement (ET.sc3 "sampleRateDenominator") ∅ denominator None []].

(** A session with unsaved changes on a loaded file, and the files
    around it. *)
Definition dirty_session : Editor.Session :=
  {| Editor.current_file := Some "/data/inventory.xml"%string;
     Editor.tree := Some bare_station;
     Editor.unsaved_changes := true |}.

Definition data_files : gmap string Editor.file_data :=
  {[ "/data/inventory.xml"%string := Editor.Bytes "<seiscomp/>" ]}.

(** A document of the prescribed nesting around the given streams. *)
Definition leaf (name text : string) : ET.Element :=
  ET.mkElement (ET.sc3 name) ∅ (Some text) None [].

Definition sample_stream (code depth : string) : ET.Element :=
  ET.mkElement (ET.sc3 "stream")
    {[ "code" := code; "sensor" := "Sensor/1"%string;
       "datalogger" := "Datalogger/1"%string ]}
    None None
    [leaf "start" "2020-01-01T00:00:00Z"; leaf "depth" depth;
     leaf "sampleRateNumerator" "100"; leaf "sampleRateDenominator" "1";
     leaf "sensorSerialNumber" (code ++ "-S")].

Definition sample_document (streams : list ET.Element) : ET.Element :=
  ET.mkElement (ET.sc3 "seiscomp") ∅ None None
    [ET.mkElement (ET.sc3 "Inventory") ∅ None None
       [sts2_sensor;
        ET.mkElement (ET.sc3 "datalogger")
          {[ "publicID" := "Datalogger/1"%string; "name" := "Q330"%string ]}
          None None
          [leaf "serialNumber" "D-5";
           ET.mkElement (ET.sc3 "decimation") ∅ None None
             [leaf "sampleRateNumerator" "100";
              leaf "sampleRateDenominator" "1"]];
        ET.mkElement (ET.sc3 "network") {[ "code" := "AU"%string ]} None None
          [leaf "start" "1994-01-01T00:00:00Z";
           ET.mkElement (ET.sc3 "station") {[ "code" := "ABC"%string ]}
             None None
             [leaf "latitude" "-35.3";
              ET.mkElement (ET.sc3 "sensorLocation")
                {[ "code" := "00"%string ]} None None
                (leaf "latitude" "-35.3" :: streams)]]]].

(** Ten streams, the fifth with a depth that is not a number. *)
Definition ten_streams : list ET.Element :=
  [sample_stream "S01" "0"; sample_stream "S02" "0"; sample_stream "S03" "0";
   sample_stream "S04" "0"; sample_stream "S05" "deep";
   sample_stream "S06" "0"; sample_stream "S07" "0"; sample_stream "S08" "0";
   sample_stream "S09" "0"; sample_stream "S10" "0"].

(** A document without the inventory container. *)
Definition no_inventory_document : ET.Element :=
  ET.mkElement (ET.sc3 "seiscomp") ∅ None None
    [ET.mkElement (ET.sc3 "Config") ∅ None None []].

(** Two resolved records: one with serial numbers at both levels, one
    with the equipment-level numbers only. *)
Definition both_levels_record : gmap string (option string) :=
  {[ "channel" := Some "BHZ"%string;
     "sensor_serial_number_stream" := Some "S-1"%string;
     "sensor_serial_number_equipment" := Some "E-77"%string;
     "datalogger_serial_number_stream" := None;
     "datalogger_serial_number_equipment" := Some "D-5"%string ]}.

Definition equipment_level_record : gmap string (option string) :=
  {[ "channel" := Some "BHN"%string;
     "sensor_serial_number_stream" := Some ""%string;
     "sensor_serial_number_equipment" := Some "E-78"%string;
     "datalogger_serial_number_stream" := None ]}.

Definition two_records : Analyzer.Analyzer :=
  {| Analyzer.sensor_lookup := ∅; Analyzer.datalogger_lookup := ∅;
     Analyzer.response_lookup := ∅; Analyzer.paz_lookup := ∅;
     Analyzer.unified_data := [both_levels_record; equipment_level_record] |}.

(** Resolved records of streams without equipment: no record has an
    equipment-level serial number key. *)
Definition stream_level_only : Analyzer.Analyzer :=
  {| Analyzer.sensor_lookup := ∅; Analyzer.datalogger_lookup := ∅;
     Analyzer.response_lookup := ∅; Analyzer.paz_lookup := ∅;
     Analyzer.unified_data :=
       [ {[ "channel" := Some "BHZ"%string;
            "sensor_serial_number_stream" := Some "S-1"%string;
            "datalogger_serial_number_stream" := Some "D-1"%string ]} ] |}.

(** A document of the prescribed nesting whose inventory has no sensor
    and no datalogger: the references of its stream resolve to
    nothing. *)
Definition no_equipment_document : ET.Element :=
  ET.mkElement (ET.sc3 "seiscomp") ∅ None None
    [ET.mkElement (ET.sc3 "Inventory") ∅ None None
       [ET.mkElement (ET.sc3 "network") {[ "code" := "AU"%string ]} None None
          [ET.mkElement (ET.sc3 "station") {[ "code" := "ABC"%string ]}
             None None
             [ET.mkElement (ET.sc3 "sensorLocation")
                {[ "code" := "00"%string ]} None None
                [sample_stream "BHZ" "0"]]]]].

(** A station node whose description element has no text. *)
Definition textless_description_station : ET.Element :=
  ET.mkElement (ET.sc3 "station") {[ "code" := "ABC"%string ]} None None
    [ET.mkElement (ET.sc3 "description") ∅ None None [];
     ET.mkElement (ET.sc3 "latitude") ∅ (Some "1"%string) None []].

(** A document that departs from the prescribed nesting: a network
    inside a network. *)
Definition nested_networks_document : ET.Element :=
  ET.mkElement (ET.sc3 "seiscomp") ∅ None None
    [ET.mkElement (ET.sc3 "Inventory") ∅ None None
       [ET.mkElement (ET.sc3 "network") {[ "code" := "AU"%string ]} None None
          [ET.mkElement (ET.sc3 "network") {[ "code" := "XX"%string ]}
             None None
             [ET.mkElement (ET.sc3 "station") {[ "code" := "ABC"%string ]}
                None None
                [ET.mkElement (ET.sc3 "sensorLocation")
                   {[ "code" := "00"%string ]} None None
                   [sample_stream "BHZ" "0"]]]]]].

(** *** Further notions: the index and the records *)

(** The last element of [elems], in document order, whose [publicID]
    attribute is [k]; an absent attribute is the key [None]. *)
Definition last_with_id (k : option string) (elems : list ET.Element)
  : option ET.Element :=
  List.find (fun e => bool_decide (ET.get "publicID" e = k)) (rev elems).

(** The keys of a sensor record and of the text fields of a datalogger
    record. *)
Definition sensor_keys : list string :=
  ["sensor_name"; "sensor_description"; "sensor_manufacturer";
   "sensor_model"; "sensor_type"; "sensor_unit"; "sensor_response";
   "sensor_remark"; "sensor_serial_number_equipment"]%string.

Definition datalogger_keys : list string :=
  ["datalogger_name"; "datalogger_description"; "datalogger_manufacturer";
   "datalogger_model"; "datalogger_type"; "datalogger_remark";
   "datalogger_serial_number_equipment"]%string.

(** Every record of the index has exactly the keys of its kind. *)
Definition index_well_keyed (self : Analyzer.Analyzer) : Prop :=
  map_Forall (fun _ (info : gmap string (option string)) =>
                forall k, is_Some (info !! k) <-> In k sensor_keys)
             (Analyzer.sensor_lookup self) /\
  map_Forall (fun _ info =>
                forall k, is_Some (Analyzer.fields info !! k)
                          <-> In k datalogger_keys)
             (Analyzer.datalogger_lookup self).

(** The context fields and the stream-local fields of a record, as
    [_process_stream] reads them before any equipment is merged in. *)
Definition local_fields
  (network_code : string) (network_start network_end : option string)
  (station_code : string) (station_start station_end : option string)
  (location_code : string) (latitude longitude elevation : option string)
  (stream : ET.Element) : list (string * option string) :=
  [("network", Some network_code);
   ("network_start", network_start);
   ("network_end", network_end);
   ("station", Some station_code);
   ("station_start", station_start);
   ("station_end", station_end);
   ("location", Some location_code);
   ("latitude", latitude);
   ("longitude", longitude);
   ("elevation", elevation);
   ("channel", Some (ET.get_default "code" "" stream));
   ("stream_start", Analyzer._get_element_text stream "start");
   ("stream_end", Analyzer._get_element_text stream "end");
   ("depth", Analyzer._get_element_text stream "depth");
   ("azimuth", Analyzer._get_element_text stream "azimuth");
   ("dip", Analyzer._get_element_text stream "dip");
   ("gain", Analyzer._get_element_text stream "gain");
   ("gainFrequency", Analyzer._get_element_text stream "gainFrequency");
   ("gainUnit", Analyzer._get_element_text stream "gainUnit");
   ("format", Analyzer._get_element_text stream "format");
   ("flags", Analyzer._get_element_text stream "flags");
   ("restricted", Analyzer._get_element_text stream "restricted");
   ("shared", Analyzer._get_element_text stream "shared");
   ("sensor_serial_number_stream",
      Analyzer._get_element_text stream "sensorSerialNumber");
   ("datalogger_serial_number_stream",
      Analyzer._get_element_text stream "dataloggerSerialNumber");
   ("sensorChannel", Analyzer._get_element_text stream "sensorChannel");
   ("dataloggerChannel",
      Analyzer._get_element_text stream "dataloggerChannel");
   ("clockSerialNumber",
      Analyzer._get_element_text stream "clockSerialNumber");
   ("sampleRateNumerator",
      Analyzer._get_element_text stream "sampleRateNumerator");
   ("sampleRateDenominator",
      Analyzer._get_element_text stream "sampleRateDenominator");
   ("clockDrift", Analyzer._get_element_text stream "clockDrift");
   ("clockModel", Analyzer._get_element_text stream "clockModel")]%string.

(** The equipment records that a stream's references select, empty when
    the reference does not resolve. *)
Definition sensor_part (self : Analyzer.Analyzer) (stream : ET.Element)
  : gmap string (option string) :=
  default ∅ (Analyzer.sensor_lookup self !! ET.get "sensor" stream).

Definition datalogger_part (self : Analyzer.Analyzer) (stream : ET.Element)
  : gmap string (option string) :=
  default ∅ (Analyzer.fields <$>
             Analyzer.datalogger_lookup self !! ET.get "datalogger" stream).

(** The records of the streams of a document, each resolved with the
    context read from the elements that enclose it: the inventory child
    of the root, its network children, their station children, their
    sensor-location children and their stream children, in document
    order. *)
Definition location_records (self : Analyzer.Analyzer)
  (network station location : ET.Element)
  : list (gmap string (option string)) :=
  List.map
    (Analyzer.stream_record self
       (ET.get_default "code" "" network)
       (Analyzer._get_element_text network "start")
       (Analyzer._get_element_text network "end")
       (ET.get_default "code" "" station)
       (Analyzer._get_element_text station "start")
       (Analyzer._get_element_text station "end")
       (ET.get_default "code" "" location)
       (Analyzer._get_element_text location "latitude")
       (Analyzer._get_element_text location "longitude")
       (Analyzer._get_element_text location "elevation"))
    (ET.findall "stream" location).

Definition enclosed_records (self : Analyzer.Analyzer) (root : ET.Element)
  : list (gmap string (option string)) :=
  flat_map
    (fun inventory =>
       flat_map
         (fun network =>
            flat_map
              (fun station =>
                 flat_map (location_records self network station)
                          (ET.findall "sensorLocation" station))
              (ET.findall "station" network))
         (ET.findall "network" inventory))
    (ET.findall "Inventory" root).

(** The records in the order in which [_process_networks] makes them. *)
Definition walked_records (self : Analyzer.Analyzer) (inventory : ET.Element)
  : list (gmap string (option string)) :=
  flat_map
    (fun network =>
       flat_map
         (fun station =>
            flat_map (location_records self network station)
                     (ET.findall_desc "sensorLocation" station))
         (ET.findall_desc "station" network))
    (ET.findall_desc "network" inventory).

(** [b] is [a] with [records] appended. *)
Definition appends (records : list (gmap string (option string)))
  (a b : Analyzer.Analyzer) : Prop :=
  same_index a b /\
  Analyzer.unified_data b = (Analyzer.unified_data a ++ records)%list.

(** [main()] of the analyzer after its arguments are read: a fresh
    analyzer parses the inventory and exports the table.  The result is
    the table written, if any, and the lines printed on [sys.stderr] by
    the two calls. *)
Definition analyzer_main (nan_is_none : bool) (xml_file : Py.exn + ET.Element)
  : option Analyzer.csv_table * list Analyzer.printed :=
  match Analyzer.parse_inventory Analyzer.init xml_file with
  | Analyzer.Returns analyzer printed1 =>
      let '(table, printed2) :=
        Analyzer.export_to_csv nan_is_none analyzer in
      (table, (printed1 ++ printed2)%list)
  | Analyzer.Raises e => (None, [])
  end.

(** The stream's reference to a sensor (a datalogger) resolves in the
    inventory. *)
Definition sensor_resolves (inventory stream : ET.Element) : Prop :=
  is_Some (last_with_id (ET.get "sensor" stream)
                        (ET.findall_desc "sensor" inventory)).

Definition datalogger_resolves (inventory stream : ET.Element) : Prop :=
  is_Some (last_with_id (ET.get "datalogger" stream)
                        (ET.findall_desc "datalogger" inventory)).

(** **** Reading back what was committed *)



(** A stream form with the rate field replaced. *)
Definition with_sampleRate (f : Editor.stream_form) (rate : string)
  : Editor.stream_form :=
  {| Editor.stream_code := Editor.stream_code f;
     Editor.stream_start := Editor.stream_start f;
     Editor.stream_end := Editor.stream_end f;
     Editor.stream_depth := Editor.stream_depth f;
     Editor.stream_azimuth := Editor.stream_azimuth f;
     Editor.stream_dip := Editor.stream_dip f;
     Editor.stream_gain := Editor.stream_gain f;
     Editor.stream_sampleRate := rate;
     Editor.stream_gainFrequency := Editor.stream_gainFrequency f;
     Editor.stream_gainUnit := Editor.stream_gainUnit f;
     Editor.stream_datalogger_serialnumber :=
       Editor.stream_datalogger_serialnumber f;
     Editor.stream_sensor_serialnumber :=
       Editor.stream_sensor_serialnumber f;
     Editor.stream_flags := Editor.stream_flags f |}.


(** **** The items of the tree view *)

(** The data of an item and of the items below it, in the order of the
    tree from top to bottom. *)
Fixpoint item_data_all (item : Editor.TreeItem)
  : list (string * ET.Element) :=
  match item with
  | Editor.mkTreeItem _ data items =>
      (match data with
       | Some d => [d]
       | None => []
       end ++ flat_map item_data_all items)%list
  end.

(** The items of a tree and of everything below them, from top to
    bottom. *)
Fixpoint items_below (item : Editor.TreeItem) : list Editor.TreeItem :=
  match item with
  | Editor.mkTreeItem _ _ items => item :: flat_map items_below items
  end.

(** The elements that the items of a given type carry, from top to
    bottom. *)
Definition tree_elements (item_type : string) (items : list Editor.TreeItem)
  : list ET.Element :=
  List.map snd
    (List.filter (fun d => String.eqb (fst d) item_type)
                 (flat_map item_data_all items)).

(** The element name that an item type stands for. *)
Definition tag_of_type (item_type : string) : string :=
  if String.eqb item_type "location" then "sensorLocation" else item_type.

(** The rows of the tree as [populate_tree] builds them. *)
Definition stream_items (location : ET.Element) : list Editor.TreeItem :=
  List.map
    (fun stream =>
       Editor.mkTreeItem ("Stream: " ++ ET.get_default "code" "" stream)
         (Some ("stream"%string, stream)) [])
    (ET.findall "stream" location).

Definition location_items (station : ET.Element) : list Editor.TreeItem :=
  List.map
    (fun location =>
       Editor.mkTreeItem ("Location: " ++ ET.get_default "code" "" location)
         (Some ("location"%string, location)) (stream_items location))
    (ET.findall_desc "sensorLocation" station).

Definition station_items (network : ET.Element) : list Editor.TreeItem :=
  List.map
    (fun station =>
       Editor.mkTreeItem ("Station: " ++ ET.get_default "code" "" station)
         (Some ("station"%string, station)) (location_items station))
    (ET.findall_desc "station" network).

Definition network_items (inventory : ET.Element) : list Editor.TreeItem :=
  List.map
    (fun network =>
       Editor.mkTreeItem ("Network: " ++ ET.get_default "code" "" network)
         (Some ("network"%string, network)) (station_items network))
    (ET.findall_desc "network" inventory).

Definition equipment_items (header kind label : string)
  (equipment : list ET.Element) : list Editor.TreeItem :=
  match equipment with
  | [] => []
  | _ :: _ =>
      [Editor.mkTreeItem header None
         (List.map
            (fun e =>
               Editor.mkTreeItem (label ++ ET.get_default "name" "" e)
                 (Some (kind, e)) [])
            equipment)]
  end.

(** The datum of an item names the kind of the element it carries. *)
Definition typed (d : string * ET.Element) : Prop :=
  ET.tag (snd d) = ET.sc3 (tag_of_type (fst d)).

(** ** Part II. Theorems *)

Local Open Scope list_scope.

(** *** The built-ins on examples *)

Section BuiltinExamples.

Example float_of_str_values :
  Py.float_of_str "100" = Some (S754_finite false 7036874417766400 (-46)) /\
  Py.float_of_str " 1_000.5e-3 " =
    Some (S754_finite false 4505851427184181 (-52)) /\
  Py.float_of_str "-0" = Some (S754_zero true) /\
  Py.float_of_str "1e999" = Some (S754_infinity false) /\
  Py.float_of_str "-Infinity" = Some (S754_infinity true) /\
  Py.float_of_str "NaN" = Some S754_nan /\
  Py.float_of_str "9007199254740993" =
    Some (S754_finite false 4503599627370496 1).
Proof. repeat split; vm_compute; reflexivity. Qed.

Example float_of_str_rejects :
  List.map Py.float_of_str
    [""; " "; "."; "1e"; "1__0"; "_1"; "0x10"; "1,5"; "infin"; "- 1"]%string
  = List.repeat None 10.
Proof. vm_compute. reflexivity. Qed.

Example str_float_values :
  List.map (fun s => option_map Py.str_float (Py.float_of_str s))
    ["100"; "0.1"; "1e16"; "1e15"; "0.0001"; "0.00001"; "5e-324";
     "1.7976931348623157e308"; "123456789.125"; "-0"; "4.35";
     "0.30000000000000004"; "1e23"]%string
  = List.map Some
      ["100.0"; "0.1"; "1e+16"; "1000000000000000.0"; "0.0001"; "1e-05";
       "5e-324"; "1.7976931348623157e+308"; "123456789.125"; "-0.0";
       "4.35"; "0.30000000000000004"; "1e+23"]%string.
Proof. vm_compute. reflexivity. Qed.

Example int_truncates_toward_zero :
  List.map (fun s => option_map Py.int (Py.float_of_str s))
    ["0.5"; "-0.5"; "3.99"; "-3.99"; "1e3"; "40"]%string
  = [Some (inr 0); Some (inr 0); Some (inr 3); Some (inr (-3));
     Some (inr 1000); Some (inr 40)].
Proof. vm_compute. reflexivity. Qed.

Example truediv_values :
  option_map Py.str_float
    (match Py.float_of_str "200", Py.float_of_str "3" with
     | Some a, Some b =>
         match Py.truediv a b with inr q => Some q | inl _ => None end
     | _, _ => None
     end) = Some "66.66666666666667"%string.
Proof. vm_compute. reflexivity. Qed.

Example with_suffix_values :
  List.map (fun p => Editor.with_suffix p ".xml.bak")
    ["/data/inventory.xml"; "/data/inventory"; "/data/a.b.xml";
     "/data/.hidden"; "/data/"]%string
  = [Some "/data/inventory.xml.bak"; Some "/data/inventory.xml.bak";
     Some "/data/a.b.xml.bak"; Some "/data/.hidden.xml.bak"; None]%string.
Proof. vm_compute. reflexivity. Qed.

Example json_dumps_value :
  Analyzer.json_dumps
    [ {| Analyzer.sampleRateNumerator := Some "100"%string;
         Analyzer.sampleRateDenominator := Some "1"%string;
         Analyzer.analogueFilterChain := None;
         Analyzer.digitalFilterChain := Some "a\b"%string |} ]
  = ("[{" ++ Analyzer.json_str "sampleRateNumerator" ++ ": "
          ++ Analyzer.json_str "100" ++ ", "
          ++ Analyzer.json_str "sampleRateDenominator" ++ ": "
          ++ Analyzer.json_str "1" ++ ", "
          ++ Analyzer.json_str "analogueFilterChain" ++ ": null, "
          ++ Analyzer.json_str "digitalFilterChain" ++ ": "
          ++ String (ascii_of_N 34)
               ("a\\b" ++ String (ascii_of_N 34) "}]"))%string.
Proof. vm_compute. reflexivity. Qed.

End BuiltinExamples.

(** *** Elements and their children *)

Section ElementFacts.
Import ET.

Lemma with_children_id (e : Element) : with_children e (children e) = e.
Proof. destruct e; reflexivity. Qed.

Lemma find_None_Forall {A : Type} (f : A -> bool) (l : list A) :
  List.find f l = None <-> Forall (fun x => f x = false) l.
Proof.
  induction l as [|a l IH]; simpl.
  - split; [constructor | reflexivity].
  - destruct (f a) eqn:Ha.
    + split; [discriminate | intros H; inversion H; congruence].
    + rewrite IH. split; [now constructor | intros H; now inversion H].
Qed.

Lemma filter_nil_Forall {A : Type} (f : A -> bool) (l : list A) :
  List.filter f l = [] <-> Forall (fun x => f x = false) l.
Proof.
  induction l as [|a l IH]; simpl.
  - split; [constructor | reflexivity].
  - destruct (f a) eqn:Ha.
    + split; [discriminate | intros H; inversion H; congruence].
    + rewrite IH. split; [now constructor | intros H; now inversion H].
Qed.

Lemma find_Some_split {A : Type} (f : A -> bool) (l : list A) (c : A) :
  List.find f l = Some c ->
  exists before after,
    l = before ++ c :: after /\
    Forall (fun x => f x = false) before /\ f c = true.
Proof.
  induction l as [|a l IH]; simpl; [discriminate|].
  destruct (f a) eqn:Ha.
  - intros [= ->]. exists [], l. repeat split; [constructor | assumption].
  - intros H. destruct (IH H) as (b & r & -> & Hb & Hc).
    exists (a :: b), r. repeat split; [now constructor | assumption].
Qed.

Lemma remove_first_skip (q : string) (before rest : list Element) :
  Forall (fun x => has_tag q x = false) before ->
  remove_first q (before ++ rest) = before ++ remove_first q rest.
Proof.
  induction 1 as [|x l Hx _ IH]; simpl; [reflexivity|].
  now rewrite Hx, IH.
Qed.

Lemma set_first_text_skip (q v : string) (before rest : list Element) :
  Forall (fun x => has_tag q x = false) before ->
  set_first_text q v (before ++ rest) = before ++ set_first_text q v rest.
Proof.
  induction 1 as [|x l Hx _ IH]; simpl; [reflexivity|].
  now rewrite Hx, IH.
Qed.

Lemma find_skip {A : Type} (f : A -> bool) (before rest : list A) :
  Forall (fun x => f x = false) before ->
  List.find f (before ++ rest) = List.find f rest.
Proof.
  induction 1 as [|x l Hx _ IH]; simpl; [reflexivity|].
  now rewrite Hx.
Qed.

Lemma has_tag_refl (q : string) a x t cs :
  has_tag q (mkElement q a x t cs) = true.
Proof. unfold has_tag; simpl. apply String.eqb_refl. Qed.

End ElementFacts.

(** *** The element-presence policy of [_update_element_text] *)

Section UpdateElementText.
Import ET Editor.

Lemma update_absent_empty (element : Element) (tag : string) :
  find tag element = None ->
  _update_element_text element tag "" = element.
Proof.
  intros H. unfold _update_element_text. rewrite H. reflexivity.
Qed.

Lemma update_present_empty (element : Element) (tag : string) (c : Element) :
  find tag element = Some c ->
  exists before after,
    children element = before ++ c :: after /\
    Forall (fun x => has_tag (sc3 tag) x = false) before /\
    _update_element_text element tag "" =
      with_children element (before ++ after).
Proof.
  intros H. unfold _update_element_text. rewrite H. simpl.
  destruct (find_Some_split _ _ _ H) as (b & r & Hc & Hb & Ht).
  exists b, r. repeat split; try assumption.
  rewrite Hc, remove_first_skip by assumption.
  simpl. now rewrite Ht.
Qed.

Lemma update_absent_value (element : Element) (tag value : string) :
  find tag element = None ->
  str_truthy value = true ->
  _update_element_text element tag value =
    with_children element
      (children element ++ [mkElement (sc3 tag) ∅ (Some value) None []]).
Proof.
  intros H Hv. unfold _update_element_text. rewrite H, Hv.
  apply find_None_Forall in H.
  unfold SubElement, with_children; simpl.
  rewrite set_first_text_skip by assumption.
  simpl. now rewrite has_tag_refl.
Qed.

Lemma find_appended (element : Element) (tag : string) (c : Element) :
  find tag element = None ->
  has_tag (sc3 tag) c = true ->
  find tag (with_children element (children element ++ [c])) = Some c.
Proof.
  intros H Hc. apply find_None_Forall in H.
  unfold find, with_children; simpl.
  rewrite find_skip by assumption. simpl. now rewrite Hc.
Qed.

End UpdateElementText.

(** C6. Committing an empty value removes the child element that [find]
    returns; when there is no such child the node is unchanged; and a
    non-empty value committed while the child is absent appends a new
    child with that text, which is then the one that is read back. *)
Theorem C6_element_presence_policy
  (element : ET.Element) (tag value dflt : string) :
  (forall c, ET.find tag element = Some c ->
     exists before after,
       ET.children element = before ++ c :: after /\
       Forall (fun x => ET.has_tag (ET.sc3 tag) x = false) before /\
       Editor._update_element_text element tag "" =
         ET.with_children element (before ++ after)) /\
  (ET.find tag element = None ->
     Editor._update_element_text element tag "" = element) /\
  (ET.find tag element = None -> str_truthy value = true ->
     let created := ET.mkElement (ET.sc3 tag) ∅ (Some value) None [] in
     let element' := Editor._update_element_text element tag value in
     element' =
       ET.with_children element (ET.children element ++ [created]) /\
     ET.find tag element' = Some created /\
     Editor._get_element_text element' tag dflt = Some value).
Proof.
  split; [|split].
  - intros c H. now apply update_present_empty.
  - apply update_absent_empty.
  - intros H Hv. cbv zeta.
    rewrite (update_absent_value _ _ _ H Hv).
    assert (Hf : ET.find tag
              (ET.with_children element
                 (ET.children element ++
                  [ET.mkElement (ET.sc3 tag) ∅ (Some value) None []])) =
            Some (ET.mkElement (ET.sc3 tag) ∅ (Some value) None [])).
    { apply find_appended; [assumption | apply has_tag_refl]. }
    repeat split; [assumption|].
    unfold Editor._get_element_text. now rewrite Hf.
Qed.

Lemma C6_element_presence_policy_witness :
  (exists before after,
     ET.children described_station =
       before ++
       ET.mkElement (ET.sc3 "description") ∅ (Some "Alpha"%string) None []
       :: after /\
     Editor._update_element_text described_station "description" "" =
       ET.with_children described_station (before ++ after)) /\
  Editor._update_element_text bare_station "description" "" = bare_station /\
  Editor._get_element_text
    (Editor._update_element_text bare_station "description" "Beta")
    "description" "" = Some "Beta"%string.
Proof.
  split; [|split].
  - destruct (proj1 (C6_element_presence_policy
                       described_station "description" "" "") _ eq_refl)
      as (b & a & H1 & _ & H2).
    exists b, a. split; assumption.
  - exact (proj1 (proj2 (C6_element_presence_policy
                           bare_station "description" "" "")) eq_refl).
  - exact (proj2 (proj2 (proj2 (proj2 (C6_element_presence_policy
                           bare_station "description" "Beta" ""))
                        eq_refl eq_refl))).
Defined.

(** *** Tags *)

Section Tags.
Import ET.

Lemma append_inj_r (p a b : string) : (p ++ a = p ++ b)%string -> a = b.
Proof.
  induction p as [|c p IH]; simpl; intros H; [assumption|].
  injection H as H. auto.
Qed.

Lemma sc3_inj (a b : string) : sc3 a = sc3 b -> a = b.
Proof.
  unfold sc3. intros H.
  do 3 apply append_inj_r in H. assumption.
Qed.

Lemma has_tag_other (t t' : string) (c : Element) :
  t <> t' -> has_tag (sc3 t') c = true -> has_tag (sc3 t) c = false.
Proof.
  unfold has_tag. intros Hne H. apply String.eqb_eq in H.
  apply String.eqb_neq. rewrite H. intros E. apply Hne.
  symmetry. now apply sc3_inj.
Qed.

Lemma find_head (name : string) (e : Element) :
  find name e = head (findall name e).
Proof.
  unfold find, findall. induction (children e) as [|c cs IH]; simpl.
  - reflexivity.
  - destruct (has_tag (sc3 name) c); [reflexivity | assumption].
Qed.

(** What an update of the field [t'] does to the children carrying
    another tag: nothing. *)
Lemma filter_set_first_text (q q' v : string) (cs : list Element) :
  (forall c, has_tag q' c = true -> has_tag q c = false) ->
  List.filter (has_tag q) (set_first_text q' v cs) =
  List.filter (has_tag q) cs.
Proof.
  intros H. induction cs as [|c cs IH]; simpl; [reflexivity|].
  destruct (has_tag q' c) eqn:Hc.
  - simpl. unfold has_tag at 1; simpl. fold (has_tag q c).
    now rewrite (H _ Hc).
  - simpl. now rewrite IH.
Qed.

Lemma filter_remove_first (q q' : string) (cs : list Element) :
  (forall c, has_tag q' c = true -> has_tag q c = false) ->
  List.filter (has_tag q) (remove_first q' cs) = List.filter (has_tag q) cs.
Proof.
  intros H. induction cs as [|c cs IH]; simpl; [reflexivity|].
  destruct (has_tag q' c) eqn:Hc.
  - now rewrite (H _ Hc).
  - simpl. now rewrite IH.
Qed.

End Tags.

(** *** Commits as sequences of field updates *)

Section Commits.
Import ET Editor.

Lemma children_update (e : Element) (t v : string) :
  children (_update_element_text e t v) =
  if str_truthy v then
    set_first_text (sc3 t) v
      (match find t e with
       | None => children e ++ [mkElement (sc3 t) ∅ None None []]
       | Some _ => children e
       end)
  else remove_first (sc3 t) (children e).
Proof.
  unfold _update_element_text.
  destruct (find t e) eqn:Hf, (str_truthy v); simpl; try reflexivity.
  apply find_None_Forall in Hf. clear -Hf.
  induction Hf as [|c cs Hc _ IH]; simpl; [reflexivity|].
  now rewrite Hc, <- IH.
Qed.

Lemma findall_update_other (e : Element) (t t' v' : string) :
  t <> t' ->
  findall t (_update_element_text e t' v') = findall t e.
Proof.
  intros Hne. unfold findall. rewrite children_update.
  assert (H : forall c, has_tag (sc3 t') c = true ->
                        has_tag (sc3 t) c = false)
    by (intros c; now apply has_tag_other).
  destruct (str_truthy v').
  - rewrite filter_set_first_text by assumption.
    destruct (find t' e); [reflexivity|].
    rewrite List.filter_app. simpl.
    rewrite (H _ (has_tag_refl _ _ _ _ _)). apply app_nil_r.
  - now apply filter_remove_first.
Qed.

Lemma findall_apply_fields (fields : list (string * string)) (e : Element)
  (t : string) :
  ~ In t (List.map fst fields) ->
  findall t (apply_fields fields e) = findall t e.
Proof.
  revert e. induction fields as [|[t' v'] fields IH]; intros e Hn.
  - reflexivity.
  - simpl in *. unfold apply_fields in *. simpl.
    rewrite IH by tauto.
    apply findall_update_other. intros ->. tauto.
Qed.

Lemma set_first_text_same (q v : string) (cs rest : list Element)
  (c : Element) :
  List.filter (has_tag q) cs = c :: rest ->
  text c = Some v ->
  set_first_text q v cs = cs.
Proof.
  intros H Hx. induction cs as [|d cs IH]; simpl in *; [reflexivity|].
  destruct (has_tag q d) eqn:Hd.
  - injection H as -> _. destruct c; simpl in *. now subst.
  - now rewrite IH.
Qed.

(** A field in its committed state is left alone by its own update. *)
Lemma committed_fixed (e : Element) (tv : string * string) :
  committed e tv -> _update_element_text e (fst tv) (snd tv) = e.
Proof.
  destruct tv as [t v]. unfold committed; simpl. intros H.
  unfold _update_element_text. rewrite find_head.
  destruct (findall t e) as [|c rest] eqn:Hf; simpl.
  - now rewrite H.
  - destruct H as [-> Hx].
    rewrite (set_first_text_same _ _ _ _ _ Hf Hx).
    apply with_children_id.
Qed.

(** Its own update brings a field into its committed state, provided
    the value is non-empty or the tag has at most one child. *)
Lemma update_commits (e : Element) (t v : string) :
  str_truthy v = true \/ (count_children t e <= 1)%nat ->
  committed (_update_element_text e t v) (t, v).
Proof.
  intros H. unfold committed, findall; simpl.
  rewrite children_update.
  destruct (str_truthy v) eqn:Hv.
  - rewrite find_head.
    destruct (findall t e) as [|c rest] eqn:Hf; simpl.
    + unfold findall in Hf.
      assert (Hall : Forall (fun x => has_tag (sc3 t) x = false)
                            (children e)).
      { apply find_None_Forall. fold (find t e). rewrite find_head.
        unfold findall. now rewrite Hf. }
      rewrite set_first_text_skip by assumption. simpl.
      rewrite has_tag_refl. rewrite List.filter_app. simpl.
      rewrite Hf. simpl. rewrite has_tag_refl. now split.
    + unfold findall in Hf. revert Hf.
      induction (children e) as [|d cs IH]; simpl; [discriminate|].
      destruct (has_tag (sc3 t) d) eqn:Hd; simpl.
      * intros _. unfold has_tag at 1; simpl. fold (has_tag (sc3 t) d).
        rewrite Hd. now split.
      * rewrite Hd. exact IH.
  - destruct H as [H|H]; [discriminate|].
    unfold count_children, findall in H. revert H.
    induction (children e) as [|d cs IH]; simpl; [reflexivity|].
    destruct (has_tag (sc3 t) d) eqn:Hd; simpl.
    + intros H. destruct (List.filter (has_tag (sc3 t)) cs) eqn:Hf;
        [reflexivity | simpl in H; lia].
    + rewrite Hd. exact IH.
Qed.

Lemma committed_update_other (e : Element) (tv : string * string)
  (t' v' : string) :
  fst tv <> t' ->
  committed e tv -> committed (_update_element_text e t' v') tv.
Proof.
  unfold committed. intros Hne. now rewrite findall_update_other.
Qed.

Lemma committed_apply_fields (fields : list (string * string))
  (e : Element) (tv : string * string) :
  ~ In (fst tv) (List.map fst fields) ->
  committed e tv -> committed (apply_fields fields e) tv.
Proof.
  unfold committed. intros Hn. now rewrite findall_apply_fields.
Qed.

Lemma count_apply_fields (fields : list (string * string)) (e : Element)
  (t : string) :
  ~ In t (List.map fst fields) ->
  count_children t (apply_fields fields e) = count_children t e.
Proof.
  unfold count_children. intros Hn. now rewrite findall_apply_fields.
Qed.

(** After a commit of fields with pairwise distinct tags, every field is
    in its committed state. *)
Lemma apply_fields_commits (fields : list (string * string)) (e : Element) :
  List.NoDup (List.map fst fields) ->
  single_where_emptied fields e ->
  Forall (committed (apply_fields fields e)) fields.
Proof.
  revert e. induction fields as [|[t v] fields IH]; intros e Hnd Hs.
  - constructor.
  - simpl in Hnd. apply List.NoDup_cons_iff in Hnd as [Hn Hnd].
    inversion Hs as [|? ? Hh Ht]; subst. simpl in Hh.
    change (apply_fields ((t, v) :: fields) e)
      with (apply_fields fields (_update_element_text e t v)).
    constructor.
    + apply committed_apply_fields; [assumption|].
      now apply update_commits.
    + apply IH; [assumption|].
      unfold single_where_emptied in *.
      rewrite List.Forall_forall in Ht |- *. intros [t' v'] Hin.
      specialize (Ht _ Hin). simpl in *.
      unfold count_children in *.
      rewrite findall_update_other; [assumption|].
      intros ->. apply Hn. change t with (fst (t, v')).
      now apply List.in_map.
Qed.

Lemma apply_fields_fixed (fields : list (string * string)) (e : Element) :
  Forall (committed e) fields -> apply_fields fields e = e.
Proof.
  induction 1 as [|tv fields Hc _ IH]; [reflexivity|].
  change (apply_fields (tv :: fields) e)
    with (apply_fields fields (_update_element_text e (fst tv) (snd tv))).
  now rewrite (committed_fixed _ _ Hc).
Qed.

(** The general form of idempotence: fields with pairwise distinct tags,
    each with a non-empty value or at most one child element. *)
Lemma apply_fields_idempotent (fields : list (string * string))
  (e : Element) :
  List.NoDup (List.map fst fields) ->
  single_where_emptied fields e ->
  apply_fields fields (apply_fields fields e) = apply_fields fields e.
Proof.
  intros Hnd Hs. apply apply_fields_fixed.
  now apply apply_fields_commits.
Qed.

End Commits.

(** *** Attributes and field updates *)

Section AttributesAndFields.
Import ET Editor.

Lemma update_set (e : Element) (k x t v : string) :
  _update_element_text (set k x e) t v = set k x (_update_element_text e t v).
Proof.
  unfold _update_element_text, find. simpl.
  destruct (List.find _ (children e)), (str_truthy v); reflexivity.
Qed.

Lemma update_del_attrib (e : Element) (k t v : string) :
  _update_element_text (del_attrib k e) t v =
  del_attrib k (_update_element_text e t v).
Proof.
  unfold _update_element_text, find. simpl.
  destruct (List.find _ (children e)), (str_truthy v); reflexivity.
Qed.

Lemma apply_fields_set (fields : list (string * string)) (e : Element)
  (k x : string) :
  apply_fields fields (set k x e) = set k x (apply_fields fields e).
Proof.
  revert e. induction fields as [|[t v] fields IH]; intros e;
    [reflexivity|].
  unfold apply_fields in *. simpl. now rewrite update_set, IH.
Qed.

Lemma apply_fields_del_attrib (fields : list (string * string))
  (e : Element) (k : string) :
  apply_fields fields (del_attrib k e) = del_attrib k (apply_fields fields e).
Proof.
  revert e. induction fields as [|[t v] fields IH]; intros e;
    [reflexivity|].
  unfold apply_fields in *. simpl. now rewrite update_del_attrib, IH.
Qed.

Lemma attrib_apply_fields (fields : list (string * string)) (e : Element) :
  attrib (apply_fields fields e) = attrib e.
Proof.
  revert e. induction fields as [|[t v] fields IH]; intros e;
    [reflexivity|].
  unfold apply_fields in *. simpl. rewrite IH.
  unfold _update_element_text.
  destruct (find t e), (str_truthy v); reflexivity.
Qed.

Lemma set_set (e : Element) (k x : string) :
  set k x (set k x e) = set k x e.
Proof. unfold set; simpl. now rewrite insert_insert_eq. Qed.

Lemma del_attrib_del_attrib (e : Element) (k : string) :
  del_attrib k (del_attrib k e) = del_attrib k e.
Proof.
  unfold del_attrib; simpl. f_equal.
  apply delete_id. apply lookup_delete_eq.
Qed.

Lemma single_where_emptied_same_children
  (fields : list (string * string)) (e e' : Element) :
  children e' = children e ->
  single_where_emptied fields e -> single_where_emptied fields e'.
Proof.
  intros Hc. unfold single_where_emptied, count_children, findall.
  now rewrite Hc.
Qed.

Lemma single_where_emptied_app (l1 l2 : list (string * string))
  (e : Element) :
  single_where_emptied (l1 ++ l2) e <->
  single_where_emptied l1 e /\ single_where_emptied l2 e.
Proof. apply Forall_app. Qed.

Lemma str_int_truthy (n : Z) : str_truthy (Py.str_int n) = true.
Proof.
  unfold Py.str_int. destruct (Z.to_int n) as [d|d]; simpl.
  - destruct d; reflexivity.
  - reflexivity.
Qed.

Lemma rate_updates_cases (rate_text : string)
  (us : list (string * string)) :
  rate_updates rate_text = inr us ->
  us = [] \/
  exists n, us = [("sampleRateNumerator"%string, Py.str_int n);
                  ("sampleRateDenominator"%string, "1"%string)].
Proof.
  unfold rate_updates.
  destruct (Py.float _) as [[]|r]; try discriminate;
    try (intros [= <-]; now left).
  destruct (Py.int r) as [[]|n]; try discriminate;
    try (intros [= <-]; now left).
  intros [= <-]. right. now exists n.
Qed.

(** The update methods as sequences of field updates. *)
Lemma update_stream_shape (f : stream_form) (e : Element) :
  update_stream f e =
  let e0 := set "code" (stream_code f) e in
  match rate_updates (stream_sampleRate f) with
  | inl x => Failed (apply_fields (stream_fields_before f) e0) x
  | inr us =>
      Committed
        (apply_fields (stream_fields_before f ++ us ++ stream_fields_after f)
                      e0)
  end.
Proof.
  unfold update_stream, store_sample_rate, rate_updates.
  destruct (Py.float _) as [[]|r]; try reflexivity.
  destruct (Py.int r) as [[]|n]; reflexivity.
Qed.

Lemma update_equipment_shape (f : equipment_form) (e : Element) :
  update_equipment f e =
  Committed (apply_fields (equipment_fields f)
                          (set "name" (equipment_name f) e)).
Proof. reflexivity. Qed.

Lemma update_station_shape (f : station_form) (e : Element) :
  update_station f e =
  let e1 := if str_truthy (station_code f)
            then set "code" (station_code f) e else e in
  let e2 := if str_truthy (station_name f)
            then set "name" (station_name f) e1
            else if bool_decide (is_Some (attrib e1 !! "name"))
                 then del_attrib "name" e1 else e1 in
  Committed (apply_fields (station_fields f) e2).
Proof. reflexivity. Qed.

End AttributesAndFields.

(** *** Idempotence of the update methods *)

Section Idempotence.
Import ET Editor.

Ltac distinct_tags :=
  simpl;
  repeat (apply List.NoDup_cons; [simpl; intuition discriminate|]);
  apply List.NoDup_nil.

Lemma update_station_attributes (f : station_form) (e : Element) :
  update_station f e =
  Committed (apply_fields (station_fields f) (station_attributes f e)).
Proof. reflexivity. Qed.

Lemma children_station_attributes (f : station_form) (e : Element) :
  children (station_attributes f e) = children e.
Proof.
  unfold station_attributes.
  destruct (str_truthy (station_code f)), (str_truthy (station_name f));
    try case_bool_decide; reflexivity.
Qed.

Lemma station_attributes_apply_fields (f : station_form)
  (fields : list (string * string)) (e : Element) :
  station_attributes f (apply_fields fields e) =
  apply_fields fields (station_attributes f e).
Proof.
  unfold station_attributes.
  destruct (str_truthy (station_code f)), (str_truthy (station_name f));
    rewrite <- ?apply_fields_set; try reflexivity;
    rewrite ?attrib_apply_fields;
    case_bool_decide; rewrite <- ?apply_fields_del_attrib; reflexivity.
Qed.

Lemma station_attributes_idempotent (f : station_form) (e : Element) :
  station_attributes f (station_attributes f e) = station_attributes f e.
Proof.
  unfold station_attributes. destruct e as [tg a x tl cs].
  destruct (str_truthy (station_code f)), (str_truthy (station_name f));
    unfold set, del_attrib; simpl;
    repeat (case_bool_decide; simpl);
    f_equal; apply map_eq; intros i.
  all: destruct (decide (i = "name"%string)) as [E1|E1];
       [rewrite E1 in *|];
       (destruct (decide (i = "code"%string)) as [E2|E2];
        [try discriminate E2; rewrite E2 in *|]).
  all: simplify_map_eq; reflexivity.
Qed.

Lemma update_station_idempotent (f : station_form) (e : Element) :
  single_where_emptied (station_fields f) e ->
  update_station f (node_of (update_station f e)) = update_station f e.
Proof.
  intros Hs. rewrite !update_station_attributes. cbn [node_of]. f_equal.
  rewrite station_attributes_apply_fields, station_attributes_idempotent.
  apply apply_fields_idempotent; [distinct_tags|].
  eapply single_where_emptied_same_children; [|exact Hs].
  apply children_station_attributes.
Qed.

Lemma update_equipment_idempotent (f : equipment_form) (e : Element) :
  single_where_emptied (equipment_fields f) e ->
  update_equipment f (node_of (update_equipment f e)) = update_equipment f e.
Proof.
  intros Hs. rewrite !update_equipment_shape. cbn [node_of]. f_equal.
  rewrite <- apply_fields_set, set_set.
  apply apply_fields_idempotent; [distinct_tags|].
  eapply single_where_emptied_same_children; [|exact Hs]. reflexivity.
Qed.

Lemma update_stream_idempotent (f : stream_form) (e : Element) :
  single_where_emptied (stream_fields f) e ->
  update_stream f (node_of (update_stream f e)) = update_stream f e.
Proof.
  intros Hs. rewrite !update_stream_shape. cbv zeta.
  apply single_where_emptied_app in Hs as [Hb Ha].
  pose proof (single_where_emptied_same_children _ e
                (set "code" (stream_code f) e) eq_refl Hb) as Hb'.
  pose proof (single_where_emptied_same_children _ e
                (set "code" (stream_code f) e) eq_refl Ha) as Ha'.
  destruct (rate_updates (stream_sampleRate f)) as [x|us] eqn:Hr;
    cbn [node_of].
  - f_equal. rewrite <- apply_fields_set, set_set.
    apply apply_fields_idempotent; [distinct_tags | assumption].
  - f_equal. rewrite <- apply_fields_set, set_set.
    apply apply_fields_idempotent.
    + destruct (rate_updates_cases _ _ Hr) as [->|[n ->]]; distinct_tags.
    + apply single_where_emptied_app. split; [assumption|].
      apply single_where_emptied_app. split; [|assumption].
      destruct (rate_updates_cases _ _ Hr) as [->|[n ->]].
      * constructor.
      * repeat constructor; simpl. apply str_int_truthy.
Qed.

Lemma update_element_text_idempotent (e : Element) (t v : string) :
  str_truthy v = true \/ (count_children t e <= 1)%nat ->
  _update_element_text (_update_element_text e t v) t v =
  _update_element_text e t v.
Proof.
  intros H.
  apply (committed_fixed _ (t, v)). now apply update_commits.
Qed.

End Idempotence.

(** C9 as stated fails on a node with two children of one tag: the first
    commit of an empty value removes one [flags] child, the second
    commit removes the other. *)
Lemma C9_not_idempotent_on_duplicates :
  Editor.node_of
    (Editor.update_stream empty_stream_form
       (Editor.node_of
          (Editor.update_stream empty_stream_form two_flags_stream))) <>
  Editor.node_of (Editor.update_stream empty_stream_form two_flags_stream).
Proof.
  intros H. apply (f_equal ET.children) in H.
  apply (f_equal (@length _)) in H. vm_compute in H. discriminate H.
Qed.

(** C9, amended. A commit of field values is idempotent on every node in
    which each field committed with an empty value has at most one child
    element: the second of two successive commits of the same values
    leaves the node, and the outcome of the method, as the first did.
    This holds for a single field update and for the update methods of
    stations, sensors, dataloggers and streams. *)
Theorem C9_commit_idempotent :
  (forall (e : ET.Element) (t v : string),
     str_truthy v = true \/ (count_children t e <= 1)%nat ->
     Editor._update_element_text (Editor._update_element_text e t v) t v =
     Editor._update_element_text e t v) /\
  (forall (f : Editor.stream_form) (e : ET.Element),
     single_where_emptied (stream_fields f) e ->
     Editor.update_stream f (Editor.node_of (Editor.update_stream f e)) =
     Editor.update_stream f e) /\
  (forall (f : Editor.station_form) (e : ET.Element),
     single_where_emptied (station_fields f) e ->
     Editor.update_station f (Editor.node_of (Editor.update_station f e)) =
     Editor.update_station f e) /\
  (forall (f : Editor.equipment_form) (e : ET.Element),
     single_where_emptied (equipment_fields f) e ->
     Editor.update_equipment f
       (Editor.node_of (Editor.update_equipment f e)) =
     Editor.update_equipment f e).
Proof.
  repeat split.
  - apply update_element_text_idempotent.
  - apply update_stream_idempotent.
  - apply update_station_idempotent.
  - apply update_equipment_idempotent.
Qed.

Ltac single_by_computation :=
  repeat (apply List.Forall_cons;
          [first [left; reflexivity | right; vm_compute; lia]|]);
  apply List.Forall_nil.

Lemma C9_commit_idempotent_witness :
  (Editor._update_element_text
     (Editor._update_element_text described_station "description" "")
     "description" "" =
   Editor._update_element_text described_station "description" "") /\
  (Editor.update_stream (bhz_form "BHZ" "100")
     (Editor.node_of
        (Editor.update_stream (bhz_form "BHZ" "100") bhz_stream)) =
   Editor.update_stream (bhz_form "BHZ" "100") bhz_stream) /\
  (Editor.update_station (abc_station_form "ABC" "")
     (Editor.node_of
        (Editor.update_station (abc_station_form "ABC" "")
           described_station)) =
   Editor.update_station (abc_station_form "ABC" "") described_station) /\
  (Editor.update_equipment sts2_form
     (Editor.node_of (Editor.update_equipment sts2_form sts2_sensor)) =
   Editor.update_equipment sts2_form sts2_sensor).
Proof.
  destruct C9_commit_idempotent as (H1 & H2 & H3 & H4).
  split; [|split; [|split]].
  - apply H1. right. vm_compute. lia.
  - apply H2. unfold single_where_emptied. single_by_computation.
  - apply H3. unfold single_where_emptied. single_by_computation.
  - apply H4. unfold single_where_emptied. single_by_computation.
Defined.

(** *** Required attributes *)

Section RequiredAttributes.
Import ET Editor.

(** [update_station] guards the code: an empty input leaves the
    attribute as it is. *)
Lemma update_station_keeps_code (f : station_form) (e : Element) :
  str_truthy (station_code f) = false ->
  attrib (node_of (update_station f e)) !! "code" = attrib e !! "code".
Proof.
  intros Hc. rewrite update_station_attributes. cbn [node_of].
  rewrite attrib_apply_fields. unfold station_attributes. rewrite Hc.
  destruct (str_truthy (station_name f)); [|case_bool_decide];
    simpl; try reflexivity.
  all: try (now rewrite lookup_insert_ne).
  all: try (now rewrite lookup_delete_ne).
Qed.

(** [update_stream] writes the code whatever the input is. *)
Lemma update_stream_writes_code (f : stream_form) (e : Element) :
  attrib (node_of (update_stream f e)) !! "code" = Some (stream_code f).
Proof.
  rewrite update_stream_shape. cbv zeta.
  destruct (rate_updates _); cbn [node_of];
    rewrite attrib_apply_fields; simpl; apply lookup_insert_eq.
Qed.

End RequiredAttributes.

(** C5 at the failing input: the stream node has the code [BHZ]; a commit
    with an empty code field leaves it with an empty code attribute. *)
Theorem C5_empty_stream_code_blanks_attribute :
  ET.attrib bhz_stream !! "code" = Some "BHZ"%string /\
  ET.attrib
    (Editor.node_of (Editor.update_stream (bhz_form "" "100") bhz_stream))
    !! "code" = Some ""%string.
Proof.
  split; [reflexivity|]. apply update_stream_writes_code.
Qed.

(** *** The sample rate of a stream commit *)

Section SampleRate.
Import ET Editor.

Lemma committed_read (e : Element) (t v dflt : string) :
  committed e (t, v) -> str_truthy v = true ->
  _get_element_text e t dflt = Some v.
Proof.
  unfold committed, _get_element_text. simpl. rewrite find_head.
  destruct (findall t e) as [|c rest]; simpl.
  - congruence.
  - now intros [_ ->].
Qed.

Lemma apply_fields_app (l1 l2 : list (string * string)) (e : Element) :
  apply_fields (l1 ++ l2) e = apply_fields l2 (apply_fields l1 e).
Proof. apply fold_left_app. Qed.

Lemma int_of_finite (r : spec_float) :
  is_finite r = true -> exists n, Py.int r = inr n.
Proof. destruct r; simpl; try discriminate; eauto. Qed.

Lemma rate_updates_unparsed (rate_text : string) :
  Py.float_of_str rate_text = None -> rate_updates rate_text = inr [].
Proof. unfold rate_updates, Py.float. now intros ->. Qed.

Lemma rate_updates_finite (rate_text : string) (r : spec_float) (n : Z) :
  Py.float_of_str rate_text = Some r -> Py.int r = inr n ->
  rate_updates rate_text =
    inr [("sampleRateNumerator"%string, Py.str_int n);
         ("sampleRateDenominator"%string, "1"%string)].
Proof. unfold rate_updates, Py.float. now intros -> ->. Qed.

Lemma not_in_tags (t : string) (fields : list (string * string)) :
  forallb (fun tv => negb (String.eqb t (fst tv))) fields = true ->
  ~ In t (List.map fst fields).
Proof.
  induction fields as [|[t' v'] fields IH]; simpl; [tauto|].
  intros H. apply andb_prop in H as [H1 H2].
  intros [E|E]; [|now apply IH].
  simpl in E. subst t'. now rewrite String.eqb_refl in H1.
Qed.

End SampleRate.

(** C10 at a failing input: the text [inf] in the rate field.  [float]
    accepts it, the conversion to an integer raises [OverflowError],
    which the handler of the block does not name, and the commit ends in
    the error handler of the method, half done: the numerator keeps its
    old text, the azimuth of the form is already in the node, the flags
    that the form leaves empty are still there, and [unsaved_changes] is
    not set. *)
Theorem C10_infinite_rate_not_stored :
  Py.float_of_str "inf" = Some (S754_infinity false) /\
  exists e',
    Editor.update_stream (bhz_form "BHZ" "inf") bhz_stream =
      Editor.Failed e' Py.OverflowError /\
    Editor._get_element_text e' "sampleRateNumerator" "" =
      Some "100"%string /\
    Editor._get_element_text bhz_stream "azimuth" "" = Some ""%string /\
    Editor._get_element_text e' "azimuth" "" = Some "90"%string /\
    Editor._get_element_text e' "flags" "" = Some "G"%string.
Proof.
  split; [reflexivity|].
  eexists. split; [reflexivity|]. vm_compute. repeat split.
Qed.

(** A text that parses as NaN is passed over like a text that does not
    parse: the commit succeeds and the numerator keeps its old text. *)
Lemma nan_rate_not_stored :
  Py.float_of_str "nan" = Some S754_nan /\
  exists e',
    Editor.update_stream (bhz_form "BHZ" "nan") bhz_stream =
      Editor.Committed e' /\
    Editor._get_element_text e' "sampleRateNumerator" "" =
      Some "100"%string.
Proof.
  split; [reflexivity|].
  eexists. split; [reflexivity|]. vm_compute. reflexivity.
Qed.

(** X25. The sample rate of a stream commit.  When the text of the rate field
    does not parse as a float, the commit succeeds and the
    [sampleRateNumerator] and [sampleRateDenominator] children of the
    node are exactly those it had; when the text parses as a finite
    float [r], the commit succeeds, the numerator reads back as the
    decimal string of [r] truncated to an integer and the denominator
    reads back as [1]. *)
Theorem X25_sample_rate_commit (f : Editor.stream_form) (e : ET.Element) :
  (Py.float_of_str (Editor.stream_sampleRate f) = None ->
   exists e',
     Editor.update_stream f e = Editor.Committed e' /\
     ET.findall "sampleRateNumerator" e' =
       ET.findall "sampleRateNumerator" e /\
     ET.findall "sampleRateDenominator" e' =
       ET.findall "sampleRateDenominator" e) /\
  (forall r : spec_float,
     Py.float_of_str (Editor.stream_sampleRate f) = Some r ->
     is_finite r = true ->
     exists (n : Z) (e' : ET.Element),
       Py.int r = inr n /\
       Editor.update_stream f e = Editor.Committed e' /\
       forall dflt : string,
         Editor._get_element_text e' "sampleRateNumerator" dflt =
           Some (Py.str_int n) /\
         Editor._get_element_text e' "sampleRateDenominator" dflt =
           Some "1"%string).
Proof.
  split.
  - intros Hp. eexists. rewrite update_stream_shape. cbv zeta.
    rewrite (rate_updates_unparsed _ Hp).
    split; [reflexivity|].
    split; (rewrite findall_apply_fields;
            [reflexivity | apply not_in_tags; reflexivity]).
  - intros r Hp Hfin. destruct (int_of_finite r Hfin) as [n Hn].
    exists n. eexists. split; [exact Hn|].
    rewrite update_stream_shape. cbv zeta.
    rewrite (rate_updates_finite _ _ _ Hp Hn).
    split; [reflexivity|]. intros dflt.
    rewrite !apply_fields_app.
    set (e1 := apply_fields (stream_fields_before f) _).
    change (apply_fields
              [("sampleRateNumerator"%string, Py.str_int n);
               ("sampleRateDenominator"%string, "1"%string)] e1)
      with (Editor._update_element_text
              (Editor._update_element_text e1 "sampleRateNumerator"
                 (Py.str_int n))
              "sampleRateDenominator" "1").
    split.
    + apply committed_read; [|apply str_int_truthy].
      apply committed_apply_fields; [apply not_in_tags; reflexivity|].
      apply committed_update_other; [discriminate|].
      apply update_commits. left. apply str_int_truthy.
    + apply committed_read; [|reflexivity].
      apply committed_apply_fields; [apply not_in_tags; reflexivity|].
      apply update_commits. now left.
Qed.

(** The rate [0.5] is stored as the numerator [0] over [1]; the widget
    text of an empty rate leaves the stored rate alone. *)
Lemma X25_sample_rate_commit_witness :
  (exists e',
     Editor.update_stream (bhz_form "BHZ" "") bhz_stream =
       Editor.Committed e' /\
     ET.findall "sampleRateNumerator" e' =
       ET.findall "sampleRateNumerator" bhz_stream /\
     ET.findall "sampleRateDenominator" e' =
       ET.findall "sampleRateDenominator" bhz_stream) /\
  (exists (n : Z) (e' : ET.Element),
     Py.int (S754_finite false 4503599627370496 (-53)) = inr n /\
     Editor.update_stream (bhz_form "BHZ" "0.5") bhz_stream =
       Editor.Committed e' /\
     forall dflt : string,
       Editor._get_element_text e' "sampleRateNumerator" dflt =
         Some (Py.str_int n) /\
       Editor._get_element_text e' "sampleRateDenominator" dflt =
         Some "1"%string).
Proof.
  split.
  - exact (proj1 (X25_sample_rate_commit (bhz_form "BHZ" "") bhz_stream)
             eq_refl).
  - exact (proj2 (X25_sample_rate_commit (bhz_form "BHZ" "0.5") bhz_stream)
             (S754_finite false 4503599627370496 (-53)) eq_refl eq_refl).
Defined.

Example half_rate_stored_as_zero :
  exists e',
    Editor.update_stream (bhz_form "BHZ" "0.5") bhz_stream =
      Editor.Committed e' /\
    Editor._get_element_text e' "sampleRateNumerator" "" =
      Some "0"%string /\
    Editor._get_element_text e' "sampleRateDenominator" "" =
      Some "1"%string.
Proof.
  eexists. split; [reflexivity|]. vm_compute. split; reflexivity.
Qed.

(** *** The displayed sample rate *)

Section DisplayedSampleRate.
Import ET Editor.

(** Numerator 100 over denominator 1 is shown as [100.0]. *)
Lemma displayed_rate_100_over_1 :
  displayed_sample_rate (rate_stream (Some "100"%string) (Some "1"%string))
  = inr "100.0"%string.
Proof. vm_compute. reflexivity. Qed.

(** A zero denominator gives the empty text. *)
Lemma displayed_rate_zero_denominator :
  displayed_sample_rate (rate_stream (Some "100"%string) (Some "0"%string))
  = inr ""%string.
Proof. vm_compute. reflexivity. Qed.

(** Text that is not a number gives the empty text. *)
Lemma displayed_rate_not_a_number :
  displayed_sample_rate (rate_stream (Some "fast"%string) (Some "1"%string))
  = inr ""%string /\
  displayed_sample_rate (rate_stream (Some "100"%string) (Some "one"%string))
  = inr ""%string.
Proof. split; vm_compute; reflexivity. Qed.

(** Whenever both elements carry text, or are absent, the block ends
    without an exception; the text shown is empty when one of the two
    is not a number or the denominator is a zero. *)
Lemma displayed_rate_of_texts (stream : Element) (a b : string) :
  _get_element_text stream "sampleRateNumerator" "0" = Some a ->
  _get_element_text stream "sampleRateDenominator" "1" = Some b ->
  exists shown, displayed_sample_rate stream = inr shown /\
    (Py.float_of_str a = None -> shown = ""%string) /\
    (Py.float_of_str b = None -> shown = ""%string) /\
    (forall s, Py.float_of_str b = Some (S754_zero s) -> shown = ""%string).
Proof.
  intros Ha Hb. unfold displayed_sample_rate. rewrite Ha, Hb.
  unfold Py.float, Py.bind.
  destruct (Py.float_of_str a) as [x|].
  - destruct (Py.float_of_str b) as [y|].
    + destruct y; simpl; eexists; (split; [reflexivity|]);
        repeat split; intros; congruence.
    + eexists; (split; [reflexivity|]); repeat split; intros; congruence.
  - eexists; (split; [reflexivity|]); repeat split; intros; congruence.
Qed.

End DisplayedSampleRate.

(** C8 at the failing input: the numerator element is present and has
    no text.  [float(None)] raises [TypeError], which the handler of the
    block does not name, so the exception leaves
    [populate_stream_fields]. *)
Theorem C8_textless_numerator_raises :
  Editor._get_element_text (rate_stream None (Some "1"%string))
    "sampleRateNumerator" "0" = None /\
  Editor.displayed_sample_rate (rate_stream None (Some "1"%string)) =
    inl Py.TypeError /\
  Editor.populate_stream_fields (rate_stream None (Some "1"%string)) =
    inl Py.TypeError.
Proof. repeat split. Qed.

(** *** Saving *)

Section Saving.
Import ET Editor.

Lemma rpartition_spec (sep : ascii) (s b a : string) :
  rpartition sep s = Some (b, a) ->
  s = (b ++ String sep a)%string /\ rpartition sep a = None.
Proof.
  revert b a. induction s as [|c s IH]; simpl; intros b a;
    [discriminate|].
  destruct (rpartition sep s) as [[b' a']|] eqn:Hr.
  - intros [= <- <-]. destruct (IH _ _ eq_refl) as [-> Hn].
    split; [reflexivity | assumption].
  - destruct (Ascii.eqb c sep) eqn:Hc; [|discriminate].
    intros [= <- <-]. apply Ascii.eqb_eq in Hc. subst c.
    split; [reflexivity | assumption].
Qed.

Lemma append_cons (c : ascii) (a b : string) :
  (String c a ++ b = String c (a ++ b))%string.
Proof. reflexivity. Qed.

Lemma append_assoc (a b c : string) :
  ((a ++ b) ++ c = a ++ (b ++ c))%string.
Proof.
  induction a as [|x a IH]; [reflexivity|].
  now rewrite !append_cons, IH.
Qed.

Lemma append_self_empty (s t : string) : (s ++ t = s)%string -> t = ""%string.
Proof.
  induction s as [|c s IH]; [exact (fun H => H)|].
  rewrite append_cons. intros H. injection H as H. auto.
Qed.

(** The backup path is never the path of the file itself. *)
Lemma with_suffix_differs (path backup : string) :
  with_suffix path ".xml.bak" = Some backup -> backup <> path.
Proof.
  unfold with_suffix.
  assert (Hsplit : exists dir name,
            match rpartition "/" path with
            | Some (d, n) => ((d ++ "/")%string, n)
            | None => (EmptyString, path)
            end = (dir, name) /\ path = (dir ++ name)%string).
  { destruct (rpartition "/" path) as [[d n]|] eqn:Hr.
    - exists (d ++ "/")%string, n. split; [reflexivity|].
      apply rpartition_spec in Hr as [-> _].
      now rewrite append_assoc.
    - exists ""%string, path. split; reflexivity. }
  destruct Hsplit as (dir & name & -> & ->).
  destruct name as [|c0 name0]; [discriminate|].
  set (name := String c0 name0).
  destruct (rpartition "." name) as [[stem ext]|] eqn:Hr.
  - destruct stem as [|c stem], ext as [|c' ext];
      intros [= <-] E; apply append_inj_r in E;
      try (apply append_self_empty in E; discriminate E).
    apply rpartition_spec in Hr as [Hn Hd].
    rewrite Hn in E. apply append_inj_r in E.
    injection E as Ec Ee. subst c' ext. vm_compute in Hd.
    discriminate Hd.
  - intros [= <-] E. apply append_inj_r in E.
    apply append_self_empty in E. discriminate E.
Qed.

(** A successful save: the file holds the tree, the backup holds what
    the file held, and the session has no unsaved changes. *)
Lemma save_xml_written (self : Session) (fs : filesystem)
  (file backup : string) (root : Element) (original : file_data) :
  current_file self = Some file -> tree self = Some root ->
  with_suffix file ".xml.bak" = Some backup ->
  fs !! file = Some original ->
  exists self' fs',
    save_xml WriteOk self fs = inr (self', fs', []) /\
    fs' !! file = Some (Serialized root) /\
    fs' !! backup = Some original /\
    state_of self' = Loaded.
Proof.
  intros Hf Ht Hb Ho. pose proof (with_suffix_differs _ _ Hb) as Hne.
  unfold save_xml. rewrite Hf, Ht.
  assert (Hfile : str_truthy file = true).
  { destruct file; [discriminate Hb | reflexivity]. }
  rewrite Hfile, Hb. unfold rename. rewrite Ho. simpl.
  eexists _, _. split; [reflexivity|]. split; [|split].
  - apply lookup_insert_eq.
  - rewrite lookup_insert_ne by congruence. apply lookup_insert_eq.
  - reflexivity.
Qed.

End Saving.

(** C7. When the write of a save fails, whether the file could not be
    opened or the write broke off, [save_xml] returns with the failure
    shown in a message box, the original file contents are again under
    the original file name, and the session is the one before the call:
    its unsaved-changes flag and its state are unchanged, so a dirty
    session stays dirty. *)
Theorem C7_failed_write_restores_original
  (w : Editor.write_outcome) (self : Editor.Session)
  (fs : gmap string Editor.file_data) (file backup : string)
  (root : ET.Element) (original : Editor.file_data) :
  Editor.current_file self = Some file ->
  Editor.tree self = Some root ->
  Editor.with_suffix file ".xml.bak" = Some backup ->
  fs !! file = Some original ->
  w <> Editor.WriteOk ->
  exists self' fs' e,
    Editor.save_xml w self fs = inr (self', fs', [e]) /\
    fs' !! file = Some original /\
    Editor.unsaved_changes self' = Editor.unsaved_changes self /\
    Editor.state_of self' = Editor.state_of self /\
    (Editor.state_of self = Editor.Dirty ->
     Editor.state_of self' = Editor.Dirty).
Proof.
  intros Hf Ht Hb Ho Hw.
  pose proof (with_suffix_differs _ _ Hb) as Hne.
  unfold Editor.save_xml. rewrite Hf, Ht.
  assert (Hfile : str_truthy file = true).
  { destruct file; [discriminate Hb | reflexivity]. }
  rewrite Hfile, Hb. unfold Editor.rename at 1. rewrite Ho.
  destruct w; [congruence | |]; simpl;
    unfold Editor.save_handler, Editor.rename.
  - rewrite lookup_insert_eq.
    rewrite bool_decide_eq_true_2 by eauto. simpl.
    exists self. eexists _, _. split; [reflexivity|].
    split; [apply lookup_insert_eq | tauto].
  - rewrite lookup_insert_ne by congruence.
    rewrite lookup_insert_eq.
    rewrite bool_decide_eq_true_2 by eauto. simpl.
    exists self. eexists _, _. split; [reflexivity|].
    split; [apply lookup_insert_eq | tauto].
Qed.

Lemma C7_failed_write_restores_original_witness :
  exists self' fs' e,
    Editor.save_xml Editor.WriteFailsMidway dirty_session data_files =
      inr (self', fs', [e]) /\
    fs' !! "/data/inventory.xml"%string =
      Some (Editor.Bytes "<seiscomp/>") /\
    Editor.unsaved_changes self' = Editor.unsaved_changes dirty_session /\
    Editor.state_of self' = Editor.state_of dirty_session /\
    (Editor.state_of dirty_session = Editor.Dirty ->
     Editor.state_of self' = Editor.Dirty).
Proof.
  apply (C7_failed_write_restores_original
           Editor.WriteFailsMidway dirty_session data_files
           "/data/inventory.xml" "/data/inventory.xml.bak"
           bare_station (Editor.Bytes "<seiscomp/>")).
  - reflexivity.
  - reflexivity.
  - reflexivity.
  - reflexivity.
  - discriminate.
Defined.

(** *** The hierarchy walk *)

Section Walk.
Import ET Analyzer.

Lemma stream_record_same_index (a b : Analyzer)
  nc ns ne sc ss se lc lat lon el (stream : Element) :
  same_index a b ->
  stream_record b nc ns ne sc ss se lc lat lon el stream =
  stream_record a nc ns ne sc ss se lc lat lon el stream.
Proof.
  intros [Hs Hd]. unfold stream_record. now rewrite Hs, Hd.
Qed.

Lemma resolves_same_index (a b : Analyzer) (record : dict)
  (stream : Element) :
  same_index a b -> resolves a record stream -> resolves b record stream.
Proof.
  intros H (nc & ns & ne & sc & ss & se & lc & lat & lon & el & ->).
  exists nc, ns, ne, sc, ss, se, lc, lat, lon, el.
  symmetry. now apply stream_record_same_index.
Qed.

Lemma extends_nil (a : Analyzer) : extends [] a a.
Proof.
  split; [split; reflexivity|]. exists []. split.
  - now rewrite app_nil_r.
  - constructor.
Qed.

Lemma extends_app (s1 s2 : list Element) (a b c : Analyzer) :
  extends s1 a b -> extends s2 b c -> extends (s1 ++ s2) a c.
Proof.
  intros [[Hs1 Hd1] (r1 & E1 & F1)] [[Hs2 Hd2] (r2 & E2 & F2)].
  split; [split; congruence|].
  exists (r1 ++ r2). split.
  - now rewrite E2, E1, app_assoc.
  - apply Forall2_app; [assumption|].
    eapply Forall2_impl; [exact F2|].
    intros record stream. apply resolves_same_index.
    split; congruence.
Qed.

Lemma extends_fold {X : Type} (g : X -> list Element)
  (step : Analyzer -> X -> Analyzer) (xs : list X) :
  (forall a x, extends (g x) a (step a x)) ->
  forall a, extends (flat_map g xs) a (fold_left step xs a).
Proof.
  intros Hstep. induction xs as [|x xs IH]; intros a; simpl.
  - apply extends_nil.
  - eapply extends_app; [apply Hstep | apply IH].
Qed.

Lemma flat_map_singleton {X : Type} (xs : list X) :
  flat_map (fun x => [x]) xs = xs.
Proof. induction xs as [|x xs IH]; simpl; congruence. Qed.

Lemma extends_process_stream (a : Analyzer)
  nc ns ne sc ss se lc lat lon el (stream : Element) :
  extends [stream] a
    (_process_stream a nc ns ne sc ss se lc lat lon el stream).
Proof.
  split; [split; reflexivity|].
  eexists. split; [reflexivity|].
  constructor; [|constructor].
  now exists nc, ns, ne, sc, ss, se, lc, lat, lon, el.
Qed.

Lemma extends_process_location (a : Analyzer) nc ns ne sc ss se
  (location : Element) :
  extends (findall "stream" location) a
    (_process_location a nc ns ne sc ss se location).
Proof.
  unfold _process_location.
  rewrite <- (flat_map_singleton (findall "stream" location)) at 1.
  apply extends_fold. intros. apply extends_process_stream.
Qed.

Lemma extends_process_station (a : Analyzer) nc ns ne (station : Element) :
  extends
    (flat_map (findall "stream") (findall_desc "sensorLocation" station))
    a (_process_station a nc ns ne station).
Proof.
  unfold _process_station.
  apply extends_fold. intros. apply extends_process_location.
Qed.

Lemma extends_process_networks (a : Analyzer) (inventory : Element) :
  extends (walked_streams inventory) a (_process_networks a inventory).
Proof.
  unfold _process_networks, walked_streams.
  apply extends_fold. intros b network.
  apply (extends_fold
           (fun station =>
              flat_map (findall "stream")
                       (findall_desc "sensorLocation" station))).
  intros. apply extends_process_station.
Qed.

(** A document with an inventory: the call returns, nothing is printed,
    and the records are those of the streams that the walk reaches. *)
Lemma parse_inventory_walks (root inventory : Element) :
  find "Inventory" root = Some inventory ->
  exists self',
    parse_inventory init (inr root) = Returns self' [] /\
    Forall2 (resolves self') (unified_data self')
            (walked_streams inventory).
Proof.
  intros Hf. unfold parse_inventory. simpl. rewrite Hf.
  eexists. split; [reflexivity|].
  destruct (extends_process_networks
              (_build_lookup_tables init inventory) inventory)
    as [Hi (records & E & F)].
  simpl in E. rewrite E.
  eapply Forall2_impl; [exact F|].
  intros record stream. now apply resolves_same_index.
Qed.

Lemma index_Forall {V : Type} (P : V -> Prop) (info : Element -> V)
  (elems : list Element) (lookup : gmap (option string) V) :
  (forall e, P (info e)) ->
  map_Forall (fun _ => P) lookup ->
  map_Forall (fun _ => P) (index info elems lookup).
Proof.
  intros Hinfo. revert lookup. unfold index.
  induction elems as [|e elems IH]; intros lookup Hl; simpl;
    [assumption|].
  apply IH. now apply map_Forall_insert_2.
Qed.

Lemma build_lookup_tables_without_depth (inventory : Element) :
  index_without_depth (_build_lookup_tables init inventory).
Proof.
  split; simpl; apply index_Forall;
    try (intros e; reflexivity); apply map_Forall_empty.
Qed.

(** The depth of a record is the text of the stream's depth element as
    it stands. *)
Lemma stream_record_depth (self : Analyzer)
  nc ns ne sc ss se lc lat lon el (stream : Element) :
  index_without_depth self ->
  stream_record self nc ns ne sc ss se lc lat lon el stream !! "depth"
  = Some (_get_element_text stream "depth").
Proof.
  intros [Hs Hd]. unfold stream_record.
  set (base := list_to_map _ : dict).
  assert (Hb : base !! "depth" = Some (_get_element_text stream "depth"))
    by reflexivity.
  clearbody base.
  set (with_sensor := match sensor_lookup self !! get "sensor" stream with
                      | Some info => info ∪ base
                      | None => base
                      end).
  assert (H1 : with_sensor !! "depth"
               = Some (_get_element_text stream "depth")).
  { subst with_sensor.
    destruct (sensor_lookup self !! get "sensor" stream) as [info|] eqn:E;
      [|assumption].
    rewrite lookup_union_r; [assumption|]. exact (Hs _ _ E). }
  clearbody with_sensor.
  set (with_datalogger :=
         match datalogger_lookup self !! get "datalogger" stream with
         | Some info => _
         | None => with_sensor
         end).
  assert (H2 : with_datalogger !! "depth"
               = Some (_get_element_text stream "depth")).
  { subst with_datalogger.
    destruct (datalogger_lookup self !! get "datalogger" stream)
      as [info|] eqn:E; [|assumption].
    assert (H : (fields info ∪ with_sensor) !! "depth"
                = Some (_get_element_text stream "depth")).
    { rewrite lookup_union_r; [assumption|]. exact (Hd _ _ E). }
    destruct (decimations info); [assumption|].
    now rewrite lookup_insert_ne. }
  clearbody with_datalogger.
  destruct (comment_texts stream); [assumption|].
  now rewrite lookup_insert_ne.
Qed.

Lemma index_without_depth_same (a b : Analyzer) :
  same_index a b -> index_without_depth a -> index_without_depth b.
Proof.
  intros [Hs Hd] [H1 H2]. unfold index_without_depth.
  rewrite Hs, Hd. now split.
Qed.

End Walk.

(** *** Documents of the prescribed nesting *)

Section Nesting.
Import ET.

(** Induction on elements, with the hypothesis for every child. *)
Lemma Element_induction (P : Element -> Prop) :
  (forall t a x tl cs, Forall P cs -> P (mkElement t a x tl cs)) ->
  forall e, P e.
Proof.
  intros H. fix IH 1. intros [t a x tl cs]. apply H.
  induction cs as [|c cs IHcs]; constructor; [apply IH | exact IHcs].
Qed.

Lemma iter_unfold (e : Element) : iter e = e :: flat_map iter (children e).
Proof. destruct e; reflexivity. Qed.

Lemma location_streams_unfold (b : bool) (e : Element) :
  location_streams b e =
  (if b && has_tag (sc3 "stream") e then [e] else [])
  ++ flat_map (location_streams (has_tag (sc3 "sensorLocation") e))
              (children e).
Proof. destruct e; reflexivity. Qed.

Lemma hierarchy_free_unfold (e : Element) :
  hierarchy_free e = negb (is_hierarchy e) && forallb hierarchy_free
                                                      (children e).
Proof.
  unfold hierarchy_free. rewrite iter_unfold. simpl. f_equal.
  induction (children e) as [|c cs IH]; simpl; [reflexivity|].
  now rewrite forallb_app, IH.
Qed.

Lemma forallb_Forall {X : Type} (f : X -> bool) (l : list X) :
  forallb f l = true <-> Forall (fun x => f x = true) l.
Proof.
  induction l as [|x l IH]; simpl.
  - split; [constructor | reflexivity].
  - rewrite andb_true_iff, IH. split.
    + intros [? ?]. now constructor.
    + intros H. inversion H. now split.
Qed.

(** Below an element free of hierarchy elements there is no stream that
    is the child of a sensor location. *)
Lemma location_streams_free (e : Element) :
  hierarchy_free e = true ->
  location_streams false e = [] /\
  location_streams true e =
    (if has_tag (sc3 "stream") e then [e] else []).
Proof.
  induction e as [t a x tl cs IH] using Element_induction.
  rewrite hierarchy_free_unfold. intros H.
  apply andb_prop in H as [Hh Hc].
  assert (Hl : has_tag (sc3 "sensorLocation") (mkElement t a x tl cs)
               = false).
  { unfold is_hierarchy in Hh. apply negb_true_iff in Hh.
    now apply orb_false_elim in Hh as [_ ?]. }
  assert (Hf : flat_map (location_streams false) cs = []).
  { simpl in Hc. apply forallb_Forall in Hc. clear Hh Hl.
    induction IH as [|c cs Hc1 _ IHcs]; [reflexivity|].
    inversion Hc as [|? ? Hc2 Hc3]; subst. simpl.
    rewrite (IHcs Hc3). destruct (Hc1 Hc2) as [-> _]. reflexivity. }
  rewrite !location_streams_unfold, Hl. simpl children.
  rewrite Hf, !app_nil_r. split; reflexivity.
Qed.

(** No element with a hierarchy tag in or below an element free of
    them. *)
Lemma filter_iter_free (q : string) (e : Element) :
  (forall d, has_tag q d = true -> is_hierarchy d = true) ->
  hierarchy_free e = true ->
  List.filter (has_tag q) (iter e) = [].
Proof.
  intros Hq. unfold hierarchy_free. generalize (iter e).
  induction l as [|d l IH]; simpl; [reflexivity|].
  intros H. apply andb_prop in H as [Hd Hl].
  destruct (has_tag q d) eqn:E.
  - rewrite (Hq _ E) in Hd. discriminate.
  - now apply IH.
Qed.

(** A split of a [flat_map] over children by the tag of the child. *)
Lemma flat_map_by_tag {Y : Type} (q : string) (F G : Element -> list Y)
  (cs : list Element) :
  Forall (fun c => if has_tag q c then F c = G c else F c = []) cs ->
  flat_map F cs = flat_map G (List.filter (has_tag q) cs).
Proof.
  induction 1 as [|c cs Hc _ IH]; simpl; [reflexivity|].
  destruct (has_tag q c); simpl; rewrite Hc, IH; reflexivity.
Qed.

Lemma Forall_by_tag (q : string) (valid : Element -> bool)
  (P : Element -> Prop) (cs : list Element) :
  forallb (fun c => if has_tag q c then valid c else hierarchy_free c) cs
  = true ->
  (forall c, has_tag q c = true -> valid c = true -> P c) ->
  (forall c, has_tag q c = false -> hierarchy_free c = true -> P c) ->
  Forall P cs.
Proof.
  intros H Hv Hf. apply forallb_Forall in H.
  eapply Forall_impl; [exact H|]. intros c Hc. simpl in Hc.
  destruct (has_tag q c) eqn:E; auto.
Qed.

(** The proper descendants with tag [q] are the children with tag [q],
    when each child with the tag has no such element below it and each
    other child has none in or below it. *)
Lemma findall_desc_children (name : string) (e : Element) :
  Forall (fun c => if has_tag (sc3 name) c
                   then List.filter (has_tag (sc3 name)) (iter c) = [c]
                   else List.filter (has_tag (sc3 name)) (iter c) = [])
         (children e) ->
  findall_desc name e = findall name e.
Proof.
  intros H. unfold findall_desc, findall, descendants.
  generalize dependent (children e). intros cs H.
  induction H as [|c cs Hc _ IH]; simpl; [reflexivity|].
  rewrite List.filter_app, IH.
  destruct (has_tag (sc3 name) c); now rewrite Hc.
Qed.

Lemma filter_descendants_nil (q : string) (e : Element) :
  Forall (fun c => List.filter (has_tag q) (iter c) = []) (children e) ->
  List.filter (has_tag q) (flat_map iter (children e)) = [].
Proof.
  induction 1 as [|c cs Hc _ IH]; simpl; [reflexivity|].
  now rewrite List.filter_app, Hc, IH.
Qed.

Lemma hierarchy_tag (name : string) (d : Element) :
  name = "network"%string \/ name = "station"%string \/
  name = "sensorLocation"%string ->
  has_tag (sc3 name) d = true -> is_hierarchy d = true.
Proof.
  unfold is_hierarchy. intros [-> | [-> | ->]] ->;
    rewrite ?orb_true_r; reflexivity.
Qed.

Lemma has_tag_exclusive (a b : string) (e : Element) :
  a <> b -> has_tag (sc3 a) e = true -> has_tag (sc3 b) e = false.
Proof. intros Hne. apply has_tag_other. congruence. Qed.

End Nesting.

Section Levels.
Import ET.

Lemma filter_iter_self (q : string) (e : Element) :
  Forall (fun c => List.filter (has_tag q) (iter c) = []) (children e) ->
  List.filter (has_tag q) (iter e) = if has_tag q e then [e] else [].
Proof.
  intros H. rewrite iter_unfold. simpl.
  rewrite (filter_descendants_nil _ _ H). reflexivity.
Qed.

Lemma flat_map_ext_Forall {X Y : Type} (f g : X -> list Y) (l : list X) :
  Forall (fun x => f x = g x) l -> flat_map f l = flat_map g l.
Proof. induction 1 as [|x l Hx _ IH]; simpl; congruence. Qed.

Lemma Forall_filter_tag (q : string) (P : Element -> Prop)
  (cs : list Element) :
  Forall (fun c => has_tag q c = true -> P c) cs ->
  Forall P (List.filter (has_tag q) cs).
Proof.
  induction 1 as [|c cs Hc _ IH]; simpl; [constructor|].
  destruct (has_tag q c) eqn:E; [constructor; auto | assumption].
Qed.

(** Sensor locations. *)
Lemma location_filter (name : string) (l : Element) :
  name = "network"%string \/ name = "station"%string \/
  name = "sensorLocation"%string ->
  valid_location l = true ->
  List.filter (has_tag (sc3 name)) (iter l) =
    if has_tag (sc3 name) l then [l] else [].
Proof.
  intros Hn Hv. apply filter_iter_self.
  apply forallb_Forall in Hv. eapply Forall_impl; [exact Hv|].
  intros c Hc. simpl in Hc.
  apply filter_iter_free; [|assumption].
  intros d. now apply hierarchy_tag.
Qed.

Lemma location_streams_location (l : Element) :
  has_tag (sc3 "sensorLocation") l = true ->
  valid_location l = true ->
  location_streams false l = findall "stream" l.
Proof.
  intros Ht Hv. rewrite location_streams_unfold, Ht. simpl.
  rewrite (flat_map_by_tag (sc3 "stream") _ (fun c => [c])).
  - apply flat_map_singleton.
  - apply forallb_Forall in Hv. eapply Forall_impl; [exact Hv|].
    intros c Hc. simpl in Hc.
    destruct (location_streams_free c Hc) as [_ ->].
    destruct (has_tag (sc3 "stream") c); reflexivity.
Qed.

(** Stations. *)
Lemma station_children_filter (name : string) (st : Element) :
  name = "network"%string \/ name = "station"%string ->
  valid_station st = true ->
  Forall (fun c => List.filter (has_tag (sc3 name)) (iter c) = [])
         (children st).
Proof.
  intros Hn Hv.
  apply (Forall_by_tag _ _ _ _ Hv).
  - intros c Ht Hc. rewrite location_filter by tauto.
    rewrite (has_tag_exclusive "sensorLocation" name); [reflexivity| |exact Ht].
    destruct Hn as [-> | ->]; discriminate.
  - intros c Ht Hc. apply filter_iter_free; [|assumption].
    intros d. apply hierarchy_tag. tauto.
Qed.

Lemma station_filter (name : string) (st : Element) :
  name = "network"%string \/ name = "station"%string ->
  valid_station st = true ->
  List.filter (has_tag (sc3 name)) (iter st) =
    if has_tag (sc3 name) st then [st] else [].
Proof.
  intros Hn Hv. apply filter_iter_self.
  now apply station_children_filter.
Qed.

Lemma station_locations (st : Element) :
  valid_station st = true ->
  findall_desc "sensorLocation" st = findall "sensorLocation" st.
Proof.
  intros Hv. apply findall_desc_children.
  apply (Forall_by_tag _ _ _ _ Hv).
  - intros c Ht Hc. rewrite Ht, location_filter by tauto.
    now rewrite Ht.
  - intros c Ht Hc. rewrite Ht. apply filter_iter_free; [|assumption].
    intros d. apply hierarchy_tag. tauto.
Qed.

Lemma location_streams_station (st : Element) :
  has_tag (sc3 "station") st = true ->
  valid_station st = true ->
  location_streams false st =
    flat_map (findall "stream") (findall_desc "sensorLocation" st).
Proof.
  intros Ht Hv. rewrite station_locations by assumption.
  rewrite location_streams_unfold. simpl.
  rewrite (has_tag_exclusive "station" "sensorLocation" st)
    by (discriminate || assumption).
  apply flat_map_by_tag.
  apply (Forall_by_tag _ _ _ _ Hv).
  - intros c Hc Hl. rewrite Hc. now apply location_streams_location.
  - intros c Hc Hf. rewrite Hc. now apply location_streams_free.
Qed.

(** Networks. *)
Lemma network_children_filter (n : Element) :
  valid_network n = true ->
  Forall (fun c => List.filter (has_tag (sc3 "network")) (iter c) = [])
         (children n).
Proof.
  intros Hv. apply (Forall_by_tag _ _ _ _ Hv).
  - intros c Ht Hc. rewrite station_filter by tauto.
    now rewrite (has_tag_exclusive "station" "network")
      by (discriminate || assumption).
  - intros c Ht Hc. apply filter_iter_free; [|assumption].
    intros d. apply hierarchy_tag. tauto.
Qed.

Lemma network_stations (n : Element) :
  valid_network n = true ->
  findall_desc "station" n = findall "station" n.
Proof.
  intros Hv. apply findall_desc_children.
  apply (Forall_by_tag _ _ _ _ Hv).
  - intros c Ht Hc. rewrite Ht, station_filter by tauto.
    now rewrite Ht.
  - intros c Ht Hc. rewrite Ht. apply filter_iter_free; [|assumption].
    intros d. apply hierarchy_tag. tauto.
Qed.

Lemma location_streams_network (n : Element) :
  has_tag (sc3 "network") n = true ->
  valid_network n = true ->
  location_streams false n =
    flat_map
      (fun station =>
         flat_map (findall "stream")
                  (findall_desc "sensorLocation" station))
      (findall_desc "station" n).
Proof.
  intros Ht Hv. rewrite network_stations by assumption.
  rewrite location_streams_unfold. simpl.
  rewrite (has_tag_exclusive "network" "sensorLocation" n)
    by (discriminate || assumption).
  apply flat_map_by_tag.
  apply (Forall_by_tag _ _ _ _ Hv).
  - intros c Hc Hs. rewrite Hc. now apply location_streams_station.
  - intros c Hc Hf. rewrite Hc. now apply location_streams_free.
Qed.

(** The inventory. *)
Lemma inventory_networks (inv : Element) :
  valid_inventory inv = true ->
  findall_desc "network" inv = findall "network" inv.
Proof.
  intros Hv. apply findall_desc_children.
  apply (Forall_by_tag _ _ _ _ Hv).
  - intros c Ht Hc. rewrite Ht.
    rewrite (filter_iter_self _ _ (network_children_filter _ Hc)).
    now rewrite Ht.
  - intros c Ht Hc. rewrite Ht. apply filter_iter_free; [|assumption].
    intros d. apply hierarchy_tag. tauto.
Qed.

Lemma location_streams_inventory (inv : Element) :
  has_tag (sc3 "Inventory") inv = true ->
  valid_inventory inv = true ->
  location_streams false inv = walked_streams inv.
Proof.
  intros Ht Hv. unfold walked_streams.
  rewrite inventory_networks by assumption.
  rewrite location_streams_unfold. simpl.
  rewrite (has_tag_exclusive "Inventory" "sensorLocation" inv)
    by (discriminate || assumption).
  apply flat_map_by_tag.
  apply (Forall_by_tag _ _ _ _ Hv).
  - intros c Hc Hn. rewrite Hc. now apply location_streams_network.
  - intros c Hc Hf. rewrite Hc. now apply location_streams_free.
Qed.

(** The document: the streams that the walk reaches are the streams
    below sensor locations, in document order. *)
Lemma valid_document_walk (root : Element) :
  valid_document root = true ->
  exists inventory,
    find "Inventory" root = Some inventory /\
    walked_streams inventory = location_streams false root.
Proof.
  unfold valid_document. intros H.
  apply andb_prop in H as [H Hc]. apply andb_prop in H as [Ht Hl].
  apply Nat.eqb_eq in Hl.
  destruct (findall "Inventory" root) as [|inv [|? ?]] eqn:Hf;
    try discriminate Hl.
  exists inv. split.
  - rewrite find_head, Hf. reflexivity.
  - rewrite location_streams_unfold. simpl.
    rewrite (has_tag_exclusive "seiscomp" "sensorLocation" root)
      by (discriminate || assumption).
    rewrite (flat_map_by_tag (sc3 "Inventory") _ walked_streams).
    + fold (findall "Inventory" root). rewrite Hf. simpl.
      now rewrite app_nil_r.
    + apply (Forall_by_tag _ _ _ _ Hc).
      * intros c Hi Hv. rewrite Hi.
        now apply location_streams_inventory.
      * intros c Hi Hv. rewrite Hi. now apply location_streams_free.
Qed.

End Levels.

(** *** Parsing a document *)



(** Why the nesting matters: the walk searches all descendants at each
    level, so the one stream below a network inside a network is reached
    from both networks and resolved twice. *)
Example nested_networks_resolved_twice :
  valid_document nested_networks_document = false /\
  length (location_streams false nested_networks_document) = 1%nat /\
  exists self',
    Analyzer.parse_inventory Analyzer.init (inr nested_networks_document)
      = Analyzer.Returns self' [] /\
    (fun record : gmap string (option string) =>
       (record !! "network", record !! "channel"))
    <$> Analyzer.unified_data self' =
    [(Some (Some "AU"%string), Some (Some "BHZ"%string));
     (Some (Some "XX"%string), Some (Some "BHZ"%string))].
Proof.
  split; [vm_compute; reflexivity|].
  split; [vm_compute; reflexivity|].
  eexists. split; [reflexivity|]. vm_compute. reflexivity.
Qed.

(** C3 as stated fails: of the ten streams of the sample document the
    fifth has the depth [deep]; parsing prints nothing and leaves ten
    records, the fifth with the depth text as it stands. *)
Lemma C3_non_numeric_depth_is_resolved :
  length (location_streams false (sample_document ten_streams)) = 10%nat /\
  exists self',
    Analyzer.parse_inventory Analyzer.init
      (inr (sample_document ten_streams)) = Analyzer.Returns self' [] /\
    length (Analyzer.unified_data self') = 10%nat /\
    exists record,
      Analyzer.unified_data self' !! 4%nat = Some record /\
      record !! "channel" = Some (Some "S05"%string) /\
      record !! "depth" = Some (Some "deep"%string).
Proof.
  split; [vm_compute; reflexivity|].
  eexists. split; [reflexivity|].
  split; [vm_compute; reflexivity|].
  eexists. split; [reflexivity|].
  split; vm_compute; reflexivity.
Qed.

(** C3, amended. For every document of the prescribed nesting, whatever
    the depth texts of its streams are, parsing returns without an error
    message and leaves one record for each stream, in order, whose depth
    is the text of the stream's depth element as it stands; so a
    document of ten streams of which one has a depth that is not a
    number yields ten records. *)
Theorem C3_every_stream_resolved_with_depth_text (root : ET.Element) :
  valid_document root = true ->
  exists self',
    Analyzer.parse_inventory Analyzer.init (inr root) =
      Analyzer.Returns self' [] /\
    Forall2
      (fun (record : gmap string (option string)) stream =>
         record !! "depth" =
           Some (Analyzer._get_element_text stream "depth"))
      (Analyzer.unified_data self') (location_streams false root) /\
    length (Analyzer.unified_data self') =
      length (location_streams false root).
Proof.
  intros Hv.
  destruct (valid_document_walk root Hv) as (inventory & Hf & Hw).
  rewrite <- Hw. unfold Analyzer.parse_inventory. simpl. rewrite Hf.
  eexists. split; [reflexivity|].
  destruct (extends_process_networks
              (Analyzer._build_lookup_tables Analyzer.init inventory)
              inventory) as [Hi (records & E & F)].
  simpl in E. rewrite E. split.
  - eapply Forall2_impl; [exact F|].
    intros record stream
      (nc & ns & ne & sc & ss & se & lc & lat & lon & el & ->).
    apply stream_record_depth.
    apply build_lookup_tables_without_depth.
  - eapply Forall2_length. exact F.
Qed.

Lemma C3_every_stream_resolved_with_depth_text_witness :
  exists self',
    Analyzer.parse_inventory Analyzer.init
      (inr (sample_document ten_streams)) = Analyzer.Returns self' [] /\
    Forall2
      (fun (record : gmap string (option string)) stream =>
         record !! "depth" =
           Some (Analyzer._get_element_text stream "depth"))
      (Analyzer.unified_data self')
      (location_streams false (sample_document ten_streams)) /\
    length (Analyzer.unified_data self') =
      length (location_streams false (sample_document ten_streams)).
Proof.
  apply C3_every_stream_resolved_with_depth_text.
  vm_compute. reflexivity.
Defined.

(** C4 as stated fails: for a document without the inventory container
    the call returns to its caller; no exception leaves it. *)
Lemma C4_missing_inventory_does_not_propagate :
  ET.find "Inventory" no_inventory_document = None /\
  ~ (exists e,
       Analyzer.parse_inventory Analyzer.init (inr no_inventory_document)
       = Analyzer.Raises e).
Proof.
  split; [reflexivity|]. intros [e H]. discriminate H.
Qed.

(** C4, amended. When the document lacks the inventory container, the
    load stops before the index is built and before any stream is
    resolved: the analyzer is left exactly as it was.  The structural
    error is caught inside the load and reported on the error stream;
    the call returns to its caller. *)
Theorem C4_missing_inventory_reported_and_halted
  (self : Analyzer.Analyzer) (root : ET.Element) :
  ET.find "Inventory" root = None ->
  Analyzer.parse_inventory self (inr root) =
    Analyzer.Returns self
      [Analyzer.Error_parsing_inventory
         (Py.ValueError "No Inventory element found in XML")].
Proof.
  intros H. unfold Analyzer.parse_inventory. simpl. now rewrite H.
Qed.

Lemma C4_missing_inventory_reported_and_halted_witness :
  Analyzer.parse_inventory Analyzer.init (inr no_inventory_document) =
    Analyzer.Returns Analyzer.init
      [Analyzer.Error_parsing_inventory
         (Py.ValueError "No Inventory element found in XML")].
Proof.
  apply C4_missing_inventory_reported_and_halted. reflexivity.
Defined.

(** *** The projection *)

Section Projection.
Import Analyzer.

Lemma apply_or_values (df : DataFrame) (a b : string) (xs : list dict)
  (vs : list cell) :
  apply_or df a b xs = inr vs -> vs = or_cell a b <$> xs.
Proof.
  revert vs. induction xs as [|x xs IH]; simpl; intros vs.
  - now intros [= <-].
  - unfold getitem at 1. case_bool_decide; [|discriminate]. simpl.
    unfold or_cell.
    destruct (cell_truthy (x !! a)); simpl.
    + destruct (apply_or df a b xs) as [|vs']; [discriminate|].
      intros [= <-]. now rewrite (IH _ eq_refl).
    + unfold getitem at 1. case_bool_decide; [|discriminate]. simpl.
      destruct (apply_or df a b xs) as [|vs']; [discriminate|].
      intros [= <-]. now rewrite (IH _ eq_refl).
Qed.

Lemma zip_with_fmap_same {X Y Z : Type} (f : X -> Y -> Z) (g : X -> Y)
  (l : list X) :
  zip_with f l (g <$> l) = (fun x => f x (g x)) <$> l.
Proof.
  induction l as [|x l IH]; simpl; [reflexivity|]. f_equal. exact IH.
Qed.

Lemma lookup_put (col : string) (r : dict) (v : cell) :
  put col r v !! col = v.
Proof.
  destruct v as [o|]; simpl; [apply lookup_insert_eq | apply lookup_delete_eq].
Qed.

Lemma lookup_put_ne (col k : string) (r : dict) (v : cell) :
  col <> k -> put col r v !! k = r !! k.
Proof.
  intros H. destruct v as [o|]; simpl;
    [now apply lookup_insert_ne | now apply lookup_delete_ne].
Qed.

End Projection.

Section ProjectionShape.
Import Analyzer.

(** The table that [export_to_csv] writes, row by row. *)
Lemma export_to_csv_table (nan_is_none : bool) (self : Analyzer)
  (table : csv_table) :
  fst (export_to_csv nan_is_none self) = Some table ->
  let cols : gset string := ⋃ (dom <$> unified_data self) in
  header table =
    (cols ∪ {["sensor_serial_number"%string]}
          ∪ {["datalogger_serial_number"%string]})
    ∖ list_to_set per_level_columns /\
  body table =
    (fun r : dict =>
       set_to_map
         (fun c => (c, csv_field (final_row nan_is_none cols r !! c)))
         (header table)) <$> unified_data self.
Proof.
  unfold export_to_csv.
  destruct (unified_data self) as [|d ds] eqn:Hd; [discriminate|].
  rewrite <- Hd. clear Hd d ds.
  set (df1 := replace_none nan_is_none (DataFrame_of (unified_data self))).
  destruct (apply_or df1 _ _ (rows df1)) as [e|sensor] eqn:E1;
    [discriminate|].
  apply apply_or_values in E1. subst sensor. cbn [Py.bind].
  set (df2 := setitem df1 _ _).
  destruct (apply_or df2 _ _ (rows df2)) as [e|datalogger] eqn:E2;
    [discriminate|].
  apply apply_or_values in E2. subst datalogger. cbn [Py.bind].
  set (df3 := setitem df2 _ _).
  destruct (drop df3 _) as [e|df4] eqn:E3; [discriminate|].
  cbn [Py.bind fst]. intros [= <-].
  unfold drop in E3. destruct (List.filter _ _); [|discriminate].
  injection E3 as <-. cbn [to_csv header body columns rows].
  split; [reflexivity|].
  subst df3 df2 df1.
  cbn [setitem replace_none DataFrame_of columns rows].
  rewrite !zip_with_fmap_same, <- !list_fmap_compose.
  reflexivity.
Qed.

End ProjectionShape.

Section Rows.
Import Analyzer.

Lemma clean_row_present (nan_is_none : bool) (cols : gset string)
  (r : dict) (k : string) (o : option string) :
  r !! k = Some o ->
  clean_row nan_is_none cols r !! k = Some (Some (default EmptyString o)).
Proof.
  intros H. unfold clean_row.
  assert (H1 : ((fun v : option string =>
                   match v with
                   | None => Some EmptyString
                   | Some s => Some s
                   end) <$> r) !! k = Some (Some (default EmptyString o))).
  { rewrite lookup_fmap, H. now destruct o. }
  destruct nan_is_none; [|assumption].
  now apply lookup_union_Some_l.
Qed.

Lemma clean_row_absent (nan_is_none : bool) (cols : gset string)
  (r : dict) (k : string) :
  r !! k = None ->
  csv_field (clean_row nan_is_none cols r !! k) = EmptyString.
Proof.
  intros H. unfold clean_row.
  assert (H1 : ((fun v : option string =>
                   match v with
                   | None => Some EmptyString
                   | Some s => Some s
                   end) <$> r) !! k = None).
  { now rewrite lookup_fmap, H. }
  destruct nan_is_none; [|now rewrite H1].
  rewrite lookup_union_r by assumption.
  destruct (gset_to_gmap (Some EmptyString) cols !! k) as [v|] eqn:E;
    [|reflexivity].
  apply lookup_gset_to_gmap_Some in E as [_ <-]. reflexivity.
Qed.

(** The coalesced cell of a cleaned row, as written. *)
Lemma or_cell_coalesce (nan_is_none : bool) (cols : gset string)
  (r : dict) (a b : string) :
  is_Some (r !! a) ->
  csv_field (or_cell a b (clean_row nan_is_none cols r)) =
  coalesce (r !! a) (r !! b).
Proof.
  intros [o Ha]. unfold or_cell.
  rewrite (clean_row_present _ _ _ _ _ Ha), Ha.
  assert (Hb : csv_field (clean_row nan_is_none cols r !! b) =
               csv_field (r !! b)).
  { destruct (r !! b) as [ob|] eqn:Hb.
    - rewrite (clean_row_present _ _ _ _ _ Hb). now destruct ob.
    - now apply clean_row_absent. }
  destruct o as [s|]; simpl.
  - destruct (str_truthy s) eqn:Hs; [reflexivity | exact Hb].
  - exact Hb.
Qed.

Lemma final_row_sensor (nan_is_none : bool) (cols : gset string)
  (r : dict) :
  is_Some (r !! "sensor_serial_number_stream") ->
  csv_field (final_row nan_is_none cols r !! "sensor_serial_number") =
  coalesce (r !! "sensor_serial_number_stream")
           (r !! "sensor_serial_number_equipment").
Proof.
  intros H. unfold final_row, per_level_columns. cbn [foldr].
  rewrite !lookup_delete_ne by discriminate.
  rewrite lookup_put_ne by discriminate.
  rewrite lookup_put. now apply or_cell_coalesce.
Qed.

Lemma final_row_datalogger (nan_is_none : bool) (cols : gset string)
  (r : dict) :
  is_Some (r !! "datalogger_serial_number_stream") ->
  csv_field (final_row nan_is_none cols r !! "datalogger_serial_number") =
  coalesce (r !! "datalogger_serial_number_stream")
           (r !! "datalogger_serial_number_equipment").
Proof.
  intros H. unfold final_row, per_level_columns. cbn [foldr].
  rewrite !lookup_delete_ne by discriminate.
  rewrite lookup_put.
  unfold or_cell. rewrite !lookup_put_ne by discriminate.
  now apply or_cell_coalesce.
Qed.

Lemma lookup_row (cols : gset string) (x : dict) (c : string) :
  (set_to_map (fun c => (c, csv_field (x !! c))) cols
     : gmap string string) !! c =
  if bool_decide (c ∈ cols) then Some (csv_field (x !! c)) else None.
Proof.
  case_bool_decide as Hc.
  - apply lookup_set_to_map; [|eauto].
    intros y y' _ _ E. exact E.
  - destruct (_ !! c) as [v|] eqn:E; [|reflexivity].
    apply lookup_set_to_map in E as (y & Hy & [= -> _]); [contradiction|].
    intros y y' _ _ E'. exact E'.
Qed.

End Rows.

(** C2 at a failing input: a document of the prescribed nesting whose
    one stream refers to a sensor and a datalogger that the inventory
    does not have.  The walk makes the record of the stream, with the
    stream-level sensor serial number [BHZ-S] and no equipment-level
    key.  The export then asks a row for the equipment-level datalogger
    number, a column that the frame does not have: [KeyError] is raised,
    the handler prints it and no table is written, whichever way the
    data-frame library treats missing values; the serial number of the
    record is reported nowhere. *)
Theorem C2_unresolved_equipment_writes_no_table :
  valid_document no_equipment_document = true /\
  (exists self',
     Analyzer.parse_inventory Analyzer.init (inr no_equipment_document) =
       Analyzer.Returns self' [] /\
     (fun record : gmap string (option string) =>
        (record !! "sensor_serial_number_stream",
         record !! "sensor_serial_number_equipment",
         record !! "datalogger_serial_number_equipment"))
     <$> Analyzer.unified_data self' =
     [(Some (Some "BHZ-S"%string), None, None)]) /\
  analyzer_main true (inr no_equipment_document) =
    (None,
     [Analyzer.Error_exporting_CSV_file
        (Py.KeyError "datalogger_serial_number_equipment")]) /\
  analyzer_main false (inr no_equipment_document) =
    (None,
     [Analyzer.Error_exporting_CSV_file
        (Py.KeyError "datalogger_serial_number_equipment")]).
Proof.
  split; [vm_compute; reflexivity|].
  split; [eexists; split; [reflexivity | vm_compute; reflexivity]|].
  split; vm_compute; reflexivity.
Qed.

(** X24. The coalesced serial numbers.  In a table that the projection
    writes from records that carry both stream-level keys, as every
    record of the resolver does, the sensor (resp. datalogger) serial
    number of every record is the stream-level value when that is
    present and non-empty, otherwise the equipment-level value, and
    empty when neither level has one; the four per-level columns are not
    among the columns of the table and no row has a field for them.
    This holds whichever way the data-frame library treats missing
    values when [None] is replaced. *)
Theorem X24_serial_numbers_coalesced
  (nan_is_none : bool) (self : Analyzer.Analyzer)
  (table : Analyzer.csv_table) :
  Forall has_stream_serials (Analyzer.unified_data self) ->
  fst (Analyzer.export_to_csv nan_is_none self) = Some table ->
  Forall (fun c => c ∉ Analyzer.header table) per_level_columns /\
  "sensor_serial_number"%string ∈ Analyzer.header table /\
  "datalogger_serial_number"%string ∈ Analyzer.header table /\
  Forall2
    (fun (record : gmap string (option string))
         (row : gmap string string) =>
       row !! "sensor_serial_number" =
         Some (coalesce (record !! "sensor_serial_number_stream")
                        (record !! "sensor_serial_number_equipment")) /\
       row !! "datalogger_serial_number" =
         Some (coalesce (record !! "datalogger_serial_number_stream")
                        (record !! "datalogger_serial_number_equipment")) /\
       Forall (fun c => row !! c = None) per_level_columns)
    (Analyzer.unified_data self) (Analyzer.body table).
Proof.
  intros Hs Ht.
  destruct (export_to_csv_table _ _ _ Ht) as [Hh Hb].
  assert (H1 : Forall (fun c => c ∉ Analyzer.header table)
                      per_level_columns).
  { rewrite Hh. apply List.Forall_forall. intros c Hc.
    rewrite elem_of_difference, elem_of_list_to_set.
    intros [_ Hn]. apply Hn. now apply list_elem_of_In. }
  assert (Hnew : forall c : string,
             c = "sensor_serial_number"%string \/
             c = "datalogger_serial_number"%string ->
             c ∈ Analyzer.header table).
  { intros c Hc. rewrite Hh.
    rewrite elem_of_difference, elem_of_list_to_set. split.
    - rewrite !elem_of_union, !elem_of_singleton. tauto.
    - unfold per_level_columns. rewrite !elem_of_cons, elem_of_nil.
      destruct Hc as [-> | ->]; intros H;
        repeat (destruct H as [H|H]; [discriminate H|]); exact H. }
  assert (H2 := Hnew "sensor_serial_number"%string (or_introl eq_refl)).
  assert (H3 := Hnew "datalogger_serial_number"%string (or_intror eq_refl)).
  repeat split; try assumption.
  rewrite Hb. apply Forall2_fmap_r. apply Forall_Forall2_diag.
  eapply Forall_impl; [exact Hs|].
  intros r [Hr1 Hr2]. simpl. rewrite !lookup_row.
  rewrite !bool_decide_eq_true_2 by assumption.
  rewrite final_row_sensor, final_row_datalogger by assumption.
  repeat split.
  eapply Forall_impl; [exact H1|]. intros c Hc. simpl.
  rewrite lookup_row. now rewrite bool_decide_eq_false_2.
Qed.

Lemma X24_serial_numbers_coalesced_witness :
  exists table,
    fst (Analyzer.export_to_csv true two_records) = Some table /\
    Forall (fun c => c ∉ Analyzer.header table) per_level_columns /\
    "sensor_serial_number"%string ∈ Analyzer.header table /\
    "datalogger_serial_number"%string ∈ Analyzer.header table /\
    Forall2
      (fun (record : gmap string (option string))
           (row : gmap string string) =>
         row !! "sensor_serial_number" =
           Some (coalesce (record !! "sensor_serial_number_stream")
                          (record !! "sensor_serial_number_equipment")) /\
         row !! "datalogger_serial_number" =
           Some (coalesce (record !! "datalogger_serial_number_stream")
                          (record !! "datalogger_serial_number_equipment")) /\
         Forall (fun c => row !! c = None) per_level_columns)
      (Analyzer.unified_data two_records) (Analyzer.body table).
Proof.
  eexists. split; [reflexivity|].
  apply (X24_serial_numbers_coalesced true two_records).
  - repeat (apply List.Forall_cons;
            [split; eexists; reflexivity|]).
    apply List.Forall_nil.
  - reflexivity.
Defined.

(** The two rows of the sample: the stream-level number where there is
    one, the equipment-level number otherwise, nothing where neither
    level has one. *)
Example two_records_table :
  exists table,
    fst (Analyzer.export_to_csv true two_records) = Some table /\
    (fun row : gmap string string =>
       (row !! "sensor_serial_number", row !! "datalogger_serial_number"))
    <$> Analyzer.body table =
    [(Some "S-1"%string, Some "D-5"%string);
     (Some "E-78"%string, Some ""%string)].
Proof.
  eexists. split; [reflexivity|]. vm_compute. reflexivity.
Qed.

Section ProjectionTotal.
Import Analyzer.

Lemma apply_or_total (df : DataFrame) (a b : string) (xs : list dict) :
  a ∈ columns df -> b ∈ columns df ->
  apply_or df a b xs = inr (or_cell a b <$> xs).
Proof.
  intros Ha Hb. induction xs as [|x xs IH]; simpl; [reflexivity|].
  unfold getitem. rewrite !bool_decide_eq_true_2 by assumption.
  rewrite IH. unfold or_cell. simpl.
  destruct (cell_truthy (x !! a)); reflexivity.
Qed.

(** When the table is written: there is a record, and each of the four
    per-level keys occurs in some record.  Otherwise the export ends in
    its error handler, or does nothing for an empty data set. *)
Lemma export_to_csv_table_iff (nan_is_none : bool) (self : Analyzer) :
  is_Some (fst (export_to_csv nan_is_none self)) <->
  unified_data self <> [] /\
  Forall (fun c => c ∈ (⋃ (dom <$> unified_data self) : gset string))
         per_level_columns.
Proof.
  unfold export_to_csv.
  destruct (unified_data self) as [|d ds] eqn:Hd.
  { split; [intros [x H]; discriminate H | intros [H _]; congruence]. }
  rewrite <- Hd. clear Hd d ds.
  set (cols := ⋃ (dom <$> unified_data self) : gset string).
  set (df1 := replace_none nan_is_none (DataFrame_of (unified_data self))).
  split.
  - intros Hsome.
    destruct (apply_or df1 _ _ (rows df1)) as [e|sensor];
      [destruct Hsome as [x Hx]; discriminate Hx|].
    cbn [Py.bind] in Hsome.
    set (df2 := setitem df1 _ _) in Hsome.
    destruct (apply_or df2 _ _ (rows df2)) as [e|datalogger];
      [destruct Hsome as [x Hx]; discriminate Hx|].
    cbn [Py.bind] in Hsome.
    set (df3 := setitem df2 _ _) in Hsome.
    unfold drop in Hsome.
    destruct (List.filter _ _) as [|c0 cs] eqn:Hfilter;
      [|destruct Hsome as [x Hx]; discriminate Hx].
    split; [destruct (unified_data self); discriminate || congruence|].
    apply List.Forall_forall. intros c Hc.
    apply filter_nil_Forall in Hfilter.
    pose proof (proj1 (List.Forall_forall _ _) Hfilter c Hc) as Hin.
    cbv beta in Hin.
    apply negb_false_iff, bool_decide_eq_true in Hin.
    subst df3 df2 df1. cbn [setitem replace_none DataFrame_of columns] in Hin.
    fold cols in Hin.
    rewrite !elem_of_union, !elem_of_singleton in Hin.
    destruct Hin as [[Hin|E]|E]; [exact Hin| |];
      subst c; unfold per_level_columns in Hc;
      repeat (destruct Hc as [Hc|Hc]; [discriminate Hc|]); destruct Hc.
  - intros [_ Hall].
    assert (Hin : forall c, In c per_level_columns -> c ∈ columns df1).
    { intros c Hc. apply (proj1 (List.Forall_forall _ _) Hall c Hc). }
    rewrite apply_or_total by (apply Hin; simpl; tauto).
    cbn [Py.bind].
    set (df2 := setitem df1 _ _).
    assert (Hin2 : forall c, In c per_level_columns -> c ∈ columns df2).
    { intros c Hc. subst df2. cbn [setitem columns].
      apply elem_of_union_l. now apply Hin. }
    rewrite apply_or_total by (apply Hin2; simpl; tauto).
    cbn [Py.bind].
    set (df3 := setitem df2 _ _).
    assert (Hfilter : List.filter
                        (fun c => negb (bool_decide (c ∈ columns df3)))
                        per_level_columns = []).
    { apply filter_nil_Forall. apply List.Forall_forall. intros c Hc.
      apply negb_false_iff, bool_decide_eq_true.
      subst df3. cbn [setitem columns].
      apply elem_of_union_l. now apply Hin2. }
    unfold drop. unfold per_level_columns in Hfilter. rewrite Hfilter.
    cbn [Py.bind fst]. eauto.
Qed.

(** Without an equipment-level key in any record no table is written:
    both stream-level numbers are non-empty, so the two [apply] calls
    never look at the equipment level, and [drop] raises for the two
    labels that are not columns; the export ends in its error handler. *)
Example export_without_equipment_level :
  Analyzer.export_to_csv true stream_level_only =
    (None,
     [Analyzer.Error_exporting_CSV_file
        (Py.KeyError
           "['sensor_serial_number_equipment', 'datalogger_serial_number_equipment'] not found in axis")]).
Proof. vm_compute. reflexivity. Qed.

(** The records that the resolver makes carry both stream-level keys. *)
Lemma stream_record_has_stream_serials (self : Analyzer)
  nc ns ne sc ss se lc lat lon el (stream : ET.Element) :
  has_stream_serials
    (stream_record self nc ns ne sc ss se lc lat lon el stream).
Proof.
  assert (H : forall k : string,
            k = "sensor_serial_number_stream"%string \/
            k = "datalogger_serial_number_stream"%string ->
            is_Some (stream_record self nc ns ne sc ss se lc lat lon el
                       stream !! k)).
  { intros k Hk. unfold stream_record.
    set (base := list_to_map _ : dict).
    assert (Hb : is_Some (base !! k))
      by (destruct Hk as [-> | ->]; eexists; reflexivity).
    clearbody base.
    assert (Hu : forall (m1 m2 : dict),
               is_Some (m2 !! k) -> is_Some ((m1 ∪ m2) !! k)).
    { intros m1 m2 [v Hv]. rewrite lookup_union, Hv.
      destruct (m1 !! k); eexists; reflexivity. }
    assert (Hi : forall (m : dict) j v,
               is_Some (m !! k) -> is_Some (<[j := v]> m !! k)).
    { intros m j v Hm. apply lookup_insert_is_Some.
      destruct (decide (j = k)); [now left | now right]. }
    repeat match goal with
           | |- is_Some (match ?x with _ => _ end !! _) => destruct x
           | |- is_Some ((_ ∪ _) !! _) => apply Hu
           | |- is_Some (<[_ := _]> _ !! _) => apply Hi
           end; assumption. }
  split; apply H; tauto.
Qed.

End ProjectionTotal.

(** *** The identifier index *)

Section IdentifierIndex.
Import ET Analyzer.

Lemma index_snoc {V : Type} (info : Element -> V) (elems : list Element)
  (e : Element) (lookup : gmap (option string) V) :
  index info (elems ++ [e]) lookup =
  <[get "publicID" e := info e]> (index info elems lookup).
Proof. unfold index. now rewrite fold_left_app. Qed.

(** The index after a run over [elems]: the record of the last element
    with the identifier, and the earlier entry when there is none. *)
Lemma index_lookup {V : Type} (info : Element -> V) (elems : list Element)
  (lookup : gmap (option string) V) (k : option string) :
  index info elems lookup !! k =
  match last_with_id k elems with
  | Some e => Some (info e)
  | None => lookup !! k
  end.
Proof.
  unfold last_with_id.
  induction elems as [|e elems IH] using rev_ind; [reflexivity|].
  rewrite index_snoc, rev_app_distr. simpl.
  case_bool_decide as Hk.
  - rewrite Hk. apply lookup_insert_eq.
  - rewrite lookup_insert_ne by assumption. exact IH.
Qed.

End IdentifierIndex.

(** X1. Duplicate identifiers: after the index is built from an
    inventory, the entry for an identifier is the record of the last
    sensor (datalogger, response, pole-zero response) in document order
    that carries it, and there is no entry when no element carries it;
    an element without the attribute is filed under [None]. *)
Theorem X1_index_last_write_wins (inventory : ET.Element)
  (k : option string) :
  let self := Analyzer._build_lookup_tables Analyzer.init inventory in
  Analyzer.sensor_lookup self !! k =
    Analyzer.sensor_info <$>
      last_with_id k (ET.findall_desc "sensor" inventory) /\
  Analyzer.datalogger_lookup self !! k =
    Analyzer.datalogger_info_of <$>
      last_with_id k (ET.findall_desc "datalogger" inventory) /\
  Analyzer.response_lookup self !! k =
    Analyzer.response_info <$>
      last_with_id k (ET.findall_desc "response" inventory) /\
  Analyzer.paz_lookup self !! k =
    Analyzer.paz_info <$>
      last_with_id k (ET.findall_desc "responsePAZ" inventory).
Proof.
  cbv zeta. simpl. rewrite !index_lookup.
  repeat split; destruct (last_with_id _ _); reflexivity.
Qed.

(** *** The fields of a resolved record *)

Section RecordFields.
Import ET Analyzer.

Ltac key_cases H :=
  simpl in H; repeat (destruct H as [<- | H]); [.. | destruct H].

Lemma sensor_info_keys (sensor : Element) (k : string) :
  is_Some (sensor_info sensor !! k) <-> In k sensor_keys.
Proof.
  split.
  - intros [v Hv]. unfold sensor_info in Hv.
    apply elem_of_list_to_map_2 in Hv.
    rewrite !elem_of_cons, elem_of_nil in Hv. simpl.
    repeat (destruct Hv as [Hv | Hv]; [injection Hv as -> _; tauto|]).
    destruct Hv.
  - intros H. key_cases H; eexists; reflexivity.
Qed.

Lemma datalogger_info_keys (datalogger : Element) (k : string) :
  is_Some (fields (datalogger_info_of datalogger) !! k)
  <-> In k datalogger_keys.
Proof.
  split.
  - intros [v Hv]. unfold datalogger_info_of, fields in Hv.
    apply elem_of_list_to_map_2 in Hv.
    rewrite !elem_of_cons, elem_of_nil in Hv. simpl.
    repeat (destruct Hv as [Hv | Hv]; [injection Hv as -> _; tauto|]).
    destruct Hv.
  - intros H. key_cases H; eexists; reflexivity.
Qed.

Lemma build_lookup_tables_well_keyed (inventory : Element) :
  index_well_keyed (_build_lookup_tables init inventory).
Proof.
  split; simpl; apply index_Forall;
    try apply map_Forall_empty.
  - intros e k. apply sensor_info_keys.
  - intros e k. apply datalogger_info_keys.
Qed.

Lemma index_well_keyed_same (a b : Analyzer) :
  same_index a b -> index_well_keyed a -> index_well_keyed b.
Proof.
  intros [Hs Hd] [H1 H2]. unfold index_well_keyed.
  rewrite Hs, Hd. now split.
Qed.

Lemma sensor_part_keys (self : Analyzer) (stream : Element) (k : string) :
  index_well_keyed self ->
  ~ In k sensor_keys -> sensor_part self stream !! k = None.
Proof.
  intros [Hs _] Hk. unfold sensor_part.
  destruct (sensor_lookup self !! get "sensor" stream) as [info|] eqn:E;
    simpl; [|apply lookup_empty].
  apply eq_None_not_Some. intros H. apply Hk.
  now apply (Hs _ _ E k).
Qed.

Lemma datalogger_part_keys (self : Analyzer) (stream : Element)
  (k : string) :
  index_well_keyed self ->
  ~ In k datalogger_keys -> datalogger_part self stream !! k = None.
Proof.
  intros [_ Hd] Hk. unfold datalogger_part.
  destruct (datalogger_lookup self !! get "datalogger" stream)
    as [info|] eqn:E; simpl; [|apply lookup_empty].
  apply eq_None_not_Some. intros H. apply Hk.
  now apply (Hd _ _ E k).
Qed.

(** A record below its two optional keys: the datalogger fields over the
    sensor fields over the local fields. *)
Lemma stream_record_lookup (self : Analyzer)
  nc ns ne sc ss se lc lat lon el (stream : Element) (k : string) :
  k <> "decimation_info"%string -> k <> "stream_comments"%string ->
  stream_record self nc ns ne sc ss se lc lat lon el stream !! k =
  (datalogger_part self stream ∪
   (sensor_part self stream ∪
    list_to_map (local_fields nc ns ne sc ss se lc lat lon el stream)))
  !! k.
Proof.
  intros Hd Hc. unfold stream_record, sensor_part, datalogger_part.
  change (list_to_map _ : dict)
    with (list_to_map
            (local_fields nc ns ne sc ss se lc lat lon el stream) : dict).
  set (base := list_to_map _ : dict).
  destruct (comment_texts stream);
    [|rewrite lookup_insert_ne by congruence];
    (destruct (datalogger_lookup self !! get "datalogger" stream)
       as [di|]; simpl;
     [destruct (decimations di);
      [|rewrite lookup_insert_ne by congruence]|]);
    destruct (sensor_lookup self !! get "sensor" stream); simpl;
    rewrite ?(left_id_L ∅ (∪)); reflexivity.
Qed.

End RecordFields.

Section RecordTheorems.
Import ET Analyzer.

Ltac not_a_key := simpl; intuition discriminate.

Lemma local_field_kept (self : Analyzer)
  nc ns ne sc ss se lc lat lon el (stream : Element)
  (k : string) (v : option string) :
  index_well_keyed self ->
  k <> "decimation_info"%string -> k <> "stream_comments"%string ->
  ~ In k sensor_keys -> ~ In k datalogger_keys ->
  (list_to_map (local_fields nc ns ne sc ss se lc lat lon el stream)
     : dict) !! k = Some v ->
  stream_record self nc ns ne sc ss se lc lat lon el stream !! k = Some v.
Proof.
  intros Hw H1 H2 Hs Hd Hb.
  rewrite stream_record_lookup by assumption.
  rewrite lookup_union_r by now apply datalogger_part_keys.
  rewrite lookup_union_r by now apply sensor_part_keys.
  exact Hb.
Qed.

End RecordTheorems.

(** X2. Merging equipment into a record never overwrites a context field
    or a stream-local field: each of the thirty-two fields that
    [_process_stream] reads from the stream and its ancestors is in the
    record with exactly the value read, whatever sensor and datalogger
    the stream refers to. *)
Theorem X2_local_fields_kept (inventory : ET.Element)
  (network_code : string) (network_start network_end : option string)
  (station_code : string) (station_start station_end : option string)
  (location_code : string) (latitude longitude elevation : option string)
  (stream : ET.Element) :
  let self := Analyzer._build_lookup_tables Analyzer.init inventory in
  Forall
    (fun kv : string * option string =>
       Analyzer.stream_record self network_code network_start network_end
         station_code station_start station_end
         location_code latitude longitude elevation stream !! fst kv
       = Some (snd kv))
    (local_fields network_code network_start network_end
       station_code station_start station_end
       location_code latitude longitude elevation stream).
Proof.
  cbv zeta.
  pose proof (build_lookup_tables_well_keyed inventory) as Hw.
  unfold local_fields at 1.
  repeat (apply List.Forall_cons;
          [apply local_field_kept;
           [exact Hw | discriminate | discriminate
           | simpl; intuition discriminate
           | simpl; intuition discriminate
           | reflexivity]|]).
  apply List.Forall_nil.
Qed.

Section EquipmentFields.
Import ET Analyzer.

Lemma sensor_field_of_record (self : Analyzer)
  nc ns ne sc ss se lc lat lon el (stream : Element) (k : string) :
  index_well_keyed self -> In k sensor_keys ->
  stream_record self nc ns ne sc ss se lc lat lon el stream !! k =
  match sensor_lookup self !! get "sensor" stream with
  | Some info => info !! k
  | None => None
  end.
Proof.
  intros Hw Hk.
  assert (Hnd : ~ In k datalogger_keys)
    by (simpl in Hk; repeat (destruct Hk as [<- | Hk]);
        try (simpl; intuition discriminate); destruct Hk).
  assert (Hb : (list_to_map
                  (local_fields nc ns ne sc ss se lc lat lon el stream)
                : dict) !! k = None)
    by (simpl in Hk; repeat (destruct Hk as [<- | Hk]);
        try reflexivity; destruct Hk).
  rewrite stream_record_lookup
    by (simpl in Hk; repeat (destruct Hk as [<- | Hk]);
        try discriminate; destruct Hk).
  rewrite lookup_union_r by now apply datalogger_part_keys.
  unfold sensor_part.
  set (base := list_to_map _ : dict) in *. clearbody base.
  destruct (sensor_lookup self !! get "sensor" stream) as [info|] eqn:E;
    cbn [default].
  - apply lookup_union_l'. destruct Hw as [Hs _].
    now apply (Hs _ _ E k).
  - now rewrite (left_id_L ∅ (∪)).
Qed.

Lemma datalogger_field_of_record (self : Analyzer)
  nc ns ne sc ss se lc lat lon el (stream : Element) (k : string) :
  index_well_keyed self -> In k datalogger_keys ->
  stream_record self nc ns ne sc ss se lc lat lon el stream !! k =
  match datalogger_lookup self !! get "datalogger" stream with
  | Some info => fields info !! k
  | None => None
  end.
Proof.
  intros Hw Hk.
  assert (Hns : ~ In k sensor_keys)
    by (simpl in Hk; repeat (destruct Hk as [<- | Hk]);
        try (simpl; intuition discriminate); destruct Hk).
  assert (Hb : (list_to_map
                  (local_fields nc ns ne sc ss se lc lat lon el stream)
                : dict) !! k = None)
    by (simpl in Hk; repeat (destruct Hk as [<- | Hk]);
        try reflexivity; destruct Hk).
  rewrite stream_record_lookup
    by (simpl in Hk; repeat (destruct Hk as [<- | Hk]);
        try discriminate; destruct Hk).
  unfold datalogger_part.
  set (base := list_to_map _ : dict) in *. clearbody base.
  destruct (datalogger_lookup self !! get "datalogger" stream)
    as [info|] eqn:E; cbn [default fmap option_fmap option_map].
  - apply lookup_union_l'. destruct Hw as [_ Hd].
    now apply (Hd _ _ E k).
  - rewrite (left_id_L ∅ (∪)).
    rewrite lookup_union_r by now apply sensor_part_keys.
    exact Hb.
Qed.



End EquipmentFields.

(** X3. Reference resolution.  The sensor fields of a record are those of
    the last sensor of the inventory, in document order, whose [publicID]
    equals the stream's [sensor] attribute, an absent attribute matching
    an absent one; when there is no such sensor the record has none of
    the sensor fields.  The same holds for the datalogger fields and the
    stream's [datalogger] attribute. *)
Theorem X3_reference_resolution (inventory : ET.Element)
  (network_code : string) (network_start network_end : option string)
  (station_code : string) (station_start station_end : option string)
  (location_code : string) (latitude longitude elevation : option string)
  (stream : ET.Element) :
  let self := Analyzer._build_lookup_tables Analyzer.init inventory in
  let record :=
    Analyzer.stream_record self network_code network_start network_end
      station_code station_start station_end
      location_code latitude longitude elevation stream in
  Forall
    (fun k =>
       record !! k =
       match last_with_id (ET.get "sensor" stream)
                          (ET.findall_desc "sensor" inventory) with
       | Some sensor => Analyzer.sensor_info sensor !! k
       | None => None
       end) sensor_keys /\
  Forall
    (fun k =>
       record !! k =
       match last_with_id (ET.get "datalogger" stream)
                          (ET.findall_desc "datalogger" inventory) with
       | Some datalogger =>
           Analyzer.fields (Analyzer.datalogger_info_of datalogger) !! k
       | None => None
       end) datalogger_keys.
Proof.
  cbv zeta.
  pose proof (build_lookup_tables_well_keyed inventory) as Hw.
  split; apply List.Forall_forall; intros k Hk.
  - rewrite sensor_field_of_record by assumption.
    simpl. rewrite index_lookup.
    destruct (last_with_id _ _); reflexivity.
  - rewrite datalogger_field_of_record by assumption.
    simpl. rewrite index_lookup.
    destruct (last_with_id _ _); reflexivity.
Qed.


(** *** The records and their context *)

Section RecordsInContext.
Import ET Analyzer.

Lemma appends_fold {X : Type} (g : Analyzer -> X -> list dict)
  (step : Analyzer -> X -> Analyzer) (xs : list X) :
  (forall a x, appends (g a x) a (step a x)) ->
  (forall a b x, same_index a b -> g b x = g a x) ->
  forall a, appends (flat_map (g a) xs) a (fold_left step xs a).
Proof.
  intros Hstep Hg. induction xs as [|x xs IH]; intros a; simpl.
  - split; [split; reflexivity | now rewrite app_nil_r].
  - destruct (Hstep a x) as [[Hs1 Hd1] E1].
    destruct (IH (step a x)) as [[Hs2 Hd2] E2].
    split; [split; congruence|].
    rewrite E2, E1, <- app_assoc. apply (f_equal (app _)).
    apply (f_equal (app _)).
    apply flat_map_ext. intros y. apply Hg. now split.
Qed.

Lemma location_records_same_index (a b : Analyzer)
  (network station location : Element) :
  same_index a b ->
  location_records b network station location =
  location_records a network station location.
Proof.
  intros H. unfold location_records. apply map_ext. intros s.
  now apply stream_record_same_index.
Qed.

Lemma appends_process_location (a : Analyzer)
  (network station location : Element) :
  appends (location_records a network station location) a
    (_process_location a
       (get_default "code" "" network)
       (_get_element_text network "start")
       (_get_element_text network "end")
       (get_default "code" "" station)
       (_get_element_text station "start")
       (_get_element_text station "end") location).
Proof.
  unfold _process_location, location_records.
  generalize (findall "stream" location). intros streams.
  revert a. induction streams as [|s streams IH]; intros a.
  - split; [split; reflexivity | simpl; now rewrite app_nil_r].
  - cbn [fold_left List.map].
    match goal with
    | |- appends _ _ (fold_left _ _ ?a1) =>
        destruct (IH a1) as [[Hs Hd] E]
    end.
    split; [split; [exact Hs | exact Hd]|].
    rewrite E. cbn [_process_stream unified_data].
    rewrite <- app_assoc. apply (f_equal (app _)). cbn [app].
    apply (f_equal (cons _)).
    apply map_ext. intros s'.
    apply stream_record_same_index. split; reflexivity.
Qed.

Lemma appends_process_networks (a : Analyzer) (inventory : Element) :
  appends (walked_records a inventory) a (_process_networks a inventory).
Proof.
  unfold _process_networks, walked_records.
  apply (appends_fold
           (fun a network =>
              flat_map
                (fun station =>
                   flat_map (location_records a network station)
                            (findall_desc "sensorLocation" station))
                (findall_desc "station" network))).
  - intros b network.
    apply (appends_fold
             (fun b station =>
                flat_map (location_records b network station)
                         (findall_desc "sensorLocation" station))).
    + intros c station. unfold _process_station.
      apply (appends_fold
               (fun c location =>
                  location_records c network station location)).
      * intros d location. apply appends_process_location.
      * intros d d' location. apply location_records_same_index.
    + intros c c' station Hi. apply flat_map_ext. intros location.
      now apply location_records_same_index.
  - intros b b' network Hi. apply flat_map_ext. intros station.
    apply flat_map_ext. intros location.
    now apply location_records_same_index.
Qed.

Lemma valid_children (q : string) (valid : Element -> bool)
  (cs : list Element) :
  forallb (fun c => if has_tag q c then valid c else hierarchy_free c) cs
  = true ->
  Forall (fun c => valid c = true) (List.filter (has_tag q) cs).
Proof.
  intros H. apply forallb_Forall in H.
  induction H as [|c cs Hc _ IH]; simpl; [constructor|].
  destruct (has_tag q c) eqn:E; [|assumption].
  constructor; assumption.
Qed.

Lemma walked_records_valid (self : Analyzer) (inventory : Element) :
  valid_inventory inventory = true ->
  walked_records self inventory =
  flat_map
    (fun network =>
       flat_map
         (fun station =>
            flat_map (location_records self network station)
                     (findall "sensorLocation" station))
         (findall "station" network))
    (findall "network" inventory).
Proof.
  intros Hv. unfold walked_records.
  rewrite inventory_networks by assumption.
  apply flat_map_ext_Forall.
  eapply Forall_impl; [exact (valid_children _ _ _ Hv)|].
  intros network Hn. simpl in Hn.
  rewrite network_stations by assumption.
  apply flat_map_ext_Forall.
  eapply Forall_impl; [exact (valid_children _ _ _ Hn)|].
  intros station Hs. simpl in Hs.
  now rewrite station_locations.
Qed.

End RecordsInContext.

(** X5. The context of every record.  For a document of the prescribed
    nesting, [unified_data] after parsing is, in document order, the
    record of each stream resolved with the code, start and end of the
    network and of the station that enclose it and with the code,
    latitude, longitude and elevation of its sensor location. *)
Theorem X5_records_carry_enclosing_context (root : ET.Element) :
  valid_document root = true ->
  exists self',
    Analyzer.parse_inventory Analyzer.init (inr root) =
      Analyzer.Returns self' [] /\
    Analyzer.unified_data self' = enclosed_records self' root.
Proof.
  unfold valid_document. intros H.
  apply andb_prop in H as [H Hc]. apply andb_prop in H as [Ht Hl].
  apply Nat.eqb_eq in Hl.
  destruct (ET.findall "Inventory" root) as [|inv [|? ?]] eqn:Hf;
    try discriminate Hl.
  assert (Hfind : ET.find "Inventory" root = Some inv)
    by (rewrite find_head, Hf; reflexivity).
  assert (Hv : valid_inventory inv = true).
  { pose proof (valid_children _ _ _ Hc) as Hall.
    fold (ET.findall "Inventory" root) in Hall. rewrite Hf in Hall.
    now inversion Hall. }
  unfold Analyzer.parse_inventory. simpl. rewrite Hfind.
  eexists. split; [reflexivity|].
  destruct (appends_process_networks
              (Analyzer._build_lookup_tables Analyzer.init inv) inv)
    as [Hi E].
  rewrite E. simpl. unfold enclosed_records. rewrite Hf. simpl.
  rewrite app_nil_r, walked_records_valid by assumption.
  apply flat_map_ext. intros network. apply flat_map_ext. intros station.
  apply flat_map_ext. intros location. symmetry.
  now apply location_records_same_index.
Qed.

Lemma X5_records_carry_enclosing_context_witness :
  exists self',
    Analyzer.parse_inventory Analyzer.init
      (inr (sample_document ten_streams)) = Analyzer.Returns self' [] /\
    Analyzer.unified_data self' =
      enclosed_records self' (sample_document ten_streams).
Proof.
  apply X5_records_carry_enclosing_context. vm_compute. reflexivity.
Defined.

(** *** The cells of the table *)

Section TableCells.
Import Analyzer.

Lemma csv_field_clean_row (nan_is_none : bool) (cols : gset string)
  (r : dict) (c : string) :
  csv_field (clean_row nan_is_none cols r !! c) = csv_field (r !! c).
Proof.
  destruct (r !! c) as [o|] eqn:Hc.
  - rewrite (clean_row_present _ _ _ _ _ Hc). now destruct o.
  - now apply clean_row_absent.
Qed.

Lemma final_row_other (nan_is_none : bool) (cols : gset string)
  (r : dict) (c : string) :
  ~ In c per_level_columns ->
  c <> "sensor_serial_number"%string ->
  c <> "datalogger_serial_number"%string ->
  final_row nan_is_none cols r !! c = clean_row nan_is_none cols r !! c.
Proof.
  intros Hp H1 H2. unfold final_row, per_level_columns in *.
  cbn [foldr]. simpl in Hp.
  rewrite !lookup_delete_ne by (intros E; apply Hp; tauto).
  now rewrite !lookup_put_ne by congruence.
Qed.

Lemma elem_of_keys (data : list dict) (c : string) :
  c ∈ (⋃ (dom <$> data) : gset string) <->
  Exists (fun r : dict => is_Some (r !! c)) data.
Proof.
  rewrite elem_of_union_list. rewrite Exists_exists. split.
  - intros (X & HX & Hc). apply list_elem_of_fmap in HX as (r & -> & Hr).
    exists r. split; [assumption|]. now apply elem_of_dom.
  - intros (r & Hr & Hc). exists (dom r). split.
    + apply list_elem_of_fmap. now exists r.
    + now apply elem_of_dom.
Qed.

End TableCells.

(** X6. The table besides the serial numbers.  When a table is written
    it has one row per record, in order; its columns are the keys that
    occur in some record, without the four per-level serial-number keys
    and with the two coalesced ones; and the field of a row in any other
    column is the record's text for that key, empty when the record has
    [None] or lacks the key. *)
Theorem X6_table_rows_and_columns
  (nan_is_none : bool) (self : Analyzer.Analyzer)
  (table : Analyzer.csv_table) :
  fst (Analyzer.export_to_csv nan_is_none self) = Some table ->
  (forall c : string,
     c ∈ Analyzer.header table <->
     ~ In c per_level_columns /\
     (c = "sensor_serial_number"%string \/
      c = "datalogger_serial_number"%string \/
      Exists (fun r : gmap string (option string) => is_Some (r !! c))
             (Analyzer.unified_data self))) /\
  Forall2
    (fun (record : gmap string (option string))
         (row : gmap string string) =>
       forall c : string,
         (c ∈ Analyzer.header table ->
          c <> "sensor_serial_number"%string ->
          c <> "datalogger_serial_number"%string ->
          row !! c = Some (Analyzer.csv_field (record !! c))) /\
         (c ∉ Analyzer.header table -> row !! c = None))
    (Analyzer.unified_data self) (Analyzer.body table).
Proof.
  intros Ht. destruct (export_to_csv_table _ _ _ Ht) as [Hh Hb].
  assert (Hcols : forall c : string,
            c ∈ Analyzer.header table <->
            ~ In c per_level_columns /\
            (c = "sensor_serial_number"%string \/
             c = "datalogger_serial_number"%string \/
             Exists (fun r : gmap string (option string) =>
                       is_Some (r !! c))
                    (Analyzer.unified_data self))).
  { intros c. rewrite Hh, elem_of_difference, elem_of_list_to_set.
    rewrite !elem_of_union, !elem_of_singleton, elem_of_keys.
    rewrite list_elem_of_In. tauto. }
  split; [exact Hcols|].
  rewrite Hb. apply Forall2_fmap_r. apply Forall_Forall2_diag.
  apply List.Forall_forall. intros r _ c. simpl. rewrite lookup_row.
  split.
  - intros Hc H1 H2. rewrite bool_decide_eq_true_2 by assumption.
    rewrite final_row_other, csv_field_clean_row;
      [reflexivity | | assumption | assumption].
    now apply Hcols.
  - intros Hc. now rewrite bool_decide_eq_false_2.
Qed.

Lemma X6_table_rows_and_columns_witness :
  exists table,
    fst (Analyzer.export_to_csv true two_records) = Some table /\
    (forall c : string,
       c ∈ Analyzer.header table <->
       ~ In c per_level_columns /\
       (c = "sensor_serial_number"%string \/
        c = "datalogger_serial_number"%string \/
        Exists (fun r : gmap string (option string) => is_Some (r !! c))
               (Analyzer.unified_data two_records))) /\
    Forall2
      (fun (record : gmap string (option string))
           (row : gmap string string) =>
         forall c : string,
           (c ∈ Analyzer.header table ->
            c <> "sensor_serial_number"%string ->
            c <> "datalogger_serial_number"%string ->
            row !! c = Some (Analyzer.csv_field (record !! c))) /\
           (c ∉ Analyzer.header table -> row !! c = None))
      (Analyzer.unified_data two_records) (Analyzer.body table).
Proof.
  eexists. split; [reflexivity|].
  apply (X6_table_rows_and_columns true two_records). reflexivity.
Defined.

(** X7. When the export writes a table.  A table is written exactly when
    there is at least one record and each of the four per-level
    serial-number keys occurs in some record; in every other case no
    table is written. *)
Theorem X7_table_written_iff (nan_is_none : bool) (self : Analyzer.Analyzer) :
  is_Some (fst (Analyzer.export_to_csv nan_is_none self)) <->
  Analyzer.unified_data self <> [] /\
  Forall
    (fun c =>
       Exists (fun r : gmap string (option string) => is_Some (r !! c))
              (Analyzer.unified_data self))
    per_level_columns.
Proof.
  rewrite export_to_csv_table_iff.
  split; intros [H1 H2]; (split; [exact H1|]);
    eapply Forall_impl; try exact H2; intros c Hc; simpl in *;
    now apply elem_of_keys.
Qed.

Lemma X7_table_written_iff_witness :
  is_Some (fst (Analyzer.export_to_csv true two_records)) /\
  ~ is_Some (fst (Analyzer.export_to_csv true stream_level_only)).
Proof.
  split.
  - apply (proj2 (X7_table_written_iff true two_records)).
    split; [discriminate|].
    repeat (apply List.Forall_cons;
            [first [ apply Exists_cons_hd; eexists; reflexivity
                   | apply Exists_cons_tl, Exists_cons_hd;
                     eexists; reflexivity ]|]).
    apply List.Forall_nil.
  - intros H.
    apply (proj1 (X7_table_written_iff true stream_level_only)) in H
      as [_ H].
    inversion H as [|? ? _ H']. inversion H' as [|? ? Hx _].
    inversion Hx as [? ? [v Hv]|? ? Hn]; [discriminate Hv|].
    inversion Hn.
Defined.

(** *** The analyzer from end to end *)

Section EndToEnd.
Import ET Analyzer.

Lemma Forall2_Exists_iff {A B : Type} (R : A -> B -> Prop)
  (P : A -> Prop) (Q : B -> Prop) (xs : list A) (ys : list B) :
  Forall2 R xs ys ->
  (forall x y, R x y -> (P x <-> Q y)) ->
  (Exists P xs <-> Exists Q ys).
Proof.
  intros HF HR. induction HF as [|x y xs ys Hxy _ IH].
  - split; intros H; inversion H.
  - rewrite !Exists_cons, IH. now rewrite (HR x y Hxy).
Qed.

(** What the export leaves behind: nothing for an empty data set;
    otherwise a table, or one line of its error handler. *)
Lemma export_to_csv_shape (nan_is_none : bool) (self : Analyzer) :
  match unified_data self with
  | [] => export_to_csv nan_is_none self = (None, [])
  | _ :: _ =>
      (exists table, export_to_csv nan_is_none self = (Some table, [])) \/
      (exists e, export_to_csv nan_is_none self =
                 (None, [Error_exporting_CSV_file e]))
  end.
Proof.
  unfold export_to_csv.
  destruct (unified_data self) as [|d ds]; [reflexivity|].
  match goal with
  | |- context [match ?b with inl _ => _ | inr _ => _ end] =>
      destruct b as [e|table]
  end; [right | left]; eexists; reflexivity.
Qed.

Lemma sensor_serial_of_record (inventory : Element) (record : dict)
  (stream : Element) :
  resolves (_build_lookup_tables init inventory) record stream ->
  is_Some (record !! "sensor_serial_number_equipment") <->
  sensor_resolves inventory stream.
Proof.
  intros (nc & ns & ne & sc & ss & se & lc & lat & lon & el & ->).
  rewrite sensor_field_of_record
    by (apply build_lookup_tables_well_keyed || (simpl; tauto)).
  unfold sensor_resolves. cbn [_build_lookup_tables sensor_lookup].
  rewrite index_lookup.
  destruct (last_with_id _ _) as [e|].
  - split; [eauto|]. intros _. apply sensor_info_keys. simpl. tauto.
  - cbn [init sensor_lookup]. rewrite lookup_empty.
    split; intros [x Hx]; discriminate Hx.
Qed.

Lemma datalogger_serial_of_record (inventory : Element) (record : dict)
  (stream : Element) :
  resolves (_build_lookup_tables init inventory) record stream ->
  is_Some (record !! "datalogger_serial_number_equipment") <->
  datalogger_resolves inventory stream.
Proof.
  intros (nc & ns & ne & sc & ss & se & lc & lat & lon & el & ->).
  rewrite datalogger_field_of_record
    by (apply build_lookup_tables_well_keyed || (simpl; tauto)).
  unfold datalogger_resolves. cbn [_build_lookup_tables datalogger_lookup].
  rewrite index_lookup.
  destruct (last_with_id _ _) as [e|].
  - split; [eauto|]. intros _. apply datalogger_info_keys. simpl. tauto.
  - cbn [init datalogger_lookup]. rewrite lookup_empty.
    split; intros [x Hx]; discriminate Hx.
Qed.

Lemma walked_records_same_index (a b : Analyzer) (inventory : Element) :
  same_index a b ->
  walked_records b inventory = walked_records a inventory.
Proof.
  intros H. unfold walked_records.
  apply flat_map_ext. intros network. apply flat_map_ext. intros station.
  apply flat_map_ext. intros location.
  now apply location_records_same_index.
Qed.

End EndToEnd.

(** X8. The analyzer from end to end.  For a document with an inventory,
    the program writes a table exactly when some stream that the walk
    reaches refers to a sensor of the inventory and some such stream
    refers to a datalogger of the inventory.  When it writes one it
    prints nothing on [sys.stderr]; when the walk reaches no stream it
    writes nothing and prints nothing; in every other case it prints one
    line of the export's error handler. *)
Theorem X8_main_outcome (nan_is_none : bool) (root inventory : ET.Element) :
  ET.find "Inventory" root = Some inventory ->
  let result := analyzer_main nan_is_none (inr root) in
  (is_Some (fst result) <->
   Exists (sensor_resolves inventory) (walked_streams inventory) /\
   Exists (datalogger_resolves inventory) (walked_streams inventory)) /\
  (is_Some (fst result) -> snd result = []) /\
  (fst result = None ->
   match walked_streams inventory with
   | [] => snd result = []
   | _ :: _ => exists e, snd result = [Analyzer.Error_exporting_CSV_file e]
   end).
Proof.
  intros Hf. cbv zeta. unfold analyzer_main, Analyzer.parse_inventory.
  simpl. rewrite Hf.
  set (built := Analyzer._build_lookup_tables Analyzer.init inventory).
  destruct (extends_process_networks built inventory)
    as [Hi (records & E & F)].
  set (self' := Analyzer._process_networks built inventory) in *.
  change (Analyzer.unified_data built) with (@nil (gmap string (option string))) in E.
  rewrite app_nil_l in E.
  pose proof (export_to_csv_shape nan_is_none self') as Hshape.
  pose proof (export_to_csv_table_iff nan_is_none self') as Hiff.
  rewrite E in Hshape, Hiff.
  destruct (Analyzer.export_to_csv nan_is_none self') as [t p] eqn:Hexp.
  cbn [fst snd]. cbn [fst] in Hiff.
  split; [|split].
  - rewrite Hiff.
    rewrite <- (Forall2_Exists_iff _ _ _ _ _ F
                  (sensor_serial_of_record inventory)).
    rewrite <- (Forall2_Exists_iff _ _ _ _ _ F
                  (datalogger_serial_of_record inventory)).
    unfold per_level_columns. split.
    + intros [_ Hall].
      inversion Hall as [|? ? _ Ha]. inversion Ha as [|? ? Hs Hb].
      inversion Hb as [|? ? _ Hc]. inversion Hc as [|? ? Hd _].
      split; [clear - Hs | clear - Hd]; now apply elem_of_keys.
    + intros [Hs Hd].
      assert (Hne : records <> [])
        by (intros ->; inversion Hs).
      assert (Hst : exists r, r ∈ records /\ has_stream_serials r).
      { destruct F as [|r s rs ss' Hr _]; [congruence|].
        exists r. split; [apply list_elem_of_here|].
        destruct Hr as (nc & ns & ne & sc & ss & se & lc & lat & lon & el
                        & ->).
        apply stream_record_has_stream_serials. }
      destruct Hst as (r & Hr & Hss & Hds).
      split; [assumption|].
      repeat apply List.Forall_cons; try apply List.Forall_nil;
        apply elem_of_keys; try assumption;
        apply Exists_exists; exists r; now split.
  - intros [table ->]. cbn [app].
    destruct records; [discriminate Hshape|].
    destruct Hshape as [[t' Ht]|[e He]]; congruence.
  - intros ->. cbn [app].
    destruct F as [|r s rs ss' _ _]; [congruence|].
    destruct Hshape as [[t' Ht]|[e He]]; [discriminate Ht|].
    exists e. congruence.
Qed.

Lemma X8_main_outcome_witness :
  exists inventory,
    ET.find "Inventory" (sample_document [sample_stream "BHZ" "0"]) =
      Some inventory /\
    is_Some (fst (analyzer_main true
                    (inr (sample_document [sample_stream "BHZ" "0"])))) /\
    snd (analyzer_main true
           (inr (sample_document [sample_stream "BHZ" "0"]))) = [].
Proof.
  eexists. split; [reflexivity|].
  destruct (X8_main_outcome true
              (sample_document [sample_stream "BHZ" "0"]) _ eq_refl)
    as [H1 [H2 _]].
  assert (H : is_Some (fst (analyzer_main true
                (inr (sample_document [sample_stream "BHZ" "0"]))))).
  { apply H1. split; apply Exists_cons_hd; vm_compute; eexists;
      reflexivity. }
  split; [exact H | exact (H2 H)].
Defined.

(** X9. Parsing with an analyzer that already holds data.  For a
    document with an inventory the call returns and prints nothing; the
    records that the analyzer held are kept, in order, and the records of
    the streams that the walk reaches are appended to them; an entry of
    the sensor or datalogger table is replaced where the inventory has an
    element with its identifier and kept otherwise. *)
Theorem X9_parse_accumulates (self : Analyzer.Analyzer)
  (root inventory : ET.Element) :
  ET.find "Inventory" root = Some inventory ->
  exists self',
    Analyzer.parse_inventory self (inr root) = Analyzer.Returns self' [] /\
    Analyzer.unified_data self' =
      Analyzer.unified_data self ++ walked_records self' inventory /\
    forall k : option string,
      Analyzer.sensor_lookup self' !! k =
        match last_with_id k (ET.findall_desc "sensor" inventory) with
        | Some sensor => Some (Analyzer.sensor_info sensor)
        | None => Analyzer.sensor_lookup self !! k
        end /\
      Analyzer.datalogger_lookup self' !! k =
        match last_with_id k (ET.findall_desc "datalogger" inventory) with
        | Some datalogger => Some (Analyzer.datalogger_info_of datalogger)
        | None => Analyzer.datalogger_lookup self !! k
        end.
Proof.
  intros Hf. unfold Analyzer.parse_inventory. simpl. rewrite Hf.
  eexists. split; [reflexivity|].
  set (built := Analyzer._build_lookup_tables self inventory).
  destruct (appends_process_networks built inventory) as [[Hs Hd] E].
  split.
  - rewrite E. apply (f_equal (app _)). symmetry.
    apply walked_records_same_index. now split.
  - intros k. rewrite Hs, Hd. subst built.
    cbn [Analyzer._build_lookup_tables Analyzer.sensor_lookup
         Analyzer.datalogger_lookup].
    now rewrite !index_lookup.
Qed.

Lemma X9_parse_accumulates_witness :
  exists inventory self',
    ET.find "Inventory" (sample_document [sample_stream "BHZ" "0"]) =
      Some inventory /\
    Analyzer.parse_inventory two_records
      (inr (sample_document [sample_stream "BHZ" "0"])) =
      Analyzer.Returns self' [] /\
    Analyzer.unified_data self' =
      Analyzer.unified_data two_records ++ walked_records self' inventory /\
    forall k : option string,
      Analyzer.sensor_lookup self' !! k =
        match last_with_id k (ET.findall_desc "sensor" inventory) with
        | Some sensor => Some (Analyzer.sensor_info sensor)
        | None => Analyzer.sensor_lookup two_records !! k
        end /\
      Analyzer.datalogger_lookup self' !! k =
        match last_with_id k (ET.findall_desc "datalogger" inventory) with
        | Some datalogger => Some (Analyzer.datalogger_info_of datalogger)
        | None => Analyzer.datalogger_lookup two_records !! k
        end.
Proof.
  eexists.
  destruct (X9_parse_accumulates two_records
              (sample_document [sample_stream "BHZ" "0"]) _ eq_refl)
    as (self' & H1 & H2 & H3).
  exists self'. split; [reflexivity|]. split; [exact H1|].
  split; [exact H2 | exact H3].
Defined.

(** *** What a field update touches *)

Section UpdateFrame.
Import ET Editor.

Lemma filter_others_set_first_text (q v : string) (cs : list Element) :
  List.filter (fun c => negb (has_tag q c)) (set_first_text q v cs) =
  List.filter (fun c => negb (has_tag q c)) cs.
Proof.
  induction cs as [|c cs IH]; simpl; [reflexivity|].
  destruct (has_tag q c) eqn:Hc; simpl.
  - unfold has_tag at 1; simpl. fold (has_tag q c). now rewrite Hc.
  - now rewrite Hc, IH.
Qed.

Lemma filter_others_remove_first (q : string) (cs : list Element) :
  List.filter (fun c => negb (has_tag q c)) (remove_first q cs) =
  List.filter (fun c => negb (has_tag q c)) cs.
Proof.
  induction cs as [|c cs IH]; simpl; [reflexivity|].
  destruct (has_tag q c) eqn:Hc; simpl; [reflexivity|].
  now rewrite Hc, IH.
Qed.

Lemma filter_same_set_first_text (q v : string) (cs : list Element) :
  List.filter (has_tag q) (set_first_text q v cs) =
  match List.filter (has_tag q) cs with
  | [] => []
  | c :: rest =>
      mkElement (tag c) (attrib c) (Some v) (tail c) (children c) :: rest
  end.
Proof.
  induction cs as [|c cs IH]; simpl; [reflexivity|].
  destruct (has_tag q c) eqn:Hc; simpl.
  - unfold has_tag at 1; simpl. fold (has_tag q c). now rewrite Hc.
  - now rewrite Hc, IH.
Qed.

Lemma filter_same_remove_first (q : string) (cs : list Element) :
  List.filter (has_tag q) (remove_first q cs) =
  List.tl (List.filter (has_tag q) cs).
Proof.
  induction cs as [|c cs IH]; simpl; [reflexivity|].
  destruct (has_tag q c) eqn:Hc; simpl; [reflexivity|].
  now rewrite Hc, IH.
Qed.

Lemma update_keeps_node (e : Element) (t v : string) :
  _update_element_text e t v =
  with_children e (children (_update_element_text e t v)).
Proof.
  unfold _update_element_text.
  destruct (find t e), (str_truthy v); try reflexivity.
  symmetry. apply with_children_id.
Qed.

End UpdateFrame.

(** X10. What a field update touches.  [_update_element_text] leaves the
    tag, attributes, text and tail of the node as they are, and keeps
    every child with another tag, in order.  Of the children with the
    tag it touches only the first one: an empty value removes it, a
    non-empty value replaces its text; when there is none, a non-empty
    value adds one child with that text and an empty value adds
    nothing. *)
Theorem X10_update_touches_first_child_only (e : ET.Element) (t v : string) :
  let e' := Editor._update_element_text e t v in
  ET.tag e' = ET.tag e /\
  ET.attrib e' = ET.attrib e /\
  ET.text e' = ET.text e /\
  ET.tail e' = ET.tail e /\
  List.filter (fun c => negb (ET.has_tag (ET.sc3 t) c)) (ET.children e') =
  List.filter (fun c => negb (ET.has_tag (ET.sc3 t) c)) (ET.children e) /\
  ET.findall t e' =
    match ET.findall t e with
    | [] =>
        if str_truthy v
        then [ET.mkElement (ET.sc3 t) ∅ (Some v) None []] else []
    | c :: rest =>
        if str_truthy v
        then ET.mkElement (ET.tag c) (ET.attrib c) (Some v) (ET.tail c)
               (ET.children c) :: rest
        else rest
    end.
Proof.
  cbv zeta. rewrite (update_keeps_node e t v). unfold ET.findall.
  cbn [ET.with_children ET.tag ET.attrib ET.text ET.tail ET.children].
  do 4 (split; [reflexivity|]).
  rewrite children_update.
  destruct (str_truthy v) eqn:Hv.
  - rewrite filter_others_set_first_text, filter_same_set_first_text.
    rewrite find_head. unfold ET.findall.
    destruct (List.filter (ET.has_tag (ET.sc3 t)) (ET.children e))
      as [|c rest] eqn:Hf; cbn [head].
    + rewrite !List.filter_app, Hf. cbn [List.filter].
      rewrite has_tag_refl. cbn [negb app]. split; [apply app_nil_r|].
      reflexivity.
    + rewrite Hf. split; reflexivity.
  - rewrite filter_others_remove_first, filter_same_remove_first.
    split; [reflexivity|].
    destruct (List.filter (ET.has_tag (ET.sc3 t)) (ET.children e));
      reflexivity.
Qed.

(** *** Reading back what was committed *)

Section ReadBack.
Import ET Editor.

Lemma str_falsy_empty (v : string) : str_truthy v = false -> v = ""%string.
Proof. destruct v; [reflexivity | discriminate]. Qed.

(** A field in its committed state reads back as its value. *)
Lemma committed_read_back (e : Element) (t v : string) :
  committed e (t, v) -> _get_element_text e t "" = Some v.
Proof.
  unfold committed, _get_element_text. simpl. rewrite find_head.
  destruct (findall t e) as [|c rest]; simpl.
  - intros H. now rewrite (str_falsy_empty _ H).
  - now intros [_ ->].
Qed.

Lemma fields_read_back (fields : list (string * string)) (e : Element) :
  List.NoDup (List.map fst fields) ->
  single_where_emptied fields e ->
  Forall (fun tv => _get_element_text (apply_fields fields e) (fst tv) "" =
                    Some (snd tv)) fields.
Proof.
  intros Hnd Hs.
  eapply Forall_impl; [exact (apply_fields_commits _ _ Hnd Hs)|].
  intros [t v] Hc. now apply committed_read_back.
Qed.



End ReadBack.

Section CommitThenRead.
Import ET Editor.

Ltac distinct_field_tags :=
  simpl;
  repeat (apply List.NoDup_cons; [simpl; intuition discriminate|]);
  apply List.NoDup_nil.





Lemma stream_read_back (f : stream_form) (e n : Element) (r : string) :
  update_stream f e = Committed n ->
  single_where_emptied (stream_fields f) e ->
  displayed_sample_rate n = inr r ->
  populate_stream_fields n = inr (with_sampleRate f r).
Proof.
  rewrite update_stream_shape. cbv zeta.
  destruct (rate_updates (stream_sampleRate f)) as [x|us] eqn:Hr;
    [discriminate|].
  intros Hc Hs Hd.
  set (e0 := set "code" (stream_code f) e) in *.
  assert (Hn : apply_fields
                 (stream_fields_before f ++ us ++ stream_fields_after f)
                 e0 = n) by congruence.
  clear Hc.
  apply single_where_emptied_app in Hs as [Hb Ha].
  assert (Hnd : List.NoDup
                  (List.map fst (stream_fields_before f ++ us ++
                                 stream_fields_after f)))
    by (destruct (rate_updates_cases _ _ Hr) as [->|[k ->]];
        distinct_field_tags).
  assert (Hs0 : single_where_emptied
                  (stream_fields_before f ++ us ++ stream_fields_after f)
                  e0).
  { apply single_where_emptied_app. split; [exact Hb|].
    apply single_where_emptied_app. split; [|exact Ha].
    destruct (rate_updates_cases _ _ Hr) as [->|[k ->]].
    - constructor.
    - repeat constructor; simpl. apply str_int_truthy. }
  pose proof (fields_read_back _ _ Hnd Hs0) as H.
  assert (Hcode : get_default "code" "" n = stream_code f).
  { rewrite <- Hn. unfold get_default. rewrite attrib_apply_fields.
    subst e0. simpl. now rewrite lookup_insert_eq. }
  rewrite Hn in H. clear Hn Hnd Hs0 Hr Ha Hb.
  apply Forall_app in H as [H HA].
  apply Forall_app in HA as [_ HA].
  unfold stream_fields_before in H. unfold stream_fields_after in HA.
  apply List.Forall_cons_iff in H as [H1 H].
  apply List.Forall_cons_iff in H as [H2 H].
  apply List.Forall_cons_iff in H as [H3 H].
  apply List.Forall_cons_iff in H as [H4 H].
  apply List.Forall_cons_iff in H as [H5 H].
  apply List.Forall_cons_iff in H as [H6 _].
  apply List.Forall_cons_iff in HA as [H7 HA].
  apply List.Forall_cons_iff in HA as [H8 HA].
  apply List.Forall_cons_iff in HA as [H9 HA].
  apply List.Forall_cons_iff in HA as [H10 HA].
  apply List.Forall_cons_iff in HA as [H11 _].
  cbn [fst snd] in H1, H2, H3, H4, H5, H6, H7, H8, H9, H10, H11.
  unfold populate_stream_fields. cbv zeta.
  rewrite H1, H2, H3, H4, H5, H6, H7, H8, H9, H10, H11, Hd, Hcode.
  reflexivity.
Qed.

End CommitThenRead.



(** X12. A committed stream reads back.  After a commit of a stream that
    reaches its end, filling the stream tab from the committed node gives
    the committed texts in every field other than the sample rate, which
    is shown as computed from the stored numerator and denominator;
    provided that each field committed with an empty value had at most
    one child element, and that the sample-rate block of the tab does
    not end in an exception. *)
Theorem X12_stream_commit_reads_back
  (f : Editor.stream_form) (e n : ET.Element) (r : string) :
  Editor.update_stream f e = Editor.Committed n ->
  single_where_emptied (stream_fields f) e ->
  Editor.displayed_sample_rate n = inr r ->
  Editor.populate_stream_fields n = inr (with_sampleRate f r).
Proof. apply stream_read_back. Qed.

Lemma X12_stream_commit_reads_back_witness :
  Editor.populate_stream_fields
    (Editor.node_of
       (Editor.update_stream (bhz_form "BHN" "100") bhz_stream)) =
  inr (with_sampleRate (bhz_form "BHN" "100") "100.0").
Proof.
  apply (X12_stream_commit_reads_back (bhz_form "BHN" "100") bhz_stream).
  - vm_compute. reflexivity.
  - unfold single_where_emptied. single_by_computation.
  - vm_compute. reflexivity.
Defined.

Section ReadThenCommit.
Import ET Editor.




End ReadThenCommit.



(** Where the proviso fails: the description element of the station has
    no text, its field is filled with the empty text, and the commit of
    the form as it stands removes the element. *)
Example textless_field_removed_by_commit :
  exists f,
    Editor.populate_station_fields textless_description_station = inr f /\
    Editor.station_description f = ""%string /\
    ET.children
      (Editor.node_of (Editor.update_station f textless_description_station))
    = [ET.mkElement (ET.sc3 "latitude") ∅ (Some "1"%string) None []].
Proof. eexists. split; [reflexivity|]. split; reflexivity. Qed.

(** *** What a save does to the files *)

Section SaveFiles.
Import ET Editor.

Lemma with_suffix_nonempty (file backup : string) :
  with_suffix file ".xml.bak" = Some backup -> str_truthy file = true.
Proof. destruct file; [discriminate | reflexivity]. Qed.

Lemma save_handler_frame (self self' : Session) (file backup : string)
  (e : Py.exn) (fs0 fs fs' : filesystem) (shown : list Py.exn) :
  (forall p, p <> file -> p <> backup -> fs !! p = fs0 !! p) ->
  save_handler self file (Some backup) e fs = inr (self', fs', shown) ->
  self' = self /\
  forall p, p <> file -> p <> backup -> fs' !! p = fs0 !! p.
Proof.
  intros Hfs. unfold save_handler, rename.
  case_bool_decide as Hb.
  - destruct Hb as [d Hd]. rewrite Hd. cbn [Py.bind].
    intros [= <- <- <-]. split; [reflexivity|]. intros p H1 H2.
    rewrite lookup_insert_ne, lookup_delete_ne by congruence.
    now apply Hfs.
  - intros [= <- <- <-]. split; [reflexivity | exact Hfs].
Qed.

End SaveFiles.

(** X14. What a save may touch.  Whatever becomes of the write, a call
    of [save_xml] that returns leaves the session on the same file and
    the same tree, and leaves every file other than the document and its
    backup, the document's path with the suffix [.xml.bak], as it
    was. *)
Theorem X14_save_touches_two_paths
  (w : Editor.write_outcome) (self self' : Editor.Session)
  (fs fs' : gmap string Editor.file_data) (file backup : string)
  (shown : list Py.exn) :
  Editor.current_file self = Some file ->
  Editor.with_suffix file ".xml.bak" = Some backup ->
  Editor.save_xml w self fs = inr (self', fs', shown) ->
  Editor.current_file self' = Editor.current_file self /\
  Editor.tree self' = Editor.tree self /\
  forall p : string, p <> file -> p <> backup -> fs' !! p = fs !! p.
Proof.
  intros Hf Hb Hs. unfold Editor.save_xml in Hs. rewrite Hf in Hs.
  destruct (Editor.tree self) as [root|] eqn:Ht;
    [|injection Hs as <- <- <-; repeat split; assumption].
  rewrite (with_suffix_nonempty _ _ Hb), Hb in Hs.
  unfold Editor.rename at 1 in Hs.
  destruct (fs !! file) as [d|] eqn:Hd.
  - assert (H1 : forall p, p <> file -> p <> backup ->
                   (<[backup := d]> (delete file fs)
                      : gmap string Editor.file_data) !! p = fs !! p).
    { intros p H1 H2.
      now rewrite lookup_insert_ne, lookup_delete_ne by congruence. }
    destruct w; cbn [Editor.write] in Hs.
    + injection Hs as <- <- <-. cbn [Editor.current_file Editor.tree].
      repeat split; try assumption; try (symmetry; assumption).
      intros p Hp1 Hp2. rewrite lookup_insert_ne by congruence.
      now apply H1.
    + destruct (save_handler_frame _ _ _ _ _ fs _ _ _ H1 Hs) as [-> Hfr].
      repeat split; assumption.
    + assert (H2 : forall p, p <> file -> p <> backup ->
                     (<[file := Editor.Truncated root]>
                        (<[backup := d]> (delete file fs))
                        : gmap string Editor.file_data) !! p = fs !! p).
      { intros p Hp1 Hp2. rewrite lookup_insert_ne by congruence.
        now apply H1. }
      destruct (save_handler_frame _ _ _ _ _ fs _ _ _ H2 Hs) as [-> Hfr].
      repeat split; assumption.
  - destruct (save_handler_frame _ _ _ _ _ fs _ _ _
                (fun p _ _ => eq_refl) Hs) as [-> Hfr].
    repeat split; assumption.
Qed.

Lemma X14_save_touches_two_paths_witness :
  exists self' fs',
    Editor.save_xml Editor.WriteFailsMidway dirty_session
      (<["/data/notes.txt"%string := Editor.Bytes "notes"]> data_files) =
      inr (self', fs', [Py.OSError]) /\
    fs' !! "/data/notes.txt"%string =
    (<["/data/notes.txt"%string := Editor.Bytes "notes"]> data_files
       : gmap string Editor.file_data) !! "/data/notes.txt"%string.
Proof.
  eexists _, _. split; [reflexivity|].
  match goal with
  | |- ?fs' !! _ = ?fs !! _ =>
      refine (proj2 (proj2 (X14_save_touches_two_paths
                              Editor.WriteFailsMidway
                              dirty_session dirty_session fs fs'
                              "/data/inventory.xml"
                              "/data/inventory.xml.bak"
                              [Py.OSError] eq_refl eq_refl eq_refl))
                "/data/notes.txt"%string _ _)
  end; discriminate.
Defined.

(** X15. A save that succeeds.  When the document is on disk and the
    write succeeds, [save_xml] returns without a message; the document's
    path holds the tree, the backup path holds what the document's path
    held before, replacing any earlier backup, and the session has no
    unsaved changes. *)
Theorem X15_successful_save
  (self : Editor.Session) (fs : gmap string Editor.file_data)
  (file backup : string) (root : ET.Element)
  (original : Editor.file_data) :
  Editor.current_file self = Some file ->
  Editor.tree self = Some root ->
  Editor.with_suffix file ".xml.bak" = Some backup ->
  fs !! file = Some original ->
  exists self' fs',
    Editor.save_xml Editor.WriteOk self fs = inr (self', fs', []) /\
    fs' !! file = Some (Editor.Serialized root) /\
    fs' !! backup = Some original /\
    Editor.unsaved_changes self' = false /\
    Editor.state_of self' = Editor.Loaded.
Proof.
  intros Hf Ht Hb Ho.
  destruct (save_xml_written self fs file backup root original
              Hf Ht Hb Ho) as (self' & fs' & Hs & H1 & H2 & H3).
  exists self', fs'. repeat split; try assumption.
  unfold Editor.state_of in H3.
  destruct (Editor.tree self'); [|discriminate H3].
  destruct (Editor.unsaved_changes self'); [discriminate H3 | reflexivity].
Qed.

Lemma X15_successful_save_witness :
  exists self' fs',
    Editor.save_xml Editor.WriteOk dirty_session data_files =
      inr (self', fs', []) /\
    fs' !! "/data/inventory.xml"%string =
      Some (Editor.Serialized bare_station) /\
    fs' !! "/data/inventory.xml.bak"%string =
      Some (Editor.Bytes "<seiscomp/>") /\
    Editor.unsaved_changes self' = false /\
    Editor.state_of self' = Editor.Loaded.
Proof.
  apply (X15_successful_save dirty_session data_files
           "/data/inventory.xml" "/data/inventory.xml.bak"
           bare_station (Editor.Bytes "<seiscomp/>"));
    reflexivity.
Defined.

(** X16. A save when the document is gone.  When nothing is at the
    document's path, the rename to the backup fails: [save_xml] shows
    the error and writes the tree nowhere, the session is as it was, and
    a backup left by an earlier save is moved to the document's path;
    without such a backup the files are as they were. *)
Theorem X16_save_without_document
  (w : Editor.write_outcome) (self : Editor.Session)
  (fs : gmap string Editor.file_data) (file backup : string)
  (root : ET.Element) :
  Editor.current_file self = Some file ->
  Editor.tree self = Some root ->
  Editor.with_suffix file ".xml.bak" = Some backup ->
  fs !! file = None ->
  Editor.save_xml w self fs =
  inr (self,
       match fs !! backup with
       | Some stale => <[file := stale]> (delete backup fs)
       | None => fs
       end,
       [Py.OSError]).
Proof.
  intros Hf Ht Hb Ho. unfold Editor.save_xml. rewrite Hf, Ht.
  rewrite (with_suffix_nonempty _ _ Hb), Hb.
  unfold Editor.rename at 1. rewrite Ho.
  unfold Editor.save_handler, Editor.rename.
  destruct (fs !! backup) as [stale|] eqn:Hs.
  - rewrite bool_decide_eq_true_2 by eauto. reflexivity.
  - rewrite bool_decide_eq_false_2; [reflexivity|].
    intros [x Hx]. discriminate Hx.
Qed.

Lemma X16_save_without_document_witness :
  Editor.save_xml Editor.WriteOk dirty_session
    ({[ "/data/inventory.xml.bak"%string := Editor.Bytes "<old/>" ]}
       : gmap string Editor.file_data) =
  inr (dirty_session,
       match ({[ "/data/inventory.xml.bak"%string :=
                   Editor.Bytes "<old/>" ]}
                : gmap string Editor.file_data)
             !! "/data/inventory.xml.bak"%string with
       | Some stale =>
           <["/data/inventory.xml"%string := stale]>
             (delete "/data/inventory.xml.bak"%string
                ({[ "/data/inventory.xml.bak"%string :=
                      Editor.Bytes "<old/>" ]}
                   : gmap string Editor.file_data))
       | None => {[ "/data/inventory.xml.bak"%string :=
                      Editor.Bytes "<old/>" ]}
       end,
       [Py.OSError]).
Proof.
  apply (X16_save_without_document Editor.WriteOk dirty_session _
           "/data/inventory.xml" "/data/inventory.xml.bak" bare_station);
    reflexivity.
Defined.

(** *** The tree view *)

Section TreeView.
Import ET Editor.

Lemma tree_elements_nil (ty : string) : tree_elements ty [] = [].
Proof. reflexivity. Qed.

Lemma tree_elements_app (ty : string) (a b : list TreeItem) :
  tree_elements ty (a ++ b) = tree_elements ty a ++ tree_elements ty b.
Proof.
  unfold tree_elements.
  now rewrite flat_map_app, List.filter_app, List.map_app.
Qed.

Lemma tree_elements_item (ty txt : string) (data : option (string * Element))
  (kids : list TreeItem) :
  tree_elements ty [mkTreeItem txt data kids] =
  match data with
  | Some (ty', el) => if String.eqb ty' ty then [el] else []
  | None => []
  end ++ tree_elements ty kids.
Proof.
  unfold tree_elements. cbn [flat_map item_data_all].
  rewrite app_nil_r, List.filter_app, List.map_app.
  apply (f_equal (fun l => l ++ _)).
  destruct data as [[ty' el]|]; [|reflexivity].
  cbn [List.filter fst]. destruct (String.eqb ty' ty); reflexivity.
Qed.

Lemma tree_elements_cons (ty : string) (item : TreeItem)
  (items : list TreeItem) :
  tree_elements ty (item :: items) =
  tree_elements ty [item] ++ tree_elements ty items.
Proof. apply (tree_elements_app ty [item] items). Qed.

(** The elements of one type below a row of items that are built alike
    from a list. *)
Lemma tree_elements_map {X : Type} (ty ty' : string)
  (txt : X -> string) (el : X -> Element) (kids : X -> list TreeItem)
  (l : list X) :
  tree_elements ty
    (List.map (fun x => mkTreeItem (txt x) (Some (ty', el x)) (kids x)) l) =
  flat_map
    (fun x => (if String.eqb ty' ty then [el x] else [])
              ++ tree_elements ty (kids x)) l.
Proof.
  induction l as [|x l IH]; [reflexivity|].
  cbn [List.map flat_map].
  now rewrite tree_elements_cons, tree_elements_item, IH.
Qed.

Lemma flat_map_nil {X Y : Type} (f : X -> list Y) (l : list X) :
  (forall x, f x = []) -> flat_map f l = [].
Proof.
  intros H. induction l as [|x l IH]; [reflexivity|].
  cbn [flat_map]. now rewrite H, IH.
Qed.

Lemma flat_map_leaves {X : Type} (l : list X) :
  flat_map (fun x => [x] ++ []) l = l.
Proof.
  induction l as [|x l IH]; [reflexivity|].
  change (x :: flat_map (fun x => [x] ++ []) l = x :: l).
  now rewrite IH.
Qed.

Lemma populate_tree_rows (root inventory : Element) :
  find "Inventory" root = Some inventory ->
  populate_tree root =
  network_items inventory
  ++ equipment_items "Sensors" "sensor" "Sensor: "
       (findall_desc "sensor" inventory)
  ++ equipment_items "Dataloggers" "datalogger" "Datalogger: "
       (findall_desc "datalogger" inventory).
Proof. intros H. unfold populate_tree. now rewrite H. Qed.

Lemma tree_elements_equipment (ty header kind label : string)
  (equipment : list Element) :
  tree_elements ty (equipment_items header kind label equipment) =
  if String.eqb kind ty then equipment else [].
Proof.
  unfold equipment_items.
  destruct equipment as [|e es] eqn:E;
    [destruct (String.eqb kind ty); reflexivity|].
  rewrite <- E. clear E e es.
  rewrite tree_elements_item. cbn [app].
  rewrite tree_elements_map.
  destruct (String.eqb kind ty).
  - apply flat_map_leaves.
  - now apply flat_map_nil.
Qed.

Lemma tree_streams_of_location (location : Element) :
  tree_elements "stream" (stream_items location) =
  findall "stream" location.
Proof.
  unfold stream_items. rewrite tree_elements_map.
  apply flat_map_leaves.
Qed.

Lemma tree_streams_of_networks (inventory : Element) :
  tree_elements "stream" (network_items inventory) =
  walked_streams inventory.
Proof.
  unfold network_items, walked_streams. rewrite tree_elements_map.
  apply flat_map_ext. intros network. cbn [String.eqb Ascii.eqb app].
  unfold station_items. rewrite tree_elements_map.
  apply flat_map_ext. intros station.
  unfold location_items. rewrite tree_elements_map.
  apply flat_map_ext. intros location.
  apply tree_streams_of_location.
Qed.

Lemma tree_without_equipment (kind : string) (inventory : Element) :
  kind = "sensor"%string \/ kind = "datalogger"%string ->
  tree_elements kind (network_items inventory) = [].
Proof.
  intros Hk.
  unfold network_items. rewrite tree_elements_map.
  apply flat_map_nil. intros network.
  unfold station_items. rewrite tree_elements_map.
  rewrite flat_map_nil.
  { destruct Hk as [-> | ->]; reflexivity. }
  intros station.
  unfold location_items. rewrite tree_elements_map.
  rewrite flat_map_nil.
  { destruct Hk as [-> | ->]; reflexivity. }
  intros location.
  unfold stream_items. rewrite tree_elements_map.
  rewrite flat_map_nil.
  { destruct Hk as [-> | ->]; reflexivity. }
  intros stream. destruct Hk as [-> | ->]; reflexivity.
Qed.

End TreeView.

(** X17. The tree of the editor and the records of the analyzer.  For a
    document that the editor accepts, the stream items of the tree carry,
    from top to bottom, the streams that the analyzer's walk reaches, in
    its order: the analyzer parses the document without a message and
    makes one record per stream item, the record of the item's element.
    The sensor items and the datalogger items carry the sensors and
    dataloggers of the inventory in document order, those that the
    identifier index is built from. *)
Theorem X17_tree_agrees_with_analyzer (root : ET.Element) :
  Editor._validate_xml_structure root = true ->
  exists inventory self',
    ET.find "Inventory" root = Some inventory /\
    tree_elements "stream" (Editor.populate_tree root) =
      walked_streams inventory /\
    Analyzer.parse_inventory Analyzer.init (inr root) =
      Analyzer.Returns self' [] /\
    Forall2 (resolves self') (Analyzer.unified_data self')
      (tree_elements "stream" (Editor.populate_tree root)) /\
    tree_elements "sensor" (Editor.populate_tree root) =
      ET.findall_desc "sensor" inventory /\
    tree_elements "datalogger" (Editor.populate_tree root) =
      ET.findall_desc "datalogger" inventory.
Proof.
  unfold Editor._validate_xml_structure.
  destruct (negb _); [discriminate|].
  destruct (ET.find "Inventory" root) as [inventory|] eqn:Hf;
    [intros _ | discriminate].
  destruct (parse_inventory_walks root inventory Hf) as (self' & Hp & Hw).
  assert (Hs : tree_elements "stream" (Editor.populate_tree root) =
               walked_streams inventory).
  { rewrite (populate_tree_rows _ _ Hf), !tree_elements_app.
    rewrite tree_streams_of_networks, !tree_elements_equipment.
    cbn [String.eqb Ascii.eqb]. now rewrite !app_nil_r. }
  exists inventory, self'.
  split; [reflexivity|]. split; [exact Hs|]. split; [exact Hp|].
  split; [now rewrite Hs|].
  rewrite (populate_tree_rows _ _ Hf), !tree_elements_app.
  rewrite !tree_without_equipment by tauto.
  rewrite !tree_elements_equipment.
  cbn [String.eqb Ascii.eqb app]. split; [apply app_nil_r | reflexivity].
Qed.

Lemma X17_tree_agrees_with_analyzer_witness :
  exists inventory self',
    ET.find "Inventory" (sample_document ten_streams) = Some inventory /\
    tree_elements "stream"
      (Editor.populate_tree (sample_document ten_streams)) =
      walked_streams inventory /\
    Analyzer.parse_inventory Analyzer.init
      (inr (sample_document ten_streams)) = Analyzer.Returns self' [] /\
    Forall2 (resolves self') (Analyzer.unified_data self')
      (tree_elements "stream"
         (Editor.populate_tree (sample_document ten_streams))) /\
    tree_elements "sensor"
      (Editor.populate_tree (sample_document ten_streams)) =
      ET.findall_desc "sensor" inventory /\
    tree_elements "datalogger"
      (Editor.populate_tree (sample_document ten_streams)) =
      ET.findall_desc "datalogger" inventory.
Proof.
  apply (X17_tree_agrees_with_analyzer (sample_document ten_streams)).
  vm_compute. reflexivity.
Defined.

Section TreeItems.
Import ET Editor.

Lemma Forall_flat_map {X Y : Type} (P : Y -> Prop) (f : X -> list Y)
  (l : list X) :
  Forall (fun x => Forall P (f x)) l -> Forall P (flat_map f l).
Proof.
  induction 1 as [|x l Hx _ IH]; cbn [flat_map]; [constructor|].
  apply Forall_app; now split.
Qed.

Lemma Forall_map_items {X : Type} (P : TreeItem -> Prop)
  (build : X -> TreeItem) (l : list X) :
  Forall (fun x => Forall P (items_below (build x))) l ->
  Forall P (flat_map items_below (List.map build l)).
Proof.
  intros H. apply Forall_flat_map. now apply Forall_map.
Qed.

Lemma Forall_map_data {X : Type} (P : string * Element -> Prop)
  (build : X -> TreeItem) (l : list X) :
  Forall (fun x => Forall P (item_data_all (build x))) l ->
  Forall P (flat_map item_data_all (List.map build l)).
Proof.
  intros H. apply Forall_flat_map. now apply Forall_map.
Qed.

Lemma findall_tag (name : string) (e : Element) :
  Forall (fun c => tag c = sc3 name) (findall name e).
Proof.
  unfold findall. apply Forall_filter_tag. apply List.Forall_forall.
  intros c _ H. now apply String.eqb_eq in H.
Qed.

Lemma findall_desc_tag (name : string) (e : Element) :
  Forall (fun c => tag c = sc3 name) (findall_desc name e).
Proof.
  unfold findall_desc. apply Forall_filter_tag. apply List.Forall_forall.
  intros c _ H. now apply String.eqb_eq in H.
Qed.

Lemma network_items_typed (inventory : Element) :
  Forall typed (flat_map item_data_all (network_items inventory)).
Proof.
  unfold network_items. apply Forall_map_data.
  eapply Forall_impl; [apply findall_desc_tag|].
  intros network Hn. cbn [item_data_all].
  apply List.Forall_cons; [exact Hn|].
  unfold station_items. apply Forall_map_data.
  eapply Forall_impl; [apply findall_desc_tag|].
  intros station Hs. cbn [item_data_all].
  apply List.Forall_cons; [exact Hs|].
  unfold location_items. apply Forall_map_data.
  eapply Forall_impl; [apply findall_desc_tag|].
  intros location Hl. cbn [item_data_all].
  apply List.Forall_cons; [exact Hl|].
  unfold stream_items. apply Forall_map_data.
  eapply Forall_impl; [apply findall_tag|].
  intros stream Hst. cbn [item_data_all flat_map app].
  apply List.Forall_cons; [exact Hst | constructor].
Qed.

Lemma equipment_items_typed (header kind label : string)
  (equipment : list Element) :
  Forall (fun c => tag c = sc3 (tag_of_type kind)) equipment ->
  Forall typed
    (flat_map item_data_all (equipment_items header kind label equipment)).
Proof.
  intros H. unfold equipment_items.
  destruct equipment as [|e es] eqn:E; [constructor|].
  rewrite <- E in *. clear E e es.
  cbn [flat_map item_data_all app]. rewrite app_nil_r.
  apply Forall_map_data.
  eapply Forall_impl; [exact H|].
  intros e He. cbn [item_data_all flat_map app].
  apply List.Forall_cons; [exact He | constructor].
Qed.

Lemma network_items_carry_data (inventory : Element) :
  Forall (fun item => is_Some (item_data item))
         (flat_map items_below (network_items inventory)).
Proof.
  unfold network_items. apply Forall_map_items.
  apply List.Forall_forall. intros network _. cbn [items_below].
  apply List.Forall_cons; [eexists; reflexivity|].
  unfold station_items. apply Forall_map_items.
  apply List.Forall_forall. intros station _. cbn [items_below].
  apply List.Forall_cons; [eexists; reflexivity|].
  unfold location_items. apply Forall_map_items.
  apply List.Forall_forall. intros location _. cbn [items_below].
  apply List.Forall_cons; [eexists; reflexivity|].
  unfold stream_items. apply Forall_map_items.
  apply List.Forall_forall. intros stream _. cbn [items_below flat_map].
  apply List.Forall_cons; [eexists; reflexivity | constructor].
Qed.

Lemma equipment_items_header (header kind label : string)
  (equipment : list Element) :
  Exists (fun item => item_data item = None)
         (flat_map items_below (equipment_items header kind label equipment))
  <-> equipment <> [].
Proof.
  unfold equipment_items. destruct equipment as [|e es].
  - split; [intros H; inversion H | congruence].
  - split; [discriminate|]. intros _.
    cbn [flat_map items_below]. apply Exists_cons_hd. reflexivity.
Qed.

Lemma item_selected_raises (item : TreeItem) :
  (forall current_element,
     item_selected current_element item =
     (current_element, inl Py.TypeError))
  <-> item_data item = None.
Proof.
  unfold item_selected. split.
  - intros H. specialize (H None).
    destruct (item_data item) as [[ty el]|]; [discriminate H | reflexivity].
  - intros ->. reflexivity.
Qed.

End TreeItems.

(** X18. The type of an item and the element it carries.  In the tree
    that [populate_tree] builds, every item that carries data carries an
    element of the kind that its type names: a [stream] item a stream
    element, a [location] item a sensor location, and so on; so the
    method that [item_selected] chooses by the type of an item is given
    an element of its own kind. *)
Theorem X18_item_types_match_tags (root : ET.Element) :
  Forall
    (fun d : string * ET.Element =>
       ET.tag (snd d) = ET.sc3 (tag_of_type (fst d)))
    (flat_map item_data_all (Editor.populate_tree root)).
Proof.
  destruct (ET.find "Inventory" root) as [inventory|] eqn:Hf.
  - rewrite (populate_tree_rows _ _ Hf), !flat_map_app.
    apply Forall_app. split; [apply network_items_typed|].
    apply Forall_app.
    split; apply equipment_items_typed; apply findall_desc_tag.
  - unfold Editor.populate_tree. rewrite Hf. constructor.
Qed.

(** X19. The two group items.  The tree has an item without data, the
    group item [Sensors] or [Dataloggers], exactly when the inventory
    has a sensor or a datalogger; and the items without data are the
    items on which [item_selected] raises [TypeError] and leaves
    [current_element] as it was. *)
Theorem X19_group_items_raise (root inventory : ET.Element) :
  ET.find "Inventory" root = Some inventory ->
  (Exists
     (fun item =>
        forall current_element,
          Editor.item_selected current_element item =
          (current_element, inl Py.TypeError))
     (flat_map items_below (Editor.populate_tree root))
   <->
   ET.findall_desc "sensor" inventory <> [] \/
   ET.findall_desc "datalogger" inventory <> []).
Proof.
  intros Hf. rewrite (populate_tree_rows _ _ Hf), !flat_map_app.
  rewrite !Exists_app.
  rewrite <- (equipment_items_header "Sensors" "sensor" "Sensor: ").
  rewrite <- (equipment_items_header "Dataloggers" "datalogger"
                "Datalogger: ").
  assert (Hraise : forall items,
            Exists (fun item =>
                      forall current_element,
                        Editor.item_selected current_element item =
                        (current_element, inl Py.TypeError)) items
            <-> Exists (fun item => Editor.item_data item = None) items).
  { intros items. rewrite !Exists_exists.
    split; intros (item & Hi & H); exists item; (split; [exact Hi|]);
      now apply item_selected_raises. }
  rewrite !Hraise. split; [|tauto].
  intros [H|H]; [|exact H]. exfalso.
  apply Exists_exists in H as (item & Hi & Hn).
  pose proof (network_items_carry_data inventory) as Hall.
  rewrite List.Forall_forall in Hall.
  apply list_elem_of_In in Hi.
  destruct (Hall item Hi) as [d Hd]. congruence.
Qed.

Lemma X19_group_items_raise_witness :
  exists inventory,
    ET.find "Inventory" (sample_document []) = Some inventory /\
    Exists
      (fun item =>
         forall current_element,
           Editor.item_selected current_element item =
           (current_element, inl Py.TypeError))
      (flat_map items_below (Editor.populate_tree (sample_document []))).
Proof.
  eexists. split; [reflexivity|].
  apply (proj2 (X19_group_items_raise (sample_document []) _ eq_refl)).
  left. vm_compute. discriminate.
Defined.

(** *** Loading and closing *)

(** X20. What a load does to the session.  [load_xml] never touches
    [unsaved_changes]: a session with unsaved changes still has them
    after the call, also when another document has been loaded.  When
    the dialog is cancelled or a message box is shown, the session and
    the tree are as they were; otherwise the document was parsed and
    accepted, the session is on the new file and tree, and the tree
    widget shows the new document. *)
Theorem X20_load_keeps_unsaved_changes
  (filename : string) (parse : Editor.parse_result)
  (self : Editor.Session) (tree_widget : list Editor.TreeItem) :
  let result := Editor.load_xml filename parse self tree_widget in
  let self' := fst (fst result) in
  let tree_widget' := snd (fst result) in
  let shown := snd result in
  Editor.unsaved_changes self' = Editor.unsaved_changes self /\
  (Editor.state_of self = Editor.Dirty ->
   Editor.state_of self' = Editor.Dirty) /\
  (shown <> [] \/ filename = ""%string ->
   self' = self /\ tree_widget' = tree_widget) /\
  (shown = [] -> filename <> ""%string ->
   exists root,
     parse = Editor.Parsed root /\
     Editor._validate_xml_structure root = true /\
     Editor.current_file self' = Some filename /\
     Editor.tree self' = Some root /\
     tree_widget' = Editor.populate_tree root).
Proof.
  cbv zeta. unfold Editor.load_xml.
  destruct filename as [|c filename]; cbn [str_truthy fst snd].
  { repeat split; tauto. }
  destruct parse as [msg|e|root]; cbn [fst snd];
    try (repeat split; try tauto; try discriminate;
         intros [H|H]; reflexivity).
  destruct (Editor._validate_xml_structure root) eqn:Hv;
    cbn [negb fst snd Editor.unsaved_changes Editor.current_file
         Editor.tree].
  - split; [reflexivity|]. split.
    + unfold Editor.state_of. cbn [Editor.tree Editor.unsaved_changes].
      destruct (Editor.tree self); [tauto | discriminate].
    + split.
      * intros [H|H]; [now destruct H | discriminate H].
      * intros _ _. exists root. repeat split. exact Hv.
  - repeat split; try tauto; discriminate.
Qed.

Lemma X20_load_keeps_unsaved_changes_witness :
  Editor.state_of
    (fst (fst (Editor.load_xml "/data/other.xml"
                 (Editor.Parsed (sample_document []))
                 dirty_session []))) = Editor.Dirty /\
  Editor.current_file
    (fst (fst (Editor.load_xml "/data/other.xml"
                 (Editor.Parsed (sample_document []))
                 dirty_session []))) = Some "/data/other.xml"%string.
Proof.
  destruct (X20_load_keeps_unsaved_changes "/data/other.xml"
              (Editor.Parsed (sample_document [])) dirty_session [])
    as (_ & H1 & _ & H2).
  split; [apply H1; reflexivity|].
  destruct (H2 eq_refl ltac:(discriminate)) as (root & _ & _ & H & _).
  exact H.
Defined.

Section Closing.
Import ET Editor.

(** A save whose write fails ends in the handler, which puts the
    original back. *)
Lemma save_xml_write_fails (w : write_outcome) (self : Session)
  (fs : filesystem) (file backup : string) (root : Element)
  (original : file_data) :
  current_file self = Some file -> tree self = Some root ->
  with_suffix file ".xml.bak" = Some backup ->
  fs !! file = Some original ->
  w <> WriteOk ->
  exists fs',
    save_xml w self fs = inr (self, fs', [Py.OSError]) /\
    fs' !! file = Some original /\
    fs' !! backup = None.
Proof.
  intros Hf Ht Hb Ho Hw.
  pose proof (with_suffix_differs _ _ Hb) as Hne.
  unfold save_xml. rewrite Hf, Ht.
  rewrite (with_suffix_nonempty _ _ Hb), Hb.
  unfold rename at 1. rewrite Ho.
  destruct w; [congruence | |]; cbn [write];
    unfold save_handler, rename.
  - rewrite lookup_insert_eq.
    rewrite bool_decide_eq_true_2 by eauto. cbn [Py.bind].
    eexists. split; [reflexivity|].
    split; [apply lookup_insert_eq|].
    rewrite lookup_insert_ne by congruence. apply lookup_delete_eq.
  - rewrite lookup_insert_ne by congruence.
    rewrite lookup_insert_eq.
    rewrite bool_decide_eq_true_2 by eauto. cbn [Py.bind].
    eexists. split; [reflexivity|].
    split; [apply lookup_insert_eq|].
    rewrite lookup_insert_ne by congruence. apply lookup_delete_eq.
Qed.

End Closing.

(** X21. Closing after a save that fails.  When the window is closed
    with unsaved changes and [Save] is chosen, and the write of the save
    fails, the close event is accepted all the same: the window closes
    with the error shown, the document's path holds the original again,
    no backup is left, and the changes of the session are on no file. *)
Theorem X21_close_after_failed_save
  (w : Editor.write_outcome) (self : Editor.Session)
  (fs : gmap string Editor.file_data) (file backup : string)
  (root : ET.Element) (original : Editor.file_data) :
  Editor.unsaved_changes self = true ->
  Editor.current_file self = Some file ->
  Editor.tree self = Some root ->
  Editor.with_suffix file ".xml.bak" = Some backup ->
  fs !! file = Some original ->
  w <> Editor.WriteOk ->
  exists fs',
    Editor.closeEvent Editor.Save w self fs =
      inr (true, self, fs', [Py.OSError]) /\
    fs' !! file = Some original /\
    fs' !! backup = None /\
    Editor.state_of self = Editor.Dirty.
Proof.
  intros Hu Hf Ht Hb Ho Hw.
  destruct (save_xml_write_fails w self fs file backup root original
              Hf Ht Hb Ho Hw) as (fs' & Hs & H1 & H2).
  exists fs'. unfold Editor.closeEvent. rewrite Hu, Hs. cbn [Py.bind].
  repeat split; try assumption.
  unfold Editor.state_of. now rewrite Ht, Hu.
Qed.

Lemma X21_close_after_failed_save_witness :
  exists fs',
    Editor.closeEvent Editor.Save Editor.WriteFailsMidway
      dirty_session data_files =
      inr (true, dirty_session, fs', [Py.OSError]) /\
    fs' !! "/data/inventory.xml"%string =
      Some (Editor.Bytes "<seiscomp/>") /\
    fs' !! "/data/inventory.xml.bak"%string = None /\
    Editor.state_of dirty_session = Editor.Dirty.
Proof.
  apply (X21_close_after_failed_save Editor.WriteFailsMidway
           dirty_session data_files
           "/data/inventory.xml" "/data/inventory.xml.bak"
           bare_station (Editor.Bytes "<seiscomp/>"));
    try reflexivity.
  discriminate.
Defined.

(** *** A stream commit that fails *)

Section FailedCommit.
Import ET Editor.

Lemma rate_updates_raises (rate_text : string) (x : Py.exn) :
  rate_updates rate_text = inl x <->
  x = Py.OverflowError /\
  exists s, Py.float_of_str rate_text = Some (S754_infinity s).
Proof.
  unfold rate_updates, Py.float.
  destruct (Py.float_of_str rate_text) as [r|].
  - destruct r as [s|s| |s m e]; cbn [Py.int]; split;
      try discriminate;
      try (intros [_ [s' H]]; discriminate H).
    + intros [= <-]. eauto.
    + intros [-> _]. reflexivity.
  - split; [discriminate|]. intros [_ [s H]]. discriminate H.
Qed.

End FailedCommit.

(** X22. When a stream commit fails.  [update_stream] ends in its error
    handler exactly when the text of the rate field denotes an infinity,
    and the exception is then [OverflowError].  The commit is left half
    done: the code and the fields from [start] to [gain] are written to
    the node as in a commit that succeeds, while the sample rate and the
    fields from [gainFrequency] to [flags] are as they were. *)
Theorem X22_failed_stream_commit (f : Editor.stream_form) (e : ET.Element) :
  ((exists n x, Editor.update_stream f e = Editor.Failed n x) <->
   (exists s, Py.float_of_str (Editor.stream_sampleRate f) =
              Some (S754_infinity s))) /\
  (forall n x,
     Editor.update_stream f e = Editor.Failed n x ->
     x = Py.OverflowError /\
     n = apply_fields (stream_fields_before f)
           (ET.set "code" (Editor.stream_code f) e) /\
     Forall (fun t => ET.findall t n = ET.findall t e)
       ("sampleRateNumerator" :: "sampleRateDenominator"
        :: List.map fst (stream_fields_after f))%string).
Proof.
  rewrite update_stream_shape. cbv zeta.
  destruct (rate_updates (Editor.stream_sampleRate f)) as [x|us] eqn:Hr.
  - apply rate_updates_raises in Hr as [-> Hinf].
    split.
    + split; [intros _; exact Hinf | intros _; eauto].
    + intros n x H.
      assert (Hx : x = Py.OverflowError) by congruence.
      assert (Hn : n = apply_fields (stream_fields_before f)
                         (ET.set "code" (Editor.stream_code f) e))
        by congruence.
      split; [exact Hx|]. split; [exact Hn|].
      apply List.Forall_forall. intros t Ht.
      rewrite Hn, findall_apply_fields.
      * reflexivity.
      * cbn in Ht |- *. intuition (subst; discriminate).
  - split.
    + split.
      * intros (n & x & H). discriminate H.
      * intros Hinf.
        assert (H : rate_updates (Editor.stream_sampleRate f) =
                    inl Py.OverflowError)
          by (apply rate_updates_raises; split; [reflexivity | exact Hinf]).
        congruence.
    + intros n x H. discriminate H.
Qed.

Lemma X22_failed_stream_commit_witness :
  exists n,
    Editor.update_stream (bhz_form "BHN" "1e999") bhz_stream =
      Editor.Failed n Py.OverflowError /\
    n = apply_fields (stream_fields_before (bhz_form "BHN" "1e999"))
          (ET.set "code" "BHN" bhz_stream) /\
    ET.findall "flags" n = ET.findall "flags" bhz_stream.
Proof.
  assert (Hinf : exists s,
            Py.float_of_str
              (Editor.stream_sampleRate (bhz_form "BHN" "1e999")) =
            Some (S754_infinity s))
    by (exists false; vm_compute; reflexivity).
  destruct (proj2 (proj1 (X22_failed_stream_commit
                            (bhz_form "BHN" "1e999") bhz_stream)) Hinf)
    as (n & x & H).
  destruct (proj2 (X22_failed_stream_commit
                     (bhz_form "BHN" "1e999") bhz_stream) n x H)
    as (-> & Hn & Hall).
  exists n. split; [exact H|]. split; [exact Hn|].
  rewrite List.Forall_forall in Hall. apply Hall.
  cbn. tauto.
Defined.

(** *** The path of the backup *)

Section BackupPath.
Import Editor.

Lemma rpartition_app_no_sep (sep : ascii) (a b : string) :
  rpartition sep b = None ->
  rpartition sep (a ++ b) =
  match rpartition sep a with
  | Some (x, y) => Some (x, (y ++ b)%string)
  | None => None
  end.
Proof.
  intros Hb. induction a as [|c a IH]; [exact Hb|].
  rewrite append_cons. cbn [rpartition]. rewrite IH.
  destruct (rpartition sep a) as [[x y]|]; [reflexivity|].
  destruct (Ascii.eqb c sep); reflexivity.
Qed.

Lemma rpartition_app_sep (sep : ascii) (a b : string) :
  rpartition sep b = None ->
  rpartition sep (a ++ String sep b) = Some (a, b).
Proof.
  intros Hb. induction a as [|c a IH].
  - change (rpartition sep (String sep b) = Some (""%string, b)).
    cbn [rpartition]. now rewrite Hb, Ascii.eqb_refl.
  - rewrite append_cons. cbn [rpartition]. now rewrite IH.
Qed.

Lemma append_empty_r (s : string) : (s ++ "")%string = s.
Proof.
  induction s as [|c s IH]; [reflexivity|].
  now rewrite append_cons, IH.
Qed.

End BackupPath.

(** X23. Where the backup goes.  For a document whose path ends in
    [.xml] after a non-empty file name, the backup path that [save_xml]
    computes is the path of the document followed by [.bak]: the backup
    lies beside the document, and the dots and directories in the rest
    of the path play no part. *)
Theorem X23_backup_path (p : string) :
  p <> ""%string ->
  (forall q : string, p <> (q ++ "/")%string) ->
  Editor.with_suffix (p ++ ".xml") ".xml.bak" = Some (p ++ ".xml.bak")%string.
Proof.
  intros Hne Hslash. unfold Editor.with_suffix.
  rewrite (rpartition_app_no_sep "/" p ".xml" eq_refl).
  assert (Hname : forall (dir q : string),
            q <> ""%string ->
            match (q ++ ".xml")%string with
            | EmptyString => None
            | String _ _ =>
                match Editor.rpartition "." (q ++ ".xml") with
                | Some (String c stem, String c' ext) =>
                    Some (dir ++ String c stem ++ ".xml.bak")%string
                | _ => Some (dir ++ (q ++ ".xml") ++ ".xml.bak")%string
                end
            end = Some (dir ++ q ++ ".xml.bak")%string).
  { intros dir q Hq.
    change (q ++ ".xml")%string with (q ++ String "." "xml")%string.
    rewrite (rpartition_app_sep "." q "xml" eq_refl).
    destruct q as [|c q]; [congruence|].
    rewrite append_cons. reflexivity. }
  destruct (Editor.rpartition "/" p) as [[d q]|] eqn:Hr.
  - apply rpartition_spec in Hr as [Hp _].
    assert (Hq : q <> ""%string).
    { intros ->. apply (Hslash d). exact Hp. }
    rewrite (Hname (d ++ "/")%string q Hq). f_equal.
    rewrite Hp.
    change (d ++ String "/" q)%string with (d ++ "/" ++ q)%string.
    now rewrite !append_assoc.
  - apply (Hname ""%string p Hne).
Qed.

Lemma X23_backup_path_witness :
  Editor.with_suffix ("/data/2024.06/inventory" ++ ".xml") ".xml.bak" =
  Some ("/data/2024.06/inventory" ++ ".xml.bak")%string.
Proof.
  apply X23_backup_path.
  - discriminate.
  - intros q H. apply (f_equal (Editor.rpartition "/")) in H.
    rewrite (rpartition_app_sep "/" q "" eq_refl) in H.
    vm_compute in H. discriminate H.
Defined.
